(** * Sensorlab observer: experiment and node-profile archive loaders

    A shallow embedding of [observer/m_node/m_experiment_setup.py] and
    [observer/m_node/m_node_setup.py].  Both modules define a class
    [Loader] whose constructor copies a tar archive into a fresh temporary
    directory, checks the archive's member names, extracts it behind a
    path-traversal check, reads and validates [manifest.yml], and then
    registers firmwares (experiment) or rewrites the placeholders of the
    controller commands (node profile).

    Python values are embedded as follows.
    - [str] is [string]; the functions of [os.path] that the loaders call
      are transcribed from CPython's [posixpath].
    - what [yaml.load] returns is a tree [yaml] of mappings, sequences and
      scalars; mapping keys are strings, scalars are [str], [int], [bool]
      and [None].  The parser itself is a parameter [yaml_load].
    - exceptions are values of [exn]; a computation that may raise while it
      mutates [self] and the disk is a function
      [state -> result A * state], so the state reached when an exception
      is raised stays observable.
    - a [dict] built by the loader ([self.firmwares]) is a [gmap]; the disk
      is a [gmap] from canonical absolute paths to nodes, on which the
      paths that come from an archive or a manifest are followed name by
      name, as the system does; [tarfile] and [os.makedirs] are
      transcribed from CPython 3.11. *)

From Stdlib Require Import String Ascii List ZArith Lia Bool.
From Stdlib Require Import Numbers.DecimalString.
From stdpp Require Import base gmap strings list fin_maps.

Local Open Scope string_scope.
Set Warnings "-register-all".

(** ** Exceptions and results *)

(** The argument handed to [str.format] on one of the message templates of
    [m_common].  The templates themselves are not part of the two modules,
    so an exception keeps the template's name and the formatted argument.
    [Text s] is a plain string argument; [MissingElements missing contents]
    stands for
    ['missing elements: ' + str(missing) + ' of archive_contents: ' + str(contents)]. *)
Inductive format_arg : Type :=
| Text (s : string)
| MissingElements (missing contents : list string).

Inductive message : Type :=
| ERROR_MISSING_ARGUMENT_IN_ARCHIVE (arg : format_arg)
| ERROR_MISSING_ARGUMENT_IN_MANIFEST (arg : format_arg).

Inductive exn : Type :=
| ExperimentSetupException (msg : message)
| NodeSetupException (msg : message)
| Exception (msg : string)
| KeyError
| TypeError
| ValueError
| AttributeError
| RuntimeError
| FileNotFoundError
| FileExistsError
| IsADirectoryError
| NotADirectoryError
| YAMLError.

Inductive result (A : Type) : Type :=
| Ok (a : A)
| Raise (e : exn).
Arguments Ok {A} a.
Arguments Raise {A} e.

Definition result_bind {A B} (r : result A) (k : A -> result B) : result B :=
  match r with
  | Ok a => k a
  | Raise e => Raise e
  end.

(** ** [str] methods *)

Module Str.

Fixpoint startswith (p s : string) : bool :=
  match p, s with
  | EmptyString, _ => true
  | String a p', String b s' => Ascii.eqb a b && startswith p' s'
  | String _ _, EmptyString => false
  end.

Fixpoint endswith_char (c : ascii) (s : string) : bool :=
  match s with
  | EmptyString => false
  | String a EmptyString => Ascii.eqb a c
  | String _ s' => endswith_char c s'
  end.

(** [s.split(sep)] for a one-character separator. *)
Fixpoint split (sep : ascii) (s : string) : list string :=
  match s with
  | EmptyString => [EmptyString]
  | String c s' =>
      if Ascii.eqb c sep then EmptyString :: split sep s'
      else match split sep s' with
           | w :: ws => String c w :: ws
           | [] => [String c EmptyString]
           end
  end.

(** [sep.join(l)]. *)
Definition join (sep : string) (l : list string) : string := String.concat sep l.

(** [s.replace(old, new)]: the occurrences of [old] are found from left
    to right and do not overlap.  [skip] counts the characters of the
    occurrence just replaced that are still to be passed over.  With an
    empty [old] Python inserts [new] before every character and at the
    end. *)
Fixpoint replace_from (old new : string) (skip : nat) (s : string) : string :=
  match s with
  | EmptyString => EmptyString
  | String c s' =>
      match skip with
      | S k => replace_from old new k s'
      | O =>
          if startswith old s
          then new +:+ replace_from old new (String.length old - 1) s'
          else String c (replace_from old new 0 s')
      end
  end.

Fixpoint intersperse (new : string) (s : string) : string :=
  match s with
  | EmptyString => new
  | String c s' => new +:+ String c (intersperse new s')
  end.

Definition replace (s old new : string) : string :=
  match old with
  | EmptyString => intersperse new s
  | String _ _ => replace_from old new 0 s
  end.

(** [sub in s]. *)
Fixpoint contains (sub s : string) : bool :=
  startswith sub s ||
  match s with
  | EmptyString => false
  | String _ s' => contains sub s'
  end.

(** [s.rstrip(c)] for one character. *)
Fixpoint rstrip (c : ascii) (s : string) : string :=
  match s with
  | EmptyString => EmptyString
  | String a s' =>
      match rstrip c s' with
      | EmptyString => if Ascii.eqb a c then EmptyString else String a EmptyString
      | r => String a r
      end
  end.

(** The characters of [s], as one-character strings (iterating a [str]). *)
Fixpoint chars (s : string) : list string :=
  match s with
  | EmptyString => []
  | String c s' => String c EmptyString :: chars s'
  end.

End Str.

(** ** [os.path] on POSIX *)

Module posixpath.

Definition sep : ascii := "/"%char.

(** [os.path.join(a, b)]. *)
Definition join (a b : string) : string :=
  if Str.startswith "/" b then b
  else if (String.eqb a "" || Str.endswith_char sep a)%bool then a +:+ b
  else a +:+ "/" +:+ b.

(** One round of the loop of [normpath]; [new_comps] is kept with its
    last component first, so that [append] is a cons and [pop] drops the
    head. *)
Definition normpath_step (initial_slashes : nat) (new_comps : list string)
    (comp : string) : list string :=
  if (String.eqb comp "" || String.eqb comp ".")%bool then new_comps
  else if (negb (String.eqb comp "..")
           || (Nat.eqb initial_slashes 0 && match new_comps with [] => true | _ => false end)
           || match new_comps with last :: _ => String.eqb last ".." | [] => false end)%bool
       then comp :: new_comps
       else match new_comps with
            | _ :: rest => rest
            | [] => new_comps
            end.

Fixpoint repeat_sep (n : nat) : string :=
  match n with
  | O => EmptyString
  | S k => String sep (repeat_sep k)
  end.

(** [os.path.normpath(path)]. *)
Definition normpath (path : string) : string :=
  if String.eqb path "" then "."
  else
    let initial_slashes :=
      if Str.startswith "/" path then
        if (Str.startswith "//" path && negb (Str.startswith "///" path))%bool
        then 2 else 1
      else 0 in
    let comps := Str.split sep path in
    let new_comps := fold_left (normpath_step initial_slashes) comps [] in
    let path := Str.join "/" (rev new_comps) in
    let path := repeat_sep initial_slashes +:+ path in
    if String.eqb path "" then "." else path.

(** [os.path.abspath(path)], with the current directory as an argument. *)
Definition abspath (cwd path : string) : string :=
  if Str.startswith "/" path then normpath path
  else normpath (join cwd path).

(** [(p[:i], p[i:])] with [i = p.rfind('/') + 1]. *)
Fixpoint rpartition (p : string) : string * string :=
  match p with
  | EmptyString => (EmptyString, EmptyString)
  | String c p' =>
      let (head, tail) := rpartition p' in
      if negb (String.eqb head "") then (String c head, tail)
      else if Ascii.eqb c sep then (String sep EmptyString, tail)
      else (EmptyString, String c tail)
  end.

(** [head == sep * len(head)]. *)
Fixpoint all_seps (head : string) : bool :=
  match head with
  | EmptyString => true
  | String c head' => (Ascii.eqb c sep && all_seps head')%bool
  end.

(** [os.path.split(p)]. *)
Definition split (p : string) : string * string :=
  let (head, tail) := rpartition p in
  let head :=
    if (negb (String.eqb head "") && negb (all_seps head))%bool
    then Str.rstrip sep head else head in
  (head, tail).

(** [os.path.dirname(p)]. *)
Definition dirname (p : string) : string := (split p).1.

(** [os.path.commonprefix([s1, s2])]: the longest common prefix,
    character by character. *)
Fixpoint commonprefix (s1 s2 : string) : string :=
  match s1, s2 with
  | String a s1', String b s2' =>
      if Ascii.eqb a b then String a (commonprefix s1' s2') else EmptyString
  | _, _ => EmptyString
  end.

End posixpath.

(** ** The disk *)

(** The disk binds canonical absolute paths to what is there.  A path
    that is bound to nothing is a directory when something is bound
    below it, as is the root.  Symbolic links, permissions, quotas and
    the limits on the length of a name are not modelled. *)
Inductive node : Type :=
| Dir
| File (data : string).

Abbreviation FS := (gmap string node).

(** [p] is [root] or lies below it: [root] followed by a separator is a
    prefix of [p]. *)
Definition below (root p : string) : bool :=
  (String.eqb p root || Str.startswith (root +:+ "/") p)%bool.

(** A place on the disk: the names that lead to it from the root, the
    last one first. *)
Definition canonical (here : list string) : string :=
  "/" +:+ Str.join "/" (rev here).

Definition binds_below (disk : FS) (root : string) : bool :=
  existsb (fun kv => Str.startswith (root +:+ "/") kv.1) (map_to_list disk).

Definition node_at (disk : FS) (here : list string) : option node :=
  match here with
  | [] => Some Dir
  | _ =>
      match disk !! canonical here with
      | Some n => Some n
      | None => if binds_below disk (canonical here) then Some Dir else None
      end
  end.

(** How the system follows the names of a path, one after the other:
    every name, the empty one of a doubled or final separator included,
    is looked up in a directory. *)
Fixpoint follow (disk : FS) (here : list string) (names : list string)
    : result (list string) :=
  match names with
  | [] => Ok here
  | name :: rest =>
      match node_at disk here with
      | Some Dir =>
          if (String.eqb name "" || String.eqb name ".")%bool then follow disk here rest
          else if String.eqb name ".." then follow disk (tail here) rest
          else follow disk (name :: here) rest
      | Some (File _) => Raise NotADirectoryError
      | None => Raise FileNotFoundError
      end
  end.

(** [os.stat(path)]: where the path leads and what is there. *)
Definition stat (cwd : string) (disk : FS) (path : string) : result (list string * node) :=
  if String.eqb path "" then Raise FileNotFoundError
  else
    match follow disk [] (Str.split "/" (posixpath.join cwd path)) with
    | Ok here =>
        match node_at disk here with
        | Some n => Ok (here, n)
        | None => Raise FileNotFoundError
        end
    | Raise e => Raise e
    end.

(** [os.path.exists(path)] and [os.path.isfile(path)]: [os.stat] with
    its errors turned into [False]. *)
Definition exists_ (cwd : string) (disk : FS) (path : string) : bool :=
  match stat cwd disk path with
  | Ok _ => true
  | Raise _ => false
  end.

Definition isfile (cwd : string) (disk : FS) (path : string) : bool :=
  match stat cwd disk path with
  | Ok (_, File _) => true
  | _ => false
  end.

(** The names of a path without the empty ones of its final separators,
    as the directory to look in and the last name. *)
Fixpoint drop_final_empty (names : list string) : list string :=
  match names with
  | [] => []
  | name :: rest =>
      match drop_final_empty rest with
      | [] => if String.eqb name "" then [] else [name]
      | rest' => name :: rest'
      end
  end.

Fixpoint init_and_last (names : list string) : option (list string * string) :=
  match names with
  | [] => None
  | name :: rest =>
      match init_and_last rest with
      | None => Some ([], name)
      | Some (init, last) => Some (name :: init, last)
      end
  end.

(** The directory in which the last name of a path is looked up. *)
Definition parent_directory (disk : FS) (init : list string) : result (list string) :=
  match follow disk [] init with
  | Ok here =>
      match node_at disk here with
      | Some Dir => Ok here
      | Some (File _) => Raise NotADirectoryError
      | None => Raise FileNotFoundError
      end
  | Raise e => Raise e
  end.

(** [os.mkdir(path)]. *)
Definition mkdir (cwd path : string) (disk : FS) : result unit * FS :=
  if String.eqb path "" then (Raise FileNotFoundError, disk)
  else
    match init_and_last (drop_final_empty (Str.split "/" (posixpath.join cwd path))) with
    | None => (Raise FileExistsError, disk)
    | Some (init, name) =>
        match parent_directory disk init with
        | Raise e => (Raise e, disk)
        | Ok here =>
            if (String.eqb name "." || String.eqb name "..")%bool
            then (Raise FileExistsError, disk)
            else
              match node_at disk (name :: here) with
              | Some _ => (Raise FileExistsError, disk)
              | None => (Ok tt, <[canonical (name :: here) := Dir]> disk)
              end
        end
    end.

(** [with open(path, 'wb') as target: target.write(data)]. *)
Definition write_file (cwd path data : string) (disk : FS) : result unit * FS :=
  if String.eqb path "" then (Raise FileNotFoundError, disk)
  else
    match init_and_last (Str.split "/" (posixpath.join cwd path)) with
    | None => (Raise FileNotFoundError, disk)
    | Some (init, name) =>
        match parent_directory disk init with
        | Raise e => (Raise e, disk)
        | Ok here =>
            if (String.eqb name "" || String.eqb name "." || String.eqb name "..")%bool
            then (Raise IsADirectoryError, disk)
            else
              match node_at disk (name :: here) with
              | Some Dir => (Raise IsADirectoryError, disk)
              | _ => (Ok tt, <[canonical (name :: here) := File data]> disk)
              end
        end
    end.

(** [os.makedirs(name)] with its default [exist_ok=False].  The function
    calls itself on the head of [name], which is shorter: [fuel] bounds
    the depth of the calls, as the recursion limit of the interpreter
    does. *)
Fixpoint makedirs_within (fuel : nat) (cwd name : string) (disk : FS) : result unit * FS :=
  match fuel with
  | O => (Raise RuntimeError, disk)
  | S fuel' =>
      let (head, tail) := posixpath.split name in
      let (head, tail) :=
        if String.eqb tail "" then posixpath.split head else (head, tail) in
      if (negb (String.eqb head "") && negb (String.eqb tail "")
          && negb (exists_ cwd disk head))%bool
      then
        match makedirs_within fuel' cwd head disk with
        | (Raise FileExistsError, disk') | (Ok _, disk') =>
            if String.eqb tail "." then (Ok tt, disk') else mkdir cwd name disk'
        | (Raise e, disk') => (Raise e, disk')
        end
      else mkdir cwd name disk
  end.

Definition makedirs (cwd name : string) (disk : FS) : result unit * FS :=
  makedirs_within (S (String.length name)) cwd name disk.

(** [open(path, 'r').read()] of a path made of the workspace and a fixed
    name. *)
Definition read_file (cwd : string) (disk : FS) (path : string) : result string :=
  match disk !! posixpath.abspath cwd path with
  | Some (File data) => Ok data
  | Some Dir => Raise IsADirectoryError
  | None => Raise FileNotFoundError
  end.

(** [shutil.rmtree(path)] with its default [ignore_errors=False]: a path
    that does not exist raises, a file raises, a directory is removed with
    everything below it. *)
Definition rmtree (cwd path : string) (disk : FS) : result unit * FS :=
  let root := posixpath.abspath cwd path in
  match disk !! root with
  | None => (Raise FileNotFoundError, disk)
  | Some (File _) => (Raise NotADirectoryError, disk)
  | Some Dir => (Ok tt, filter (fun kv => below root kv.1 = false) disk)
  end.

(** ** Tar archives *)

Module tarfile.

Inductive member_type : Type := REGTYPE | DIRTYPE.

(** A member of an archive: regular files and directories. *)
Record TarInfo : Type := {
  name : string;
  type : member_type;
  data : string
}.

(** An opened archive: the bytes it was read from and its members. *)
Record TarFile : Type := {
  raw : string;
  members : list TarInfo
}.

Definition getmembers (tar : TarFile) : list TarInfo := members tar.

Definition getnames (tar : TarFile) : list string := map name (getmembers tar).

(** The canonical path of [os.path.join(path, name)], where a member of
    [extractall(path)] goes. *)
Definition destination (cwd path : string) (m : TarInfo) : string :=
  posixpath.abspath cwd (posixpath.join path (name m)).

(** [TarFile._extract_member(tarinfo, targetpath)]: the directories
    above the target are created when they do not exist; a regular file
    is written over what is there; for a directory [makedir] calls
    [os.mkdir] and passes over [FileExistsError]. *)
Definition _extract_member (cwd : string) (tarinfo : TarInfo) (targetpath : string)
    (disk : FS) : result unit * FS :=
  let targetpath := Str.rstrip "/" targetpath in
  let upperdirs := posixpath.dirname targetpath in
  let (r, disk) :=
    if (negb (String.eqb upperdirs "") && negb (exists_ cwd disk upperdirs))%bool
    then makedirs cwd upperdirs disk
    else (Ok tt, disk) in
  match r with
  | Raise e => (Raise e, disk)
  | Ok _ =>
      match type tarinfo with
      | REGTYPE => write_file cwd targetpath (data tarinfo) disk
      | DIRTYPE =>
          match mkdir cwd targetpath disk with
          | (Raise FileExistsError, disk') => (Ok tt, disk')
          | outcome => outcome
          end
      end
  end.

(** [tar.extract(member, path)] with the default [errorlevel] of 1: an
    [OSError] is raised to the caller. *)
Definition extract (cwd path : string) (m : TarInfo) (disk : FS) : result unit * FS :=
  _extract_member cwd m (posixpath.join path (name m)) disk.

(** [tar.extractall(path)]: every member, in archive order, until one
    raises. *)
Fixpoint extract_each (cwd path : string) (members : list TarInfo) (disk : FS)
    : result unit * FS :=
  match members with
  | [] => (Ok tt, disk)
  | m :: rest =>
      match extract cwd path m disk with
      | (Ok _, disk') => extract_each cwd path rest disk'
      | (Raise e, disk') => (Raise e, disk')
      end
  end.

Definition extractall (cwd path : string) (tar : TarFile) (disk : FS) : result unit * FS :=
  extract_each cwd path (getmembers tar) disk.

End tarfile.

(** ** The parsed manifest *)

Inductive scalar : Type :=
| SStr (s : string)
| SInt (z : Z)
| SBool (b : bool)
| SNone.

Inductive yaml : Type :=
| YScalar (v : scalar)
| YSeq (items : list yaml)
| YMap (entries : list (string * yaml)).

Definition YStr (s : string) : yaml := YScalar (SStr s).

(** A [dict] read from a manifest keeps its entries in insertion order. *)
Fixpoint lookup_entry (k : string) (entries : list (string * yaml)) : option yaml :=
  match entries with
  | [] => None
  | (k', v) :: rest => if String.eqb k' k then Some v else lookup_entry k rest
  end.

(** [d[k] = v] on the entries of a [dict]: an existing key keeps its
    place, a new key goes last. *)
Fixpoint set_entry (k : string) (v : yaml) (entries : list (string * yaml))
    : list (string * yaml) :=
  match entries with
  | [] => [(k, v)]
  | (k', v') :: rest =>
      if String.eqb k' k then (k', v) :: rest else (k', v') :: set_entry k v rest
  end.

(** [obj[key]] for a string [key]: only a mapping can be subscripted with
    a string. *)
Definition getitem (obj : yaml) (key : string) : result yaml :=
  match obj with
  | YMap entries =>
      match lookup_entry key entries with
      | Some v => Ok v
      | None => Raise KeyError
      end
  | _ => Raise TypeError
  end.

(** [obj[key] = v] for a string [key]. *)
Definition setitem (obj : yaml) (key : string) (v : yaml) : result yaml :=
  match obj with
  | YMap entries => Ok (YMap (set_entry key v entries))
  | _ => Raise TypeError
  end.

(** [for x in obj]: a sequence yields its items, a mapping its keys, a
    string its characters; the other scalars are not iterable. *)
Definition iterate (obj : yaml) : result (list yaml) :=
  match obj with
  | YSeq items => Ok items
  | YMap entries => Ok (map (fun kv => YStr kv.1) entries)
  | YScalar (SStr s) => Ok (map YStr (Str.chars s))
  | YScalar _ => Raise TypeError
  end.

(** [bool(obj)]. *)
Definition truthy (obj : yaml) : bool :=
  match obj with
  | YSeq items => negb (Nat.eqb (length items) 0)
  | YMap entries => negb (Nat.eqb (length entries) 0)
  | YScalar (SStr s) => negb (String.eqb s "")
  | YScalar (SInt z) => negb (Z.eqb z 0)
  | YScalar (SBool b) => b
  | YScalar SNone => false
  end.

(** [os.fspath(obj)], as [os.path.join] applies it to its arguments. *)
Definition fspath (obj : yaml) : result string :=
  match obj with
  | YScalar (SStr s) => Ok s
  | _ => Raise TypeError
  end.

(** Keys of [self.firmwares].  [hash] and [==] identify [True] with [1]
    and [False] with [0]; sequences and mappings are unhashable. *)
Inductive pykey : Type :=
| KStr (s : string)
| KInt (z : Z)
| KNone.

Definition hash_key (obj : yaml) : result pykey :=
  match obj with
  | YScalar (SStr s) => Ok (KStr s)
  | YScalar (SInt z) => Ok (KInt z)
  | YScalar (SBool b) => Ok (KInt (if b then 1 else 0)%Z)
  | YScalar SNone => Ok KNone
  | _ => Raise TypeError
  end.

Global Instance pykey_eq_dec : EqDecision pykey.
Proof. solve_decision. Defined.

Global Instance pykey_countable : Countable pykey.
Proof.
  refine (inj_countable'
    (fun k => match k with
              | KStr s => inl s
              | KInt z => inr (Some z)
              | KNone => inr None
              end)
    (fun x => match x with
              | inl s => KStr s
              | inr (Some z) => KInt z
              | inr None => KNone
              end) _).
  intros []; reflexivity.
Defined.

(** [str(obj)] as [str.format] renders a value.  How Python prints a
    sequence or a mapping ([repr] of every item) is left as the parameter
    [py_repr]. *)
Definition py_str (py_repr : yaml -> string) (obj : yaml) : string :=
  match obj with
  | YScalar (SStr s) => s
  | YScalar (SInt z) => NilEmpty.string_of_int (Z.to_int z)
  | YScalar (SBool true) => "True"
  | YScalar (SBool false) => "False"
  | YScalar SNone => "None"
  | _ => py_repr obj
  end.

(** [cmd.replace]: only a [str] has the method; the result is the method
    bound to [cmd], still to be applied to [old] and [new]. *)
Definition replace_method (cmd : yaml) : result (string -> string -> string) :=
  match cmd with
  | YScalar (SStr s) => Ok (Str.replace s)
  | _ => Raise AttributeError
  end.

(** [obj.items()], as far as the names it yields: only a mapping has the
    method. *)
Definition items_names (obj : yaml) : result (list string) :=
  match obj with
  | YMap entries => Ok (map fst entries)
  | _ => Raise AttributeError
  end.

(** [len(obj)] for a mapping, as its iterator reads it. *)
Definition dict_size (obj : yaml) : nat :=
  match obj with
  | YMap entries => length entries
  | _ => 0
  end.

(** A value used as the key of a subscript on a manifest mapping: the
    mappings of the model have string keys. *)
Definition subscript_key (obj : yaml) : result string :=
  match obj with
  | YScalar (SStr s) => Ok s
  | _ => Raise TypeError
  end.

(** [a, b = obj]: [obj] is iterated and must yield exactly two values. *)
Definition unpack2 (obj : yaml) : result (yaml * yaml) :=
  match iterate obj with
  | Ok [a; b] => Ok (a, b)
  | Ok _ => Raise ValueError
  | Raise e => Raise e
  end.

(** [x in l] for a list of strings. *)
Definition py_in (x : string) (l : list string) : bool := existsb (String.eqb x) l.

(** ** Computations that raise and mutate *)

Definition M (S A : Type) : Type := S -> result A * S.

Definition ret {S A} (a : A) : M S A := fun st => (Ok a, st).

Definition bind {S A B} (m : M S A) (k : A -> M S B) : M S B :=
  fun st =>
    match m st with
    | (Ok a, st') => k a st'
    | (Raise e, st') => (Raise e, st')
    end.

Definition raise {S A} (e : exn) : M S A := fun st => (Raise e, st).

Definition lift {S A} (r : result A) : M S A := fun st => (r, st).

Definition get {S} : M S S := fun st => (Ok st, st).

Definition modify {S} (f : S -> S) : M S unit := fun st => (Ok tt, f st).

Notation "x <- m ;; k" := (bind m (fun x => k))
  (at level 63, m at next level, right associativity).
Notation "m ;;; k" := (bind m (fun _ => k))
  (at level 63, right associativity).

(** [for x in l: body(x)]. *)
Fixpoint for_each {S A} (l : list A) (body : A -> M S unit) : M S unit :=
  match l with
  | [] => ret tt
  | x :: rest => body x ;;; for_each rest body
  end.

(** ** The extraction guard

    [is_within_directory] and [safe_extract] are defined inside the
    constructor of both loaders, with the same text. *)

Definition is_within_directory (cwd directory target : string) : bool :=
  let abs_directory := posixpath.abspath cwd directory in
  let abs_target := posixpath.abspath cwd target in
  let prefix := posixpath.commonprefix abs_directory abs_target in
  String.eqb prefix abs_directory.

(** The loop of [safe_extract]: it writes nothing. *)
Fixpoint check_members (cwd path : string) (members : list tarfile.TarInfo) : result unit :=
  match members with
  | [] => Ok tt
  | member :: rest =>
      let member_path := posixpath.join path (tarfile.name member) in
      if negb (is_within_directory cwd path member_path)
      then Raise (Exception "Attempted Path Traversal in Tar File")
      else check_members cwd path rest
  end.

Definition safe_extract (cwd : string) (tar : tarfile.TarFile) (path : string) : M FS unit :=
  lift (check_members cwd path (tarfile.getmembers tar)) ;;;
  tarfile.extractall cwd path tar.

(** The walk of one mandatory path through the manifest: every
    [iterator = iterator[element]] sits in a [try] whose bare [except]
    turns any exception into the loader's own, built by [missing] from the
    element. *)
Fixpoint walk (missing : string -> exn) (iterator : yaml) (path_elements : list string)
    : result yaml :=
  match path_elements with
  | [] => Ok iterator
  | element :: rest =>
      match getitem iterator element with
      | Ok v => walk missing v rest
      | Raise _ => Raise (missing element)
      end
  end.

(** ** [m_experiment_setup.py] *)

Module m_experiment_setup.

Definition PROFILE_FILENAME : string := "behavior.tar.gz".
Definition FIRMWARES_SUBDIR : string := "firmwares".
Definition EXPERIMENT_MANIFEST : string := "manifest.yml".

Definition CONFIGURATION_MANDATORY_MEMBERS : list string :=
  [FIRMWARES_SUBDIR; EXPERIMENT_MANIFEST].

Definition MANIFEST_MANDATORY_MEMBERS : list string :=
  ["firmwares"; "schedule"].

(** The attributes of a [Loader] instance; [None] is [YScalar SNone]. *)
Record Loader : Type := {
  temp_directory : option string;
  manifest : yaml;
  firmwares : gmap pykey string;
  schedule : yaml
}.

(** What the constructor acts on: the disk and [self]. *)
Record world : Type := {
  disk : FS;
  self : Loader
}.

Definition on_disk {A} (m : M FS A) : M world A :=
  fun w => let (r, d) := m (disk w) in (r, {| disk := d; self := self w |}).

Definition on_self (f : Loader -> Loader) : M world unit :=
  modify (fun w => {| disk := disk w; self := f (self w) |}).

Definition set_temp_directory (v : option string) (l : Loader) : Loader :=
  {| temp_directory := v; manifest := manifest l;
     firmwares := firmwares l; schedule := schedule l |}.

Definition set_manifest (v : yaml) (l : Loader) : Loader :=
  {| temp_directory := temp_directory l; manifest := v;
     firmwares := firmwares l; schedule := schedule l |}.

Definition set_firmware (k : pykey) (v : string) (l : Loader) : Loader :=
  {| temp_directory := temp_directory l; manifest := manifest l;
     firmwares := <[k := v]> (firmwares l); schedule := schedule l |}.

Definition set_schedule (v : yaml) (l : Loader) : Loader :=
  {| temp_directory := temp_directory l; manifest := manifest l;
     firmwares := firmwares l; schedule := v |}.

Section Loader.

(** The working directory of the process and the YAML parser. *)
Variable cwd : string.
Variable yaml_load : string -> result yaml.

(** [raise ExperimentSetupException(ERROR_MISSING_ARGUMENT_IN_ARCHIVE.format(
      'element missing: ' + element + ' in: ' + path))]. *)
Definition element_missing (path element : string) : exn :=
  ExperimentSetupException
    (ERROR_MISSING_ARGUMENT_IN_ARCHIVE
       (Text ("element missing: " +:+ element +:+ " in: " +:+ path))).

(** The body of [for path in MANIFEST_MANDATORY_MEMBERS]. *)
Definition validate_path (manifest : yaml) (path : string) : result unit :=
  let iterator := manifest in
  let path_elements := Str.split "/" path in
  match walk (element_missing path) iterator path_elements with
  | Ok _ => Ok tt
  | Raise e => Raise e
  end.

(** [for path in paths] with that body; the constructor runs it on
    [MANIFEST_MANDATORY_MEMBERS]. *)
Definition validate_manifest (paths : list string) : M world unit :=
  for_each paths (fun path => w <- get ;; lift (validate_path (manifest (self w)) path)).

(** The body of [for firmware in self.manifest['firmwares']]. *)
Definition register_firmware (firmwares_dir : string) (firmware : yaml) : M world unit :=
  fid <- lift (getitem firmware "id") ;;
  ffile <- lift (getitem firmware "file") ;;
  ffile_name <- lift (fspath ffile) ;;
  fid_key <- lift (hash_key fid) ;;
  on_self (set_firmware fid_key (posixpath.join firmwares_dir ffile_name)) ;;;
  w <- get ;;
  match firmwares (self w) !! fid_key with
  | Some registered =>
      if negb (isfile cwd (disk w) registered)
      then raise (ExperimentSetupException
                    (ERROR_MISSING_ARGUMENT_IN_ARCHIVE (Text ffile_name)))
      else ret tt
  | None => raise KeyError
  end.

(** [Loader.__init__(self, behavior_archive)].  [tmp] is the directory
    [tempfile.mkdtemp()] creates and returns; [behavior_archive] is the
    archive as [tarfile.open] reads it back from [archive_path]. *)
Definition __init__ (tmp : string) (behavior_archive : tarfile.TarFile) : M world unit :=
  on_self (fun _ => {| temp_directory := None; manifest := YScalar SNone;
                       firmwares := ∅; schedule := YScalar SNone |}) ;;;
  on_disk (modify <[posixpath.abspath cwd tmp := Dir]>) ;;;
  on_self (set_temp_directory (Some tmp)) ;;;
  let archive_path := posixpath.join tmp PROFILE_FILENAME in
  on_disk (modify <[posixpath.abspath cwd archive_path := File (tarfile.raw behavior_archive)]>) ;;;
  let archive := behavior_archive in
  let archive_contents := tarfile.getnames archive in
  (if existsb (fun elt => negb (py_in elt archive_contents)) CONFIGURATION_MANDATORY_MEMBERS
   then
     let missing_elements :=
       List.filter (fun elt => negb (py_in elt archive_contents))
         CONFIGURATION_MANDATORY_MEMBERS in
     raise (ExperimentSetupException
              (ERROR_MISSING_ARGUMENT_IN_ARCHIVE
                 (MissingElements missing_elements archive_contents)))
   else ret tt) ;;;
  on_disk (safe_extract cwd archive tmp) ;;;
  w <- get ;;
  text <- lift (read_file cwd (disk w) (posixpath.join tmp EXPERIMENT_MANIFEST)) ;;
  document <- lift (yaml_load text) ;;
  on_self (set_manifest document) ;;;
  validate_manifest MANIFEST_MANDATORY_MEMBERS ;;;
  let firmwares_dir := posixpath.join tmp FIRMWARES_SUBDIR in
  w <- get ;;
  table <- lift (getitem (manifest (self w)) "firmwares") ;;
  entries <- lift (iterate table) ;;
  for_each entries (register_firmware firmwares_dir) ;;;
  w <- get ;;
  sched <- lift (getitem (manifest (self w)) "schedule") ;;
  on_self (set_schedule sched).

(** [Loader.clean(self)]. *)
Definition clean : M world unit :=
  w <- get ;;
  match temp_directory (self w) with
  | Some directory => on_disk (rmtree cwd directory)
  | None => raise TypeError
  end.

End Loader.

(** A world in which no attribute of [self] is set yet. *)
Definition fresh (d : FS) : world :=
  {| disk := d;
     self := {| temp_directory := None; manifest := YScalar SNone;
                firmwares := ∅; schedule := YScalar SNone |} |}.

End m_experiment_setup.

(** ** [m_node_setup.py] *)

Module m_node_setup.

Definition PROFILE_FILENAME : string := "node-profile.tar.gz".

Definition CONTROLLER_SUBDIR : string := "controller".
Definition CONTROLLER_EXECUTABLES_SUBDIR : string := "controller/executables".
Definition CONTROLLER_CONFIGURATION_FILES_SUBDIR : string := "controller/configuration_files".
Definition SERIAL_SUBDIR : string := "serial".
Definition PROFILE_MANIFEST : string := "manifest.yml".

Definition PROFILE_MANDATORY_MEMBERS : list string :=
  [CONTROLLER_SUBDIR;
   CONTROLLER_EXECUTABLES_SUBDIR;
   CONTROLLER_CONFIGURATION_FILES_SUBDIR;
   SERIAL_SUBDIR;
   PROFILE_MANIFEST].

Definition MANIFEST_MANDATORY_MEMBERS : list string :=
  ["hardware";
   "controller";
   "controller/commands";
   "controller/commands/load";
   "controller/commands/start";
   "controller/commands/stop";
   "controller/commands/reset";
   "controller/configuration_files";
   "serial";
   "serial/port";
   "serial/baudrate";
   "serial/parity";
   "serial/stopbits";
   "serial/bytesize";
   "serial/rtscts";
   "serial/xonxoff";
   "serial/timeout";
   "serial/module"].

(** The attributes of a [Loader] instance.  [manifest] is [YScalar SNone]
    until the constructor assigns it. *)
Record Loader : Type := {
  temp_directory : option string;
  manifest : yaml
}.

Record world : Type := {
  disk : FS;
  self : Loader
}.

Definition on_disk {A} (m : M FS A) : M world A :=
  fun w => let (r, d) := m (disk w) in (r, {| disk := d; self := self w |}).

Definition on_self (f : Loader -> Loader) : M world unit :=
  modify (fun w => {| disk := disk w; self := f (self w) |}).

Definition set_temp_directory (v : option string) (l : Loader) : Loader :=
  {| temp_directory := v; manifest := manifest l |}.

Definition set_manifest (v : yaml) (l : Loader) : Loader :=
  {| temp_directory := temp_directory l; manifest := v |}.

Section Loader.

(** The working directory of the process, the YAML parser, and how
    Python prints a sequence or a mapping. *)
Variable cwd : string.
Variable yaml_load : string -> result yaml.
Variable py_repr : yaml -> string.

(** [raise NodeSetupException(ERROR_MISSING_ARGUMENT_IN_MANIFEST.format(element))]. *)
Definition argument_missing (element : string) : exn :=
  NodeSetupException (ERROR_MISSING_ARGUMENT_IN_MANIFEST (Text element)).

(** The body of [for path in MANIFEST_MANDATORY_MEMBERS]. *)
Definition validate_path (manifest : yaml) (path : string) : result unit :=
  let iterator := manifest in
  let path_elements := Str.split "/" path in
  match walk argument_missing iterator path_elements with
  | Ok _ => Ok tt
  | Raise e => Raise e
  end.

(** [for path in paths] with that body; the constructor runs it on
    [MANIFEST_MANDATORY_MEMBERS]. *)
Definition validate_manifest (paths : list string) : M world unit :=
  for_each paths (fun path => w <- get ;; lift (validate_path (manifest (self w)) path)).

(** [self.manifest['controller'][table]]. *)
Definition controller_item (table : string) : M world yaml :=
  w <- get ;;
  controller <- lift (getitem (manifest (self w)) "controller") ;;
  lift (getitem controller table).

(** [self.manifest['controller']['commands'][cmd_name] = value].  Python
    mutates the innermost mapping in place; here the mappings around it
    are rebuilt with the new one. *)
Definition store_command (cmd_name : string) (value : yaml) : M world unit :=
  w <- get ;;
  controller <- lift (getitem (manifest (self w)) "controller") ;;
  commands <- lift (getitem controller "commands") ;;
  commands' <- lift (setitem commands cmd_name value) ;;
  controller' <- lift (setitem controller "commands" commands') ;;
  manifest' <- lift (setitem (manifest (self w)) "controller" controller') ;;
  on_self (set_manifest manifest').

(** [for key in d: body(key)] over a mapping: before it yields the next
    key, and before it stops, the iterator raises [RuntimeError] when
    the mapping no longer has the [size] it started with.  [keys] are
    the keys still to come. *)
Fixpoint for_keys (size : nat) (keys : list yaml) (body : yaml -> M world unit)
    : M world unit :=
  commands <- controller_item "commands" ;;
  if negb (Nat.eqb (dict_size commands) size) then raise RuntimeError
  else
    match keys with
    | [] => ret tt
    | key :: rest => body key ;;; for_keys size rest body
    end.

(** The body of [for executable in self.manifest['controller']['executables']].
    The inner loop iterates the mapping of commands itself, so it gets
    its keys, and unpacks each key into [cmd_name, cmd]. *)
Definition resolve_executable (tmp : string) (executable : yaml) : M world unit :=
  eid <- lift (getitem executable "id") ;;
  efile <- lift (getitem executable "file") ;;
  let executables_dir := posixpath.join tmp CONTROLLER_EXECUTABLES_SUBDIR in
  commands <- controller_item "commands" ;;
  keys <- lift (iterate commands) ;;
  for_keys (dict_size commands) keys
    (fun key =>
       pair <- lift (unpack2 key) ;;
       let cmd_name := pair.1 in
       let cmd := pair.2 in
       replace <- lift (replace_method cmd) ;;
       efile_name <- lift (fspath efile) ;;
       cmd_key <- lift (subscript_key cmd_name) ;;
       store_command cmd_key
         (YStr (replace ("<!" +:+ py_str py_repr eid +:+ ">")
                        (posixpath.join executables_dir efile_name)))).

(** The body of
    [for configuration_file in self.manifest['controller']['configuration_files']].
    The inner loop iterates [commands.items()]; every assignment is to
    the key being visited, so the mapping keeps its size and each name
    is read with its current value. *)
Definition resolve_configuration_file (tmp : string) (configuration_file : yaml)
    : M world unit :=
  cid <- lift (getitem configuration_file "id") ;;
  cfile <- lift (getitem configuration_file "file") ;;
  let configuration_files_dir :=
    posixpath.join tmp CONTROLLER_CONFIGURATION_FILES_SUBDIR in
  commands <- controller_item "commands" ;;
  names <- lift (items_names commands) ;;
  for_each names
    (fun cmd_name =>
       commands <- controller_item "commands" ;;
       cmd <- lift (getitem commands cmd_name) ;;
       replace <- lift (replace_method cmd) ;;
       cfile_name <- lift (fspath cfile) ;;
       store_command cmd_name
         (YStr (replace ("<#" +:+ py_str py_repr cid +:+ ">")
                        (posixpath.join configuration_files_dir cfile_name)))).

(** The two placeholder passes of the constructor. *)
Definition resolve_executables (tmp : string) : M world unit :=
  executables <- controller_item "executables" ;;
  if truthy executables then
    executables <- controller_item "executables" ;;
    entries <- lift (iterate executables) ;;
    for_each entries (resolve_executable tmp)
  else ret tt.

Definition resolve_configuration_files (tmp : string) : M world unit :=
  configuration_files <- controller_item "configuration_files" ;;
  if truthy configuration_files then
    configuration_files <- controller_item "configuration_files" ;;
    entries <- lift (iterate configuration_files) ;;
    for_each entries (resolve_configuration_file tmp)
  else ret tt.

(** [self.manifest['serial']['module'] =
      os.path.join(serial_directory, self.manifest['serial']['module'])]. *)
Definition resolve_serial_module (tmp : string) : M world unit :=
  let serial_directory := posixpath.join tmp SERIAL_SUBDIR in
  w <- get ;;
  serial <- lift (getitem (manifest (self w)) "serial") ;;
  module <- lift (getitem serial "module") ;;
  module_name <- lift (fspath module) ;;
  serial' <- lift (setitem serial "module"
                     (YStr (posixpath.join serial_directory module_name))) ;;
  manifest' <- lift (setitem (manifest (self w)) "serial" serial') ;;
  on_self (set_manifest manifest').

(** [Loader.__init__(self, profile_archive)].  [tmp] is the directory
    [tempfile.mkdtemp()] creates and returns; [profile_archive] is the
    archive as [tarfile.open] reads it back from [archive_path]. *)
Definition __init__ (tmp : string) (profile_archive : tarfile.TarFile) : M world unit :=
  on_disk (modify <[posixpath.abspath cwd tmp := Dir]>) ;;;
  on_self (set_temp_directory (Some tmp)) ;;;
  let archive_path := posixpath.join tmp PROFILE_FILENAME in
  on_disk (modify <[posixpath.abspath cwd archive_path := File (tarfile.raw profile_archive)]>) ;;;
  let archive := profile_archive in
  let archive_contents := tarfile.getnames archive in
  (if existsb (fun elt => negb (py_in elt archive_contents)) PROFILE_MANDATORY_MEMBERS
   then
     let missing_arguments :=
       List.filter (fun argument => negb (py_in argument archive_contents))
         PROFILE_MANDATORY_MEMBERS in
     raise (NodeSetupException
              (ERROR_MISSING_ARGUMENT_IN_ARCHIVE
                 (Text (Str.join " ," missing_arguments))))
   else ret tt) ;;;
  on_disk (safe_extract cwd archive tmp) ;;;
  w <- get ;;
  text <- lift (read_file cwd (disk w) (posixpath.join tmp PROFILE_MANIFEST)) ;;
  document <- lift (yaml_load text) ;;
  on_self (set_manifest document) ;;;
  validate_manifest MANIFEST_MANDATORY_MEMBERS ;;;
  resolve_executables tmp ;;;
  resolve_configuration_files tmp ;;;
  resolve_serial_module tmp.

(** [Loader.clean(self)]. *)
Definition clean : M world unit :=
  w <- get ;;
  match temp_directory (self w) with
  | Some directory => on_disk (rmtree cwd directory)
  | None => raise TypeError
  end.

End Loader.

(** A world in which no attribute of [self] is set yet. *)
Definition fresh (d : FS) : world :=
  {| disk := d; self := {| temp_directory := None; manifest := YScalar SNone |} |}.

End m_node_setup.

(** * Vocabulary of the statements *)

(** The disk once the workspace exists and holds the copy of the archive. *)
Definition materialised (cwd tmp filename : string) (archive : tarfile.TarFile) (d : FS) : FS :=
  <[posixpath.abspath cwd (posixpath.join tmp filename) := File (tarfile.raw archive)]>
    (<[posixpath.abspath cwd tmp := Dir]> d).

(** [resolves root keys n]: following [keys] from [root] through
    successive mapping lookups ends at [n]. *)
Inductive resolves : yaml -> list string -> yaml -> Prop :=
| resolves_here (n : yaml) : resolves n [] n
| resolves_down (entries : list (string * yaml)) (key : string) (v : yaml)
    (keys : list string) (n : yaml) :
    lookup_entry key entries = Some v ->
    resolves v keys n ->
    resolves (YMap entries) (key :: keys) n.

(** [n] is not a mapping that contains [key]. *)
Definition lacks (n : yaml) (key : string) : Prop :=
  match n with
  | YMap entries => lookup_entry key entries = None
  | _ => True
  end.

(** The disk as [extractall] leaves it, whether it returns or raises
    half-way; and that it returns. *)
Definition extracted (cwd tmp filename : string) (archive : tarfile.TarFile) (d : FS) : FS :=
  (tarfile.extractall cwd tmp archive (materialised cwd tmp filename archive d)).2.

Definition extraction_returns (cwd tmp filename : string) (archive : tarfile.TarFile)
    (d : FS) : Prop :=
  (tarfile.extractall cwd tmp archive (materialised cwd tmp filename archive d)).1 = Ok tt.

(** [e] is a table entry whose [id] hashes to [k] and whose [file] is the
    string [f]. *)
Definition table_entry (e : yaml) (k : pykey) (f : string) : Prop :=
  exists fid, getitem e "id" = Ok fid /\ hash_key fid = Ok k /\ getitem e "file" = Ok (YStr f).


(** [c in s] for a character. *)
Fixpoint has_char (c : ascii) (s : string) : bool :=
  match s with
  | EmptyString => false
  | String a s' => (Ascii.eqb a c || has_char c s')%bool
  end.

(** An id without the two characters that delimit a placeholder. *)
Definition plain (id : string) : bool :=
  (negb (has_char "<" id) && negb (has_char ">" id))%bool.

(** The placeholder of [id]: [<!id>] with the marker [!], [<#id>] with
    the marker [#]. *)
Definition token (marker : ascii) (id : string) : string :=
  String "<" (String marker (id +:+ ">")).

(** [manifest['controller']['commands'][name]]. *)
Definition command (manifest : yaml) (name : string) : result yaml :=
  result_bind
    (result_bind (getitem manifest "controller")
       (fun controller => getitem controller "commands"))
    (fun commands => getitem commands name).

(** The entries of [manifest['controller'][table]]. *)
Definition table_entries (manifest : yaml) (table : string) : result (list yaml) :=
  result_bind
    (result_bind (getitem manifest "controller")
       (fun controller => getitem controller table))
    iterate.

(** The command [name] of [manifest] is a string in which [sub] occurs. *)
Definition command_contains (sub name : string) (manifest : yaml) : Prop :=
  exists cmd, command manifest name = Ok (YStr cmd) /\ Str.contains sub cmd = true.

(** Every value of the entries is a string. *)
Definition all_strings (entries : list (string * yaml)) : Prop :=
  Forall (fun kv => exists s, kv.2 = YStr s) entries.

(** [e] has an [id] and a [file] that is a string. *)
Definition has_id_and_file (e : yaml) : Prop :=
  exists cid f, getitem e "id" = Ok cid /\ getitem e "file" = Ok (YStr f).

(** The commands of the manifest of [w] are strings, and [keys] are
    among their names. *)
Definition string_commands (keys : list string) (w : m_node_setup.world) : Prop :=
  exists mentries centries cmds,
    m_node_setup.manifest (m_node_setup.self w) = YMap mentries /\
    lookup_entry "controller" mentries = Some (YMap centries) /\
    lookup_entry "commands" centries = Some (YMap cmds) /\
    all_strings cmds /\
    forall k, In k keys -> In k (map fst cmds).

(** ** Sample archives and manifests *)

Module Sample.

Import tarfile.

Definition directory (n : string) : TarInfo := {| name := n; type := DIRTYPE; data := "" |}.
Definition file (n d : string) : TarInfo := {| name := n; type := REGTYPE; data := d |}.

(** A table entry [{id: i, file: f, brief: ...}]. *)
Definition entry (i f : string) : yaml :=
  YMap [("id", YStr i); ("file", YStr f); ("brief", YStr "an entry")].

(** An experiment archive with two firmwares, and further members. *)
Definition experiment_archive (more : list TarInfo) : TarFile :=
  {| raw := "experiment archive";
     members := [directory "firmwares";
                 file "manifest.yml" "experiment manifest";
                 file "firmwares/a.bin" "firmware a";
                 file "firmwares/b.bin" "firmware b"] ++ more |}.

Definition experiment_manifest (table : list yaml) : yaml :=
  YMap [("firmwares", YSeq table); ("schedule", YSeq [])].

(** A node-profile archive with one executable, and further members. *)
Definition profile_archive (more : list TarInfo) : TarFile :=
  {| raw := "node profile archive";
     members := [directory "controller";
                 directory "controller/executables";
                 directory "controller/configuration_files";
                 directory "serial";
                 file "manifest.yml" "profile manifest";
                 file "controller/executables/run.sh" "#!/bin/sh"] ++ more |}.

(** The same archive without the member [controller/executables]. *)
Definition profile_archive_without_executables : TarFile :=
  {| raw := "node profile archive";
     members := [directory "controller";
                 directory "controller/configuration_files";
                 directory "serial";
                 file "manifest.yml" "profile manifest"] |}.

Definition serial_settings (baudrate : list (string * yaml)) : yaml :=
  YMap ([("port", YStr "/dev/ttyUSB0")] ++ baudrate ++
        [("parity", YStr "N");
         ("stopbits", YScalar (SInt 1));
         ("bytesize", YScalar (SInt 8));
         ("rtscts", YScalar (SBool false));
         ("xonxoff", YScalar (SBool false));
         ("timeout", YScalar (SInt 1));
         ("module", YStr "frames.py")]).

Definition profile_manifest (executables configuration_files : list yaml)
    (start : string) (serial : yaml) : yaml :=
  YMap [("hardware", YStr "board");
        ("controller",
         YMap [("commands",
                YMap [("load", YStr "load");
                      ("start", YStr start);
                      ("stop", YStr "stop");
                      ("reset", YStr "reset")]);
               ("executables", YSeq executables);
               ("configuration_files", YSeq configuration_files)]);
        ("serial", serial)].

Definition baudrate : list (string * yaml) := [("baudrate", YScalar (SInt 115200))].

(** Running a constructor on an empty disk, in the directory [/], with
    the workspace [/tmp/tmpa1b2c3d4] and a parser that returns [document]. *)
Definition load_experiment (archive : TarFile) (document : yaml)
    : result unit * m_experiment_setup.world :=
  m_experiment_setup.__init__ "/" (fun _ => Ok document) "/tmp/tmpa1b2c3d4" archive
    (m_experiment_setup.fresh ∅).

Definition load_profile (archive : TarFile) (document : yaml)
    : result unit * m_node_setup.world :=
  m_node_setup.__init__ "/" (fun _ => Ok document) (fun _ => "") "/tmp/tmpa1b2c3d4" archive
    (m_node_setup.fresh ∅).

End Sample.



Definition profile_parsed (cwd tmp : string) (archive : tarfile.TarFile) (d : FS) (m : yaml)
    : m_node_setup.world :=
  {| m_node_setup.disk := extracted cwd tmp m_node_setup.PROFILE_FILENAME archive d;
     m_node_setup.self :=
       {| m_node_setup.temp_directory := Some tmp; m_node_setup.manifest := m |} |}.

(** ** Further manifests *)

Module Cases.


End Cases.


(** ** The commands of a profile as texts *)

(** The mapping of commands whose values are the strings [texts]. *)
Definition commands_of (texts : list (string * string)) : list (string * yaml) :=
  map (fun kt => (kt.1, YStr kt.2)) texts.

(** The texts with [g] applied to those whose name is in [names]. *)
Definition retext (g : string -> string) (names : list string)
    (texts : list (string * string)) : list (string * string) :=
  map (fun kt => if existsb (String.eqb kt.1) names then (kt.1, g kt.2) else kt) texts.

(** The manifest [mentries] with the commands [cmds] stored in its
    controller [centries]. *)
Definition with_commands (mentries centries cmds : list (string * yaml)) : yaml :=
  YMap (set_entry "controller" (YMap (set_entry "commands" (YMap cmds) centries)) mentries).

(** The path that replaces the placeholder of a configuration file. *)
Definition configuration_path (tmp f : string) : string :=
  posixpath.join (posixpath.join tmp m_node_setup.CONTROLLER_CONFIGURATION_FILES_SUBDIR) f.

(** The text of a command once the placeholder of every entry of [cfs]
    (id and file name) has been replaced, in the order of [cfs], by the
    path of its file. *)
Definition resolve_text (py_repr : yaml -> string) (tmp : string)
    (cfs : list (yaml * string)) (cmd : string) : string :=
  foldl (fun s cf => Str.replace s ("<#" +:+ py_str py_repr cf.1 +:+ ">")
                       (configuration_path tmp cf.2)) cmd cfs.

(** [e] is a table entry with the id [cf.1] and the file name [cf.2]. *)
Definition id_and_file (e : yaml) (cf : yaml * string) : Prop :=
  getitem e "id" = Ok cf.1 /\ getitem e "file" = Ok (YStr cf.2).

(** The state of a node loader. *)
Definition node_world (d : FS) (directory : option string) (m : yaml) : m_node_setup.world :=
  {| m_node_setup.disk := d;
     m_node_setup.self := {| m_node_setup.temp_directory := directory;
                             m_node_setup.manifest := m |} |}.



(** * Properties *)

(** ** The library functions on examples *)

Example split_path : Str.split "/" "controller/commands/load" = ["controller"; "commands"; "load"].
Proof. reflexivity. Qed.

Example split_empty_parts : Str.split "/" "a//b/" = ["a"; ""; "b"; ""].
Proof. reflexivity. Qed.

Example replace_every_occurrence :
  Str.replace "<!cmd1> --mode=fast <!cmd1>" "<!cmd1>" "/x/run.sh" =
    "/x/run.sh --mode=fast /x/run.sh".
Proof. reflexivity. Qed.

Example replace_does_not_overlap : Str.replace "aaaa" "aa" "b" = "bb".
Proof. reflexivity. Qed.

Example replace_empty_pattern : Str.replace "abc" "" "-" = "-a-b-c-".
Proof. reflexivity. Qed.

Example normpath_parent : posixpath.normpath "/tmp/tmpa1b2c3d4/../tmpa1b2c3d4_evil/./x" = "/tmp/tmpa1b2c3d4_evil/x".
Proof. reflexivity. Qed.

Example normpath_relative : posixpath.normpath "a/../../b//c/" = "../b/c".
Proof. reflexivity. Qed.

Example normpath_two_slashes : posixpath.normpath "//a/../.." = "//".
Proof. reflexivity. Qed.

Example join_relative : posixpath.join "/tmp/tmpa1b2c3d4" "firmwares" = "/tmp/tmpa1b2c3d4/firmwares".
Proof. reflexivity. Qed.

Example join_absolute : posixpath.join "/tmp/tmpa1b2c3d4" "/etc/passwd" = "/etc/passwd".
Proof. reflexivity. Qed.

(** [tarfile] and the disk: the directories above a member are created;
    a member below a regular file stops the extraction, the members
    after it are not written; a directory member leaves a file of its
    name alone; a member that goes through a directory that does not
    exist yet and back raises, once that directory is made. *)
Example extraction_makes_the_directories_above :
  tarfile.extractall "/" "/tmp/tmpa1b2c3d4"
    {| tarfile.raw := ""; tarfile.members := [Sample.file "deep/file.txt" "x"] |}
    {[ "/tmp/tmpa1b2c3d4" := Dir ]} =
  (Ok tt,
   {[ "/tmp/tmpa1b2c3d4" := Dir; "/tmp/tmpa1b2c3d4/deep" := Dir;
      "/tmp/tmpa1b2c3d4/deep/file.txt" := File "x" ]}).
Proof. vm_compute. reflexivity. Qed.

Example extraction_stops_below_a_file :
  tarfile.extractall "/" "/tmp/tmpa1b2c3d4"
    {| tarfile.raw := "";
       tarfile.members := [Sample.directory "firmwares"; Sample.file "firmwares/a.bin" "a";
                           Sample.file "firmwares/a.bin/x" "x"; Sample.file "late.txt" "l"] |}
    {[ "/tmp/tmpa1b2c3d4" := Dir ]} =
  (Raise NotADirectoryError,
   {[ "/tmp/tmpa1b2c3d4" := Dir; "/tmp/tmpa1b2c3d4/firmwares" := Dir;
      "/tmp/tmpa1b2c3d4/firmwares/a.bin" := File "a" ]}).
Proof. vm_compute. reflexivity. Qed.

Example directory_member_leaves_a_file :
  tarfile.extractall "/" "/tmp/tmpa1b2c3d4"
    {| tarfile.raw := ""; tarfile.members := [Sample.file "a" "x"; Sample.directory "a"] |}
    {[ "/tmp/tmpa1b2c3d4" := Dir ]} =
  (Ok tt, {[ "/tmp/tmpa1b2c3d4" := Dir; "/tmp/tmpa1b2c3d4/a" := File "x" ]}).
Proof. vm_compute. reflexivity. Qed.

Example member_through_a_missing_directory :
  tarfile.extractall "/" "/tmp/tmpa1b2c3d4"
    {| tarfile.raw := ""; tarfile.members := [Sample.file "a/../f" "x"] |}
    {[ "/tmp/tmpa1b2c3d4" := Dir ]} =
  (Raise FileExistsError, {[ "/tmp/tmpa1b2c3d4" := Dir; "/tmp/tmpa1b2c3d4/a" := Dir ]}).
Proof. vm_compute. reflexivity. Qed.

(** [os.path.isfile] follows the names of the path: a name that is not
    there, or a regular file in the place of a directory, makes it
    false. *)
Example isfile_follows_the_names :
  let disk : FS :=
    {[ "/tmp/tmpa1b2c3d4" := Dir; "/tmp/tmpa1b2c3d4/manifest.yml" := File "m";
       "/tmp/tmpa1b2c3d4/firmwares" := Dir; "/tmp/tmpa1b2c3d4/firmwares/a.bin" := File "a" ]} in
  map (fun f => isfile "/" disk (posixpath.join "/tmp/tmpa1b2c3d4/firmwares" f))
    ["a.bin"; "./a.bin"; "../firmwares/a.bin"; "nodir/../a.bin"; "a.bin/"; "a.bin/.";
     "../manifest.yml/../firmwares/a.bin"; "b.bin"; ""] =
    [true; true; true; false; false; false; false; false; false].
Proof. vm_compute. reflexivity. Qed.

Example commonprefix_of_siblings :
  posixpath.commonprefix "/tmp/tmpa1b2c3d4" "/tmp/tmpa1b2c3d4_evil/x" = "/tmp/tmpa1b2c3d4".
Proof. reflexivity. Qed.

(** ** Small facts about the embedding *)

Lemma bind_ok {S A B} (m : M S A) (k : A -> M S B) st a st' :
  m st = (Ok a, st') -> bind m k st = k a st'.
Proof. intros H. unfold bind. rewrite H. reflexivity. Qed.

Lemma bind_raise {S A B} (m : M S A) (k : A -> M S B) st e st' :
  m st = (Raise e, st') -> bind m k st = (Raise e, st').
Proof. intros H. unfold bind. rewrite H. reflexivity. Qed.

Lemma bind_ok_inv {S A B} (m : M S A) (k : A -> M S B) st b st' :
  bind m k st = (Ok b, st') ->
  exists a st1, m st = (Ok a, st1) /\ k a st1 = (Ok b, st').
Proof.
  unfold bind. destruct (m st) as [[a|e] st1]; intros H.
  - exists a, st1. split; [reflexivity | exact H].
  - discriminate H.
Qed.

Lemma lift_ok_inv {S A} (r : result A) (st st' : S) a :
  lift r st = (Ok a, st') -> r = Ok a /\ st' = st.
Proof. unfold lift. intros H. injection H as -> ->. auto. Qed.

Lemma py_in_In x l : py_in x l = true <-> In x l.
Proof.
  unfold py_in. rewrite existsb_exists. split.
  - intros [y [Hy Heq]]. apply String.eqb_eq in Heq. subst y. exact Hy.
  - intros H. exists x. split; [exact H | apply String.eqb_refl].
Qed.

Lemma py_in_not_In x l : py_in x l = false <-> ~ In x l.
Proof.
  rewrite <- py_in_In. destruct (py_in x l); split; intros H; try reflexivity;
    try discriminate; try (intros H'; discriminate H'). exfalso. apply H. reflexivity.
Qed.

(** No mandatory member is missing exactly when the test of the
    constructor is false. *)
Lemma none_missing mandatory contents :
  (forall elt, In elt mandatory -> In elt contents) ->
  existsb (fun elt => negb (py_in elt contents)) mandatory = false.
Proof.
  intros H. induction mandatory as [|x rest IH]; [reflexivity|].
  simpl. assert (Hx : py_in x contents = true) by (apply py_in_In, H; left; reflexivity).
  rewrite Hx. simpl. apply IH. intros elt Helt. apply H. right. exact Helt.
Qed.

Lemma some_missing mandatory contents :
  (exists elt, In elt mandatory /\ ~ In elt contents) ->
  existsb (fun elt => negb (py_in elt contents)) mandatory = true.
Proof.
  intros [elt [Hin Hnot]]. apply existsb_exists. exists elt. split; [exact Hin|].
  apply py_in_not_In in Hnot. rewrite Hnot. reflexivity.
Qed.

Lemma missing_characterised mandatory contents x :
  In x (List.filter (fun elt => negb (py_in elt contents)) mandatory) <->
  In x mandatory /\ ~ In x contents.
Proof.
  rewrite filter_In. rewrite negb_true_iff. rewrite py_in_not_In. reflexivity.
Qed.

(** The loop of [safe_extract] raises as soon as one member fails the test. *)
Lemma check_members_rejects cwd path members :
  (exists member, In member members /\
     is_within_directory cwd path (posixpath.join path (tarfile.name member)) = false) ->
  check_members cwd path members = Raise (Exception "Attempted Path Traversal in Tar File").
Proof.
  intros [member [Hin Hout]]. induction members as [|m rest IH]; [destruct Hin|].
  simpl. destruct (is_within_directory cwd path (posixpath.join path (tarfile.name m))) eqn:Hm.
  - simpl. apply IH. destruct Hin as [Heq|Hin]; [|exact Hin].
    subst m. rewrite Hm in Hout. discriminate Hout.
  - reflexivity.
Qed.

Lemma check_members_accepts cwd path members :
  check_members cwd path members = Ok tt ->
  forall member, In member members ->
    is_within_directory cwd path (posixpath.join path (tarfile.name member)) = true.
Proof.
  induction members as [|m rest IH]; intros Hok member Hin; [destruct Hin|].
  simpl in Hok.
  destruct (is_within_directory cwd path (posixpath.join path (tarfile.name m))) eqn:Hm;
    simpl in Hok; [|discriminate Hok].
  destruct Hin as [Heq|Hin]; [subst m; exact Hm | apply IH; assumption].
Qed.

Lemma safe_extract_rejects cwd tar path disk :
  (exists member, In member (tarfile.getmembers tar) /\
     is_within_directory cwd path (posixpath.join path (tarfile.name member)) = false) ->
  safe_extract cwd tar path disk =
    (Raise (Exception "Attempted Path Traversal in Tar File"), disk).
Proof.
  intros H. unfold safe_extract. apply bind_raise. unfold lift.
  rewrite (check_members_rejects _ _ _ H). reflexivity.
Qed.

(** ** C2: the guard runs over every member before anything is written *)

(** C2.  When some member of the archive fails [is_within_directory],
    [safe_extract] raises its exception and leaves the disk as it was; in
    both constructors (the mandatory members being present, so that the
    guard is reached) the exception is raised with a disk that holds the
    workspace directory and the copy of the archive, and no member. *)
Theorem safe_extract_is_atomic
    (cwd tmp : string) (yaml_load : string -> result yaml) (py_repr : yaml -> string)
    (archive : tarfile.TarFile) :
  (exists member, In member (tarfile.getmembers archive) /\
     is_within_directory cwd tmp (posixpath.join tmp (tarfile.name member)) = false) ->
  (forall d : FS, safe_extract cwd archive tmp d =
     (Raise (Exception "Attempted Path Traversal in Tar File"), d)) /\
  (forall d : FS,
     (forall elt, In elt m_experiment_setup.CONFIGURATION_MANDATORY_MEMBERS ->
                  In elt (tarfile.getnames archive)) ->
     m_experiment_setup.__init__ cwd yaml_load tmp archive (m_experiment_setup.fresh d) =
       (Raise (Exception "Attempted Path Traversal in Tar File"),
        {| m_experiment_setup.disk :=
             materialised cwd tmp m_experiment_setup.PROFILE_FILENAME archive d;
           m_experiment_setup.self :=
             m_experiment_setup.set_temp_directory (Some tmp)
               (m_experiment_setup.self (m_experiment_setup.fresh d)) |})) /\
  (forall d : FS,
     (forall elt, In elt m_node_setup.PROFILE_MANDATORY_MEMBERS ->
                  In elt (tarfile.getnames archive)) ->
     m_node_setup.__init__ cwd yaml_load py_repr tmp archive (m_node_setup.fresh d) =
       (Raise (Exception "Attempted Path Traversal in Tar File"),
        {| m_node_setup.disk :=
             materialised cwd tmp m_node_setup.PROFILE_FILENAME archive d;
           m_node_setup.self :=
             m_node_setup.set_temp_directory (Some tmp)
               (m_node_setup.self (m_node_setup.fresh d)) |})).
Proof.
  intros Hbad. split; [|split].
  - intros d. apply safe_extract_rejects. exact Hbad.
  - intros d Hall. unfold m_experiment_setup.__init__.
    rewrite (none_missing _ _ Hall).
    unfold bind, m_experiment_setup.on_self, m_experiment_setup.on_disk, modify, ret. simpl.
    rewrite (safe_extract_rejects _ _ _ _ Hbad). reflexivity.
  - intros d Hall. unfold m_node_setup.__init__.
    rewrite (none_missing _ _ Hall).
    unfold bind, m_node_setup.on_self, m_node_setup.on_disk, modify, ret. simpl.
    rewrite (safe_extract_rejects _ _ _ _ Hbad). reflexivity.
Qed.

Lemma safe_extract_is_atomic_witness :
  is_within_directory "/" "/tmp/tmpa1b2c3d4" (posixpath.join "/tmp/tmpa1b2c3d4" "../../etc/passwd") = false /\
  Sample.load_experiment
    (Sample.experiment_archive [Sample.file "../../etc/passwd" "root"])
    (Sample.experiment_manifest []) =
  (Raise (Exception "Attempted Path Traversal in Tar File"),
   {| m_experiment_setup.disk :=
        {[ "/tmp/tmpa1b2c3d4" := Dir; "/tmp/tmpa1b2c3d4/behavior.tar.gz" := File "experiment archive" ]};
      m_experiment_setup.self :=
        {| m_experiment_setup.temp_directory := Some "/tmp/tmpa1b2c3d4";
           m_experiment_setup.manifest := YScalar SNone;
           m_experiment_setup.firmwares := ∅;
           m_experiment_setup.schedule := YScalar SNone |} |}).
Proof.
  split; [reflexivity|].
  unfold Sample.load_experiment.
  rewrite (proj1 (proj2 (safe_extract_is_atomic "/" "/tmp/tmpa1b2c3d4"
             (fun _ => Ok (Sample.experiment_manifest [])) (fun _ => "")
             (Sample.experiment_archive [Sample.file "../../etc/passwd" "root"])
             (ex_intro _ (Sample.file "../../etc/passwd" "root")
                (conj (or_intror (or_intror (or_intror (or_intror (or_introl eq_refl)))))
                      eq_refl))))).
  - reflexivity.
  - intros elt Helt. vm_compute in Helt |- *. tauto.
Defined.

(** ** C3: missing mandatory members *)

(** C3.  When the names of the archive lack a mandatory member, both
    constructors raise their exception before anything is extracted: the
    disk holds the workspace directory and the copy of the archive only.
    The exception carries the list of the missing members (the
    experiment loader as a list next to the names of the archive, the
    node loader joined with [" ,"]): a name is in that list exactly when
    it is mandatory and not a name of the archive. *)
Theorem missing_members_are_reported
    (cwd tmp : string) (yaml_load : string -> result yaml) (py_repr : yaml -> string)
    (archive : tarfile.TarFile) (d : FS) :
  ((exists elt, In elt m_experiment_setup.CONFIGURATION_MANDATORY_MEMBERS /\
                ~ In elt (tarfile.getnames archive)) ->
   exists missing : list string,
     m_experiment_setup.__init__ cwd yaml_load tmp archive (m_experiment_setup.fresh d) =
       (Raise (ExperimentSetupException
                 (ERROR_MISSING_ARGUMENT_IN_ARCHIVE
                    (MissingElements missing (tarfile.getnames archive)))),
        {| m_experiment_setup.disk :=
             materialised cwd tmp m_experiment_setup.PROFILE_FILENAME archive d;
           m_experiment_setup.self :=
             m_experiment_setup.set_temp_directory (Some tmp)
               (m_experiment_setup.self (m_experiment_setup.fresh d)) |}) /\
     forall x, In x missing <->
               In x m_experiment_setup.CONFIGURATION_MANDATORY_MEMBERS /\
               ~ In x (tarfile.getnames archive)) /\
  ((exists elt, In elt m_node_setup.PROFILE_MANDATORY_MEMBERS /\
                ~ In elt (tarfile.getnames archive)) ->
   exists missing : list string,
     m_node_setup.__init__ cwd yaml_load py_repr tmp archive (m_node_setup.fresh d) =
       (Raise (NodeSetupException
                 (ERROR_MISSING_ARGUMENT_IN_ARCHIVE (Text (Str.join " ," missing)))),
        {| m_node_setup.disk :=
             materialised cwd tmp m_node_setup.PROFILE_FILENAME archive d;
           m_node_setup.self :=
             m_node_setup.set_temp_directory (Some tmp)
               (m_node_setup.self (m_node_setup.fresh d)) |}) /\
     forall x, In x missing <->
               In x m_node_setup.PROFILE_MANDATORY_MEMBERS /\
               ~ In x (tarfile.getnames archive)).
Proof.
  split; intros Hmiss.
  - eexists. split; [|apply missing_characterised].
    unfold m_experiment_setup.__init__. rewrite (some_missing _ _ Hmiss).
    reflexivity.
  - eexists. split; [|apply missing_characterised].
    unfold m_node_setup.__init__. rewrite (some_missing _ _ Hmiss).
    reflexivity.
Qed.

Lemma missing_members_are_reported_witness :
  exists missing : list string,
    Sample.load_profile Sample.profile_archive_without_executables
      (Sample.profile_manifest [] [] "start" (Sample.serial_settings Sample.baudrate)) =
      (Raise (NodeSetupException
                (ERROR_MISSING_ARGUMENT_IN_ARCHIVE (Text (Str.join " ," missing)))),
       {| m_node_setup.disk :=
            {[ "/tmp/tmpa1b2c3d4" := Dir; "/tmp/tmpa1b2c3d4/node-profile.tar.gz" := File "node profile archive" ]};
          m_node_setup.self :=
            {| m_node_setup.temp_directory := Some "/tmp/tmpa1b2c3d4";
               m_node_setup.manifest := YScalar SNone |} |}) /\
    forall x, In x missing <->
              In x m_node_setup.PROFILE_MANDATORY_MEMBERS /\
              ~ In x (tarfile.getnames Sample.profile_archive_without_executables).
Proof.
  assert (Hmiss : exists elt, In elt m_node_setup.PROFILE_MANDATORY_MEMBERS /\
            ~ In elt (tarfile.getnames Sample.profile_archive_without_executables)).
  { exists "controller/executables". split.
    - right. left. reflexivity.
    - vm_compute. intros H. repeat (destruct H as [H|H]; [discriminate H|]). exact H. }
  exact (proj2 (missing_members_are_reported "/" "/tmp/tmpa1b2c3d4"
                  (fun _ => Ok (Sample.profile_manifest [] [] "start"
                                  (Sample.serial_settings Sample.baudrate)))
                  (fun _ => "") Sample.profile_archive_without_executables ∅) Hmiss).
Defined.

(** The archive without [controller/executables]: the exception lists
    exactly that name. *)
Example missing_executables_directory :
  (Sample.load_profile Sample.profile_archive_without_executables
     (Sample.profile_manifest [] [] "start" (Sample.serial_settings Sample.baudrate))).1 =
  Raise (NodeSetupException (ERROR_MISSING_ARGUMENT_IN_ARCHIVE (Text "controller/executables"))).
Proof. reflexivity. Qed.

(** ** C1: what the guard lets through *)

(** C1, at the member [../tmpa1b2c3d4_evil/x] of an archive loaded into [/tmp/tmpa1b2c3d4].
    The guard compares the canonical paths character by character, so it
    accepts the destination [/tmp/tmpa1b2c3d4_evil/x]; the constructor succeeds and
    the file is written there, outside the workspace. *)
Theorem sibling_directory_passes_the_guard :
  tarfile.destination "/" "/tmp/tmpa1b2c3d4" (Sample.file "../tmpa1b2c3d4_evil/x" "payload") = "/tmp/tmpa1b2c3d4_evil/x" /\
  is_within_directory "/" "/tmp/tmpa1b2c3d4" (posixpath.join "/tmp/tmpa1b2c3d4" "../tmpa1b2c3d4_evil/x") = true /\
  below "/tmp/tmpa1b2c3d4" "/tmp/tmpa1b2c3d4_evil/x" = false /\
  (Sample.load_experiment
     (Sample.experiment_archive [Sample.file "../tmpa1b2c3d4_evil/x" "payload"])
     (Sample.experiment_manifest [])).1 = Ok tt /\
  m_experiment_setup.disk
    (Sample.load_experiment
       (Sample.experiment_archive [Sample.file "../tmpa1b2c3d4_evil/x" "payload"])
       (Sample.experiment_manifest [])).2 !! "/tmp/tmpa1b2c3d4_evil/x" = Some (File "payload").
Proof. repeat split; vm_compute; reflexivity. Qed.

(** A member that climbs out to a path which does not start with the
    characters of the workspace is rejected. *)
Example parent_directory_is_rejected :
  is_within_directory "/" "/tmp/tmpa1b2c3d4" (posixpath.join "/tmp/tmpa1b2c3d4" "../../etc/passwd") = false /\
  is_within_directory "/" "/tmp/tmpa1b2c3d4" (posixpath.join "/tmp/tmpa1b2c3d4" "/etc/passwd") = false.
Proof. split; reflexivity. Qed.

Lemma commonprefix_is_first (a b : string) :
  posixpath.commonprefix a b = a <-> Str.startswith a b = true.
Proof.
  revert b. induction a as [|c a IH]; intros b; cbn [posixpath.commonprefix Str.startswith].
  - split; reflexivity.
  - destruct b as [|d b]; [split; discriminate|].
    rewrite Ascii.eqb_sym. destruct (Ascii.eqb d c) eqn:E; cbn [andb].
    + apply Ascii.eqb_eq in E. subst d. rewrite <- IH. split.
      * intros H. injection H as H. exact H.
      * intros H. rewrite H. reflexivity.
    + split; discriminate.
Qed.

(** The guard is the test that the canonical path of the directory
    begins, as a string, the canonical path of the target. *)
Lemma is_within_directory_startswith (cwd directory target : string) :
  is_within_directory cwd directory target =
    Str.startswith (posixpath.abspath cwd directory) (posixpath.abspath cwd target).
Proof.
  unfold is_within_directory.
  destruct (Str.startswith (posixpath.abspath cwd directory) (posixpath.abspath cwd target))
    eqn:E.
  - apply String.eqb_eq. apply commonprefix_is_first. exact E.
  - apply String.eqb_neq. intros H. apply commonprefix_is_first in H.
    rewrite H in E. discriminate E.
Qed.

(** What the guard does ensure: when [safe_extract] returns, the archive
    has been extracted and the canonical path of the workspace is, as a
    string, the beginning of the destination of every member. *)
Theorem accepted_members_share_the_prefix
    (cwd path : string) (tar : tarfile.TarFile) (disk disk' : FS) :
  safe_extract cwd tar path disk = (Ok tt, disk') ->
  tarfile.extractall cwd path tar disk = (Ok tt, disk') /\
  forall member, In member (tarfile.getmembers tar) ->
    Str.startswith (posixpath.abspath cwd path) (tarfile.destination cwd path member) = true.
Proof.
  unfold safe_extract. intros H. apply bind_ok_inv in H as [[] [d1 [H1 H2]]].
  apply lift_ok_inv in H1 as [Hcheck ->].
  split; [exact H2|].
  intros member Hin. pose proof (check_members_accepts _ _ _ Hcheck member Hin) as Hin'.
  rewrite is_within_directory_startswith in Hin'. exact Hin'.
Qed.

Lemma accepted_members_share_the_prefix_witness :
  Str.startswith "/tmp/tmpa1b2c3d4"
    (tarfile.destination "/" "/tmp/tmpa1b2c3d4" (Sample.file "../tmpa1b2c3d4_evil/x" "payload")) = true.
Proof.
  refine (proj2 (accepted_members_share_the_prefix "/" "/tmp/tmpa1b2c3d4"
                   (Sample.experiment_archive [Sample.file "../tmpa1b2c3d4_evil/x" "payload"])
                   ∅ _ eq_refl) (Sample.file "../tmpa1b2c3d4_evil/x" "payload") _).
  right. right. right. right. left. reflexivity.
Defined.

(** ** C6: the executable placeholders *)

(** C6, at the manifest with the executable [{id: cmd1, file: run.sh}] and
    the [start] command [<!cmd1> --mode=fast], the file [run.sh] being in
    the archive.  The loop over the commands iterates the mapping itself:
    unpacking its first key, [load], into [cmd_name, cmd] raises
    [ValueError], and the [start] command is as the manifest gave it. *)
Theorem executable_placeholder_raises :
  (Sample.load_profile (Sample.profile_archive [])
     (Sample.profile_manifest [Sample.entry "cmd1" "run.sh"] [] "<!cmd1> --mode=fast"
        (Sample.serial_settings Sample.baudrate))).1 = Raise ValueError /\
  command
    (m_node_setup.manifest (m_node_setup.self
       (Sample.load_profile (Sample.profile_archive [])
          (Sample.profile_manifest [Sample.entry "cmd1" "run.sh"] []
             "<!cmd1> --mode=fast" (Sample.serial_settings Sample.baudrate))).2))
    "start" = Ok (YStr "<!cmd1> --mode=fast").
Proof. split; vm_compute; reflexivity. Qed.

(** ** C4: the walk of the mandatory paths *)

Lemma lacks_getitem n key : lacks n key -> exists e, getitem n key = Raise e.
Proof.
  destruct n as [v|items|entries]; simpl; intros H.
  - exists TypeError. reflexivity.
  - exists TypeError. reflexivity.
  - rewrite H. exists KeyError. reflexivity.
Qed.

Lemma walk_resolves missing m keys n :
  resolves m keys n -> walk missing m keys = Ok n.
Proof.
  induction 1 as [n|entries key v keys n Hlook _ IH]; simpl.
  - reflexivity.
  - rewrite Hlook. exact IH.
Qed.

Lemma walk_stops missing m pre element post n :
  resolves m pre n -> lacks n element ->
  walk missing m (pre ++ element :: post)%list = Raise (missing element).
Proof.
  induction 1 as [n|entries key v keys n Hlook _ IH]; simpl; intros Hlacks.
  - destruct (lacks_getitem _ _ Hlacks) as [e He]. rewrite He. reflexivity.
  - rewrite Hlook. apply IH. exact Hlacks.
Qed.

Section Walks.

Variable m : yaml.
Variables before after pre post : list string.
Variables path element : string.
Variable n : yaml.

Hypothesis before_resolve :
  forall p, In p before -> exists n', resolves m (Str.split "/" p) n'.
Hypothesis path_elements : Str.split "/" path = (pre ++ element :: post)%list.
Hypothesis pre_resolves : resolves m pre n.
Hypothesis element_lacking : lacks n element.

Lemma experiment_walk_stops w :
  m_experiment_setup.manifest (m_experiment_setup.self w) = m ->
  m_experiment_setup.validate_manifest (before ++ path :: after)%list w =
    (Raise (m_experiment_setup.element_missing path element), w).
Proof using before_resolve path_elements pre_resolves element_lacking.
  intros Hm. unfold m_experiment_setup.validate_manifest.
  induction before as [|p rest IH]; simpl.
  - unfold bind, get, lift. rewrite Hm. unfold m_experiment_setup.validate_path.
    rewrite path_elements.
    rewrite (walk_stops _ _ _ _ _ _ pre_resolves element_lacking). reflexivity.
  - unfold bind at 1 2. unfold get, lift. rewrite Hm.
    unfold m_experiment_setup.validate_path at 1.
    destruct (before_resolve p (or_introl eq_refl)) as [n' Hn'].
    rewrite (walk_resolves _ _ _ _ Hn').
    apply IH. intros q Hq. apply before_resolve. right. exact Hq.
Qed.

Lemma node_walk_stops w :
  m_node_setup.manifest (m_node_setup.self w) = m ->
  m_node_setup.validate_manifest (before ++ path :: after)%list w =
    (Raise (m_node_setup.argument_missing element), w).
Proof using before_resolve path_elements pre_resolves element_lacking.
  intros Hm. unfold m_node_setup.validate_manifest.
  induction before as [|p rest IH]; simpl.
  - unfold bind, get, lift. rewrite Hm. unfold m_node_setup.validate_path.
    rewrite path_elements.
    rewrite (walk_stops _ _ _ _ _ _ pre_resolves element_lacking). reflexivity.
  - unfold bind at 1 2. unfold get, lift. rewrite Hm.
    unfold m_node_setup.validate_path at 1.
    destruct (before_resolve p (or_introl eq_refl)) as [n' Hn'].
    rewrite (walk_resolves _ _ _ _ Hn').
    apply IH. intros q Hq. apply before_resolve. right. exact Hq.
Qed.

End Walks.

(** C4, as the code has it.  Let the paths [before] resolve in the
    manifest [m], and let [path] split into [pre], which resolves to a
    node [n], then [element], which [n] lacks, then [post].  The walk of
    [before ++ path :: after] raises at [element] whatever [after] is and
    leaves the state as it was.  The exception of the experiment loader
    is formatted from the text that names [element] and [path]; the
    exception of the node loader is formatted from [element] alone. *)
Theorem first_missing_field_is_reported
    (m : yaml) (before after pre post : list string) (path element : string) (n : yaml) :
  (forall p, In p before -> exists n', resolves m (Str.split "/" p) n') ->
  Str.split "/" path = (pre ++ element :: post)%list ->
  resolves m pre n ->
  lacks n element ->
  (forall w, m_experiment_setup.manifest (m_experiment_setup.self w) = m ->
     m_experiment_setup.validate_manifest (before ++ path :: after)%list w =
       (Raise (ExperimentSetupException
                 (ERROR_MISSING_ARGUMENT_IN_ARCHIVE
                    (Text ("element missing: " +:+ element +:+ " in: " +:+ path)))), w)) /\
  (forall w, m_node_setup.manifest (m_node_setup.self w) = m ->
     m_node_setup.validate_manifest (before ++ path :: after)%list w =
       (Raise (NodeSetupException (ERROR_MISSING_ARGUMENT_IN_MANIFEST (Text element))), w)).
Proof.
  intros Hbefore Hsplit Hpre Hlacks. split; intros w Hm.
  - apply (experiment_walk_stops m before after pre post path element n); assumption.
  - apply (node_walk_stops m before after pre post path element n); assumption.
Qed.

Lemma first_missing_field_is_reported_witness :
  m_node_setup.validate_manifest ["serial"; "serial/port"; "serial/baudrate"; "serial/parity"]
    {| m_node_setup.disk := ∅;
       m_node_setup.self :=
         {| m_node_setup.temp_directory := Some "/tmp/tmpa1b2c3d4";
            m_node_setup.manifest :=
              Sample.profile_manifest [] [] "start" (Sample.serial_settings []) |} |} =
  (Raise (NodeSetupException (ERROR_MISSING_ARGUMENT_IN_MANIFEST (Text "baudrate"))),
   {| m_node_setup.disk := ∅;
      m_node_setup.self :=
        {| m_node_setup.temp_directory := Some "/tmp/tmpa1b2c3d4";
           m_node_setup.manifest :=
             Sample.profile_manifest [] [] "start" (Sample.serial_settings []) |} |}).
Proof.
  refine (proj2 (first_missing_field_is_reported
                   (Sample.profile_manifest [] [] "start" (Sample.serial_settings []))
                   ["serial"; "serial/port"] ["serial/parity"] ["serial"] []
                   "serial/baudrate" "baudrate" (Sample.serial_settings [])
                   _ eq_refl _ eq_refl)
            {| m_node_setup.disk := ∅;
               m_node_setup.self :=
                 {| m_node_setup.temp_directory := Some "/tmp/tmpa1b2c3d4";
                    m_node_setup.manifest :=
                      Sample.profile_manifest [] [] "start" (Sample.serial_settings []) |} |}
            eq_refl).
  - intros p [Hp|[Hp|[]]]; subst p; eexists; simpl;
      repeat (eapply resolves_down; [reflexivity|]); apply resolves_here.
  - eapply resolves_down; [reflexivity|]. apply resolves_here.
Defined.

(** C4 as stated fails for the node profile: with [serial/baudrate]
    missing, the exception is formatted from [baudrate] alone, a text in
    which the path [serial/baudrate] does not occur. *)
Lemma node_error_omits_the_path :
  (Sample.load_profile (Sample.profile_archive [])
     (Sample.profile_manifest [] [] "start" (Sample.serial_settings []))).1 =
    Raise (NodeSetupException (ERROR_MISSING_ARGUMENT_IN_MANIFEST (Text "baudrate"))) /\
  Str.contains "serial/baudrate" "baudrate" = false.
Proof. split; vm_compute; reflexivity. Qed.

(** ** C8: releasing the workspace *)

Lemma rmtree_directory cwd path disk :
  disk !! posixpath.abspath cwd path = Some Dir ->
  exists disk',
    rmtree cwd path disk = (Ok tt, disk') /\
    (forall p, below (posixpath.abspath cwd path) p = true -> disk' !! p = None) /\
    (forall p, below (posixpath.abspath cwd path) p = false -> disk' !! p = disk !! p) /\
    rmtree cwd path disk' = (Raise FileNotFoundError, disk').
Proof.
  intros Hdir. unfold rmtree. rewrite Hdir.
  set (root := posixpath.abspath cwd path) in *.
  set (disk' := filter (fun kv : string * node => below root kv.1 = false) disk).
  assert (Hin : forall p, below root p = true -> disk' !! p = None).
  { intros p Hp. apply map_lookup_filter_None. right. intros x _. simpl.
    rewrite Hp. discriminate. }
  exists disk'. split; [reflexivity|]. split; [exact Hin|]. split.
  - intros p Hp. destruct (disk !! p) as [x|] eqn:Hx.
    + apply map_lookup_filter_Some. split; [exact Hx | exact Hp].
    + apply map_lookup_filter_None. left. exact Hx.
  - rewrite Hin; [reflexivity|]. unfold below. rewrite String.eqb_refl. reflexivity.
Qed.

(** C8, as the code has it.  When the workspace of a loader is a
    directory of the disk, [clean] returns and the disk has lost that
    directory and every path below it, and nothing else; [clean] once
    more raises [FileNotFoundError] and leaves the disk as it is.  This
    holds for the loader of either module. *)
Theorem clean_removes_then_raises (cwd tmp : string) :
  (forall w : m_experiment_setup.world,
     m_experiment_setup.temp_directory (m_experiment_setup.self w) = Some tmp ->
     m_experiment_setup.disk w !! posixpath.abspath cwd tmp = Some Dir ->
     exists w1,
       m_experiment_setup.clean cwd w = (Ok tt, w1) /\
       m_experiment_setup.self w1 = m_experiment_setup.self w /\
       (forall p, below (posixpath.abspath cwd tmp) p = true ->
                  m_experiment_setup.disk w1 !! p = None) /\
       (forall p, below (posixpath.abspath cwd tmp) p = false ->
                  m_experiment_setup.disk w1 !! p = m_experiment_setup.disk w !! p) /\
       m_experiment_setup.clean cwd w1 = (Raise FileNotFoundError, w1)) /\
  (forall w : m_node_setup.world,
     m_node_setup.temp_directory (m_node_setup.self w) = Some tmp ->
     m_node_setup.disk w !! posixpath.abspath cwd tmp = Some Dir ->
     exists w1,
       m_node_setup.clean cwd w = (Ok tt, w1) /\
       m_node_setup.self w1 = m_node_setup.self w /\
       (forall p, below (posixpath.abspath cwd tmp) p = true ->
                  m_node_setup.disk w1 !! p = None) /\
       (forall p, below (posixpath.abspath cwd tmp) p = false ->
                  m_node_setup.disk w1 !! p = m_node_setup.disk w !! p) /\
       m_node_setup.clean cwd w1 = (Raise FileNotFoundError, w1)).
Proof.
  split; intros [d l] Htmp Hdir; simpl in Htmp, Hdir;
    destruct (rmtree_directory cwd tmp d Hdir) as [d' [Hrm [Hin [Hout Hagain]]]].
  - exists {| m_experiment_setup.disk := d'; m_experiment_setup.self := l |}.
    unfold m_experiment_setup.clean, bind, get, m_experiment_setup.on_disk.
    cbn [m_experiment_setup.self m_experiment_setup.disk].
    rewrite Htmp. cbn [m_experiment_setup.self m_experiment_setup.disk].
    rewrite Hrm, Hagain. auto.
  - exists {| m_node_setup.disk := d'; m_node_setup.self := l |}.
    unfold m_node_setup.clean, bind, get, m_node_setup.on_disk.
    cbn [m_node_setup.self m_node_setup.disk].
    rewrite Htmp. cbn [m_node_setup.self m_node_setup.disk].
    rewrite Hrm, Hagain. auto.
Qed.

Lemma clean_removes_then_raises_witness :
  exists w1,
    m_node_setup.clean "/"
      (Sample.load_profile (Sample.profile_archive [])
         (Sample.profile_manifest [] [] "start" (Sample.serial_settings Sample.baudrate))).2 =
      (Ok tt, w1) /\
    m_node_setup.disk w1 !! "/tmp/tmpa1b2c3d4/manifest.yml" = None /\
    m_node_setup.clean "/" w1 = (Raise FileNotFoundError, w1).
Proof.
  destruct (proj2 (clean_removes_then_raises "/" "/tmp/tmpa1b2c3d4")
              (Sample.load_profile (Sample.profile_archive [])
                 (Sample.profile_manifest [] [] "start"
                    (Sample.serial_settings Sample.baudrate))).2
              eq_refl eq_refl) as [w1 [H1 [_ [H2 [_ H3]]]]].
  exists w1. split; [exact H1|]. split; [|exact H3].
  apply H2. reflexivity.
Defined.

(** C8 as stated fails: after a first [clean] has removed the workspace,
    a second [clean] raises. *)
Lemma second_clean_raises :
  (m_experiment_setup.clean "/"
     (Sample.load_experiment (Sample.experiment_archive [])
        (Sample.experiment_manifest [])).2).1 = Ok tt /\
  (m_experiment_setup.clean "/"
     (m_experiment_setup.clean "/"
        (Sample.load_experiment (Sample.experiment_archive [])
           (Sample.experiment_manifest [])).2).2).1 = Raise FileNotFoundError.
Proof. split; vm_compute; reflexivity. Qed.

(** ** The firmware table *)

Section Firmwares.

Variable cwd : string.
Variable firmwares_dir : string.

(** One round of the loop on a well-formed entry: the path is stored,
    then tested. *)
Lemma register_firmware_entry e k f w :
  table_entry e k f ->
  m_experiment_setup.register_firmware cwd firmwares_dir e w =
    (if isfile cwd (m_experiment_setup.disk w) (posixpath.join firmwares_dir f)
     then Ok tt
     else Raise (ExperimentSetupException (ERROR_MISSING_ARGUMENT_IN_ARCHIVE (Text f))),
     {| m_experiment_setup.disk := m_experiment_setup.disk w;
        m_experiment_setup.self :=
          m_experiment_setup.set_firmware k (posixpath.join firmwares_dir f)
            (m_experiment_setup.self w) |}).
Proof.
  intros [fid [Hid [Hkey Hfile]]].
  unfold m_experiment_setup.register_firmware, bind, lift.
  rewrite Hid, Hfile. cbn [fspath YStr]. rewrite Hkey.
  unfold m_experiment_setup.on_self, modify, get, raise, ret.
  cbn [m_experiment_setup.self m_experiment_setup.disk m_experiment_setup.firmwares
       m_experiment_setup.set_firmware].
  rewrite lookup_insert_eq.
  destruct (isfile cwd (m_experiment_setup.disk w) (posixpath.join firmwares_dir f));
    reflexivity.
Qed.

(** A round that returns was on a well-formed entry whose file exists. *)
Lemma register_firmware_returns e w w' :
  m_experiment_setup.register_firmware cwd firmwares_dir e w = (Ok tt, w') ->
  exists k f,
    table_entry e k f /\
    isfile cwd (m_experiment_setup.disk w) (posixpath.join firmwares_dir f) = true /\
    w' = {| m_experiment_setup.disk := m_experiment_setup.disk w;
            m_experiment_setup.self :=
              m_experiment_setup.set_firmware k (posixpath.join firmwares_dir f)
                (m_experiment_setup.self w) |}.
Proof.
  intros H.
  destruct (getitem e "id") as [fid|x] eqn:Hid;
    [|unfold m_experiment_setup.register_firmware, bind, lift in H;
      rewrite Hid in H; discriminate H].
  destruct (getitem e "file") as [ffile|x] eqn:Hfile;
    [|unfold m_experiment_setup.register_firmware, bind, lift in H;
      rewrite Hid, Hfile in H; discriminate H].
  destruct (fspath ffile) as [f|x] eqn:Hf;
    [|unfold m_experiment_setup.register_firmware, bind, lift in H;
      rewrite Hid, Hfile, Hf in H; discriminate H].
  destruct (hash_key fid) as [k|x] eqn:Hk;
    [|unfold m_experiment_setup.register_firmware, bind, lift in H;
      rewrite Hid, Hfile, Hf, Hk in H; discriminate H].
  assert (Hffile : ffile = YStr f).
  { destruct ffile as [[s|z|b|]|items|entries]; simpl in Hf; try discriminate Hf.
    injection Hf as ->. reflexivity. }
  subst ffile.
  assert (Hentry : table_entry e k f) by (exists fid; auto).
  rewrite (register_firmware_entry e k f w Hentry) in H.
  exists k, f. split; [exact Hentry|].
  destruct (isfile cwd (m_experiment_setup.disk w) (posixpath.join firmwares_dir f));
    [|discriminate H].
  split; [reflexivity|]. injection H as <-. reflexivity.
Qed.



(** A loop that returns leaves the disk and the manifest alone; every
    entry was well formed with its file on the disk; a key of
    [self.firmwares] stays one; and every path of [self.firmwares] was
    there before or is the path of such an entry. *)
Lemma loop_returned entries w w' :
  for_each entries (m_experiment_setup.register_firmware cwd firmwares_dir) w = (Ok tt, w') ->
  m_experiment_setup.disk w' = m_experiment_setup.disk w /\
  m_experiment_setup.manifest (m_experiment_setup.self w') =
    m_experiment_setup.manifest (m_experiment_setup.self w) /\
  m_experiment_setup.temp_directory (m_experiment_setup.self w') =
    m_experiment_setup.temp_directory (m_experiment_setup.self w) /\
  (forall k, is_Some (m_experiment_setup.firmwares (m_experiment_setup.self w) !! k) ->
             is_Some (m_experiment_setup.firmwares (m_experiment_setup.self w') !! k)) /\
  (forall e, In e entries ->
     exists k f, table_entry e k f /\
       isfile cwd (m_experiment_setup.disk w) (posixpath.join firmwares_dir f) = true /\
       is_Some (m_experiment_setup.firmwares (m_experiment_setup.self w') !! k)) /\
  (forall k p, m_experiment_setup.firmwares (m_experiment_setup.self w') !! k = Some p ->
     m_experiment_setup.firmwares (m_experiment_setup.self w) !! k = Some p \/
     exists e f, In e entries /\ table_entry e k f /\ p = posixpath.join firmwares_dir f /\
       isfile cwd (m_experiment_setup.disk w) (posixpath.join firmwares_dir f) = true).
Proof.
  revert w. induction entries as [|e entries IH]; intros w H.
  - cbn in H. injection H as <-. repeat split; try reflexivity.
    + intros k Hk. exact Hk.
    + intros e [].
    + intros k p Hp. left. exact Hp.
  - cbn [for_each] in H. apply bind_ok_inv in H as [[] [w1 [H1 H2]]].
    apply register_firmware_returns in H1 as [k [f [He [Hf ->]]]].
    apply IH in H2 as [Hd [Hm [Ht [Hmono [Hall Hmap]]]]].
    cbn [m_experiment_setup.disk m_experiment_setup.self m_experiment_setup.manifest
         m_experiment_setup.temp_directory m_experiment_setup.set_firmware
         m_experiment_setup.firmwares] in *.
    repeat split; try assumption.
    + intros k' Hk'. apply Hmono. destruct (decide (k = k')) as [<-|Hne].
      * rewrite lookup_insert_eq. eexists. reflexivity.
      * rewrite lookup_insert_ne by exact Hne. exact Hk'.
    + intros e' [<-|Hin].
      * exists k, f. split; [exact He|]. split; [exact Hf|].
        apply Hmono. rewrite lookup_insert_eq. eexists. reflexivity.
      * apply Hall. exact Hin.
    + intros k' p Hp. destruct (Hmap k' p Hp) as [Hold|[e' [f' [Hin [He' [-> Hf']]]]]].
      * destruct (decide (k = k')) as [<-|Hne].
        -- rewrite lookup_insert_eq in Hold. injection Hold as <-.
           right. exists e, f. split; [left; reflexivity|]. auto.
        -- rewrite lookup_insert_ne in Hold by exact Hne. left. exact Hold.
      * right. exists e', f'. split; [right; exact Hin|]. auto.
Qed.

End Firmwares.

(** A mandatory path of one element resolves when the manifest has it. *)
Lemma experiment_validate_key m key v :
  Str.split "/" key = [key] ->
  getitem m key = Ok v ->
  m_experiment_setup.validate_path m key = Ok tt.
Proof.
  intros Hsplit Hget. unfold m_experiment_setup.validate_path.
  rewrite Hsplit. cbn [walk]. rewrite Hget. reflexivity.
Qed.

Lemma experiment_validated_key m key :
  Str.split "/" key = [key] ->
  m_experiment_setup.validate_path m key = Ok tt ->
  exists v, getitem m key = Ok v.
Proof.
  intros Hsplit. unfold m_experiment_setup.validate_path.
  rewrite Hsplit. cbn [walk]. destruct (getitem m key) as [v|e]; intros H.
  - exists v. reflexivity.
  - discriminate H.
Qed.

Lemma all_present mandatory contents :
  existsb (fun elt => negb (py_in elt contents)) mandatory = false ->
  forall elt, In elt mandatory -> In elt contents.
Proof.
  intros H elt Hin. apply py_in_In. destruct (py_in elt contents) eqn:E; [reflexivity|].
  assert (Hex : existsb (fun elt => negb (py_in elt contents)) mandatory = true).
  { apply existsb_exists. exists elt. rewrite E. auto. }
  rewrite Hex in H. discriminate H.
Qed.

Section ExperimentRun.

Variable cwd : string.
Variable yaml_load : string -> result yaml.
Variable tmp : string.
Variable archive : tarfile.TarFile.
Variable d : FS.

(** The constructor up to the loop over the firmware table, when the
    archive is accepted and its manifest has the two mandatory keys. *)
Lemma experiment_reaches_the_table text m table sched entries :
  (forall elt, In elt m_experiment_setup.CONFIGURATION_MANDATORY_MEMBERS ->
               In elt (tarfile.getnames archive)) ->
  check_members cwd tmp (tarfile.getmembers archive) = Ok tt ->
  extraction_returns cwd tmp m_experiment_setup.PROFILE_FILENAME archive d ->
  read_file cwd (extracted cwd tmp m_experiment_setup.PROFILE_FILENAME archive d)
    (posixpath.join tmp m_experiment_setup.EXPERIMENT_MANIFEST) = Ok text ->
  yaml_load text = Ok m ->
  getitem m "firmwares" = Ok table ->
  getitem m "schedule" = Ok sched ->
  iterate table = Ok entries ->
  m_experiment_setup.__init__ cwd yaml_load tmp archive (m_experiment_setup.fresh d) =
    (for_each entries (m_experiment_setup.register_firmware cwd
                         (posixpath.join tmp m_experiment_setup.FIRMWARES_SUBDIR)) ;;;
     w <- get ;;
     sched <- lift (getitem (m_experiment_setup.manifest (m_experiment_setup.self w))
                      "schedule") ;;
     m_experiment_setup.on_self (m_experiment_setup.set_schedule sched))
      {| m_experiment_setup.disk :=
         extracted cwd tmp m_experiment_setup.PROFILE_FILENAME archive d;
         m_experiment_setup.self :=
           {| m_experiment_setup.temp_directory := Some tmp;
              m_experiment_setup.manifest := m;
              m_experiment_setup.firmwares := ∅;
              m_experiment_setup.schedule := YScalar SNone |} |}.
Proof.
  intros Hall Hcheck Hextract Hread Hload Hfw Hsched Hiter.
  unfold m_experiment_setup.__init__. rewrite (none_missing _ _ Hall).
  unfold safe_extract, m_experiment_setup.validate_manifest,
    m_experiment_setup.MANIFEST_MANDATORY_MEMBERS, m_experiment_setup.fresh.
  cbn [for_each].
  unfold bind, m_experiment_setup.on_self, m_experiment_setup.on_disk, modify, ret, lift, get.
  cbn [m_experiment_setup.self m_experiment_setup.disk].
  rewrite Hcheck.
  cbn [m_experiment_setup.self m_experiment_setup.disk].
  unfold extracted, extraction_returns, materialised in *.
  destruct (tarfile.extractall cwd tmp archive _) as [r d1].
  cbn [fst snd] in *. subst r.
  cbn [m_experiment_setup.self m_experiment_setup.disk].
  rewrite Hread, Hload.
  cbn [m_experiment_setup.self m_experiment_setup.disk m_experiment_setup.manifest
       m_experiment_setup.set_manifest m_experiment_setup.set_temp_directory
       m_experiment_setup.temp_directory m_experiment_setup.firmwares
       m_experiment_setup.schedule].
  rewrite (experiment_validate_key m "firmwares" table eq_refl Hfw).
  rewrite (experiment_validate_key m "schedule" sched eq_refl Hsched).
  cbn [m_experiment_setup.self m_experiment_setup.disk m_experiment_setup.manifest
       m_experiment_setup.set_manifest m_experiment_setup.set_temp_directory
       m_experiment_setup.temp_directory m_experiment_setup.firmwares
       m_experiment_setup.schedule].
  rewrite Hfw, Hiter.
  reflexivity.
Qed.

(** A constructor that returns went through every stage. *)
Lemma experiment_returned w :
  m_experiment_setup.__init__ cwd yaml_load tmp archive (m_experiment_setup.fresh d) =
    (Ok tt, w) ->
  exists text m table sched entries,
    (forall elt, In elt m_experiment_setup.CONFIGURATION_MANDATORY_MEMBERS ->
                 In elt (tarfile.getnames archive)) /\
    check_members cwd tmp (tarfile.getmembers archive) = Ok tt /\
    extraction_returns cwd tmp m_experiment_setup.PROFILE_FILENAME archive d /\
    read_file cwd (extracted cwd tmp m_experiment_setup.PROFILE_FILENAME archive d)
    (posixpath.join tmp m_experiment_setup.EXPERIMENT_MANIFEST) = Ok text /\
    yaml_load text = Ok m /\
    getitem m "firmwares" = Ok table /\
    getitem m "schedule" = Ok sched /\
    iterate table = Ok entries.
Proof.
  unfold m_experiment_setup.__init__.
  destruct (existsb _ m_experiment_setup.CONFIGURATION_MANDATORY_MEMBERS) eqn:Hmembers;
    [intros H; discriminate H|].
  unfold safe_extract, m_experiment_setup.validate_manifest,
    m_experiment_setup.MANIFEST_MANDATORY_MEMBERS, m_experiment_setup.fresh.
  cbn [for_each].
  unfold bind, m_experiment_setup.on_self, m_experiment_setup.on_disk, modify, ret, lift, get.
  cbn [m_experiment_setup.self m_experiment_setup.disk].
  destruct (check_members cwd tmp (tarfile.getmembers archive)) as [[]|e] eqn:Hcheck;
    [|intros H; discriminate H].
  cbn [m_experiment_setup.self m_experiment_setup.disk].
  unfold extracted, extraction_returns, materialised.
  destruct (tarfile.extractall cwd tmp archive _) as [[[]|e] d1];
    [|intros H; discriminate H].
  cbn [fst snd m_experiment_setup.self m_experiment_setup.disk].
  destruct (read_file cwd d1 _) as [text|e] eqn:Hread; [|intros H; discriminate H].
  destruct (yaml_load text) as [m|e] eqn:Hload; [|intros H; discriminate H].
  cbn [m_experiment_setup.self m_experiment_setup.disk m_experiment_setup.manifest
       m_experiment_setup.set_manifest m_experiment_setup.set_temp_directory
       m_experiment_setup.temp_directory m_experiment_setup.firmwares
       m_experiment_setup.schedule].
  destruct (m_experiment_setup.validate_path m "firmwares") as [[]|e] eqn:Hv1;
    [|intros H; discriminate H].
  destruct (m_experiment_setup.validate_path m "schedule") as [[]|e] eqn:Hv2;
    [|intros H; discriminate H].
  destruct (experiment_validated_key m "firmwares" eq_refl Hv1) as [table Hfw].
  destruct (experiment_validated_key m "schedule" eq_refl Hv2) as [sched Hsched].
  cbn [m_experiment_setup.self m_experiment_setup.disk m_experiment_setup.manifest
       m_experiment_setup.set_manifest m_experiment_setup.set_temp_directory
       m_experiment_setup.temp_directory m_experiment_setup.firmwares
       m_experiment_setup.schedule].
  rewrite Hfw.
  destruct (iterate table) as [entries|e] eqn:Hiter; [|intros H; discriminate H].
  intros _. exists text, m, table, sched, entries.
  repeat split; try assumption. apply all_present. exact Hmembers.
Qed.

End ExperimentRun.

(** ** C9 and C10: what [self.firmwares] holds *)

Section Stored.

Variable firmwares_dir : string.







End Stored.






(** ** C7: placeholders without an entry *)

Section Strings.

Lemma app_nil (s : string) : "" +:+ s = s.
Proof. reflexivity. Qed.

Lemma app_cons (c : ascii) (s t : string) : String c s +:+ t = String c (s +:+ t).
Proof. reflexivity. Qed.

Lemma app_assoc_string (s t u : string) : (s +:+ t) +:+ u = s +:+ (t +:+ u).
Proof.
  induction s as [|c s IH]; [reflexivity|].
  rewrite !app_cons. rewrite IH. reflexivity.
Qed.

Lemma startswith_app (p s : string) : Str.startswith p (p +:+ s) = true.
Proof.
  induction p as [|c p IH]; [reflexivity|].
  rewrite app_cons. cbn [Str.startswith]. rewrite Ascii.eqb_refl. exact IH.
Qed.

Lemma startswith_split (p s : string) :
  Str.startswith p s = true -> exists r, s = p +:+ r.
Proof.
  revert s. induction p as [|c p IH]; intros s H.
  - exists s. reflexivity.
  - destruct s as [|d s]; [discriminate H|]. cbn [Str.startswith] in H.
    apply andb_true_iff in H as [Hc Hp]. apply Ascii.eqb_eq in Hc. subst d.
    destruct (IH s Hp) as [r ->]. exists r. reflexivity.
Qed.

Lemma contains_app (t a b : string) : Str.contains t (a +:+ t +:+ b) = true.
Proof.
  induction a as [|c a IH].
  - rewrite app_nil. destruct (t +:+ b) eqn:E; cbn [Str.contains];
      rewrite <- E, startswith_app; reflexivity.
  - rewrite app_cons. cbn [Str.contains]. rewrite IH. apply orb_true_r.
Qed.

Lemma contains_split (t s : string) :
  Str.contains t s = true -> exists a b, s = a +:+ t +:+ b.
Proof.
  induction s as [|c s IH]; cbn [Str.contains]; intros H.
  - rewrite orb_false_r in H. apply startswith_split in H as [r Hr].
    exists "", r. exact Hr.
  - apply orb_true_iff in H as [H|H].
    + apply startswith_split in H as [r Hr]. exists "", r. exact Hr.
    + destruct (IH H) as [a [b ->]]. exists (String c a), b. reflexivity.
Qed.

(** A pattern that begins with [<] does not begin where another
    character is. *)
Lemma scan_without_open (r new s b : string) :
  has_char "<" s = false ->
  Str.replace_from (String "<" r) new 0 (s +:+ b) =
    s +:+ Str.replace_from (String "<" r) new 0 b.
Proof.
  induction s as [|c s IH]; intros Hs; [reflexivity|].
  cbn [has_char] in Hs. apply orb_false_iff in Hs as [Hc Hs].
  rewrite !app_cons. cbn [Str.replace_from Str.startswith].
  rewrite Ascii.eqb_sym, Hc. cbn [andb]. rewrite (IH Hs). reflexivity.
Qed.

(** A string without [<] that begins [a] followed by [<] ends within [a]. *)
Lemma startswith_before_open (r a q : string) :
  has_char "<" r = false ->
  Str.startswith r (a +:+ String "<" q) = true ->
  String.length r <= String.length a.
Proof.
  revert a. induction r as [|c r IH]; intros a Hr H; [cbn; lia|].
  cbn [has_char] in Hr. apply orb_false_iff in Hr as [Hc Hr].
  destruct a as [|d a].
  - rewrite app_nil in H. cbn [Str.startswith] in H.
    rewrite Hc in H. discriminate H.
  - rewrite app_cons in H. cbn [Str.startswith] in H.
    apply andb_true_iff in H as [_ H]. cbn [String.length].
    apply IH in H; [lia | exact Hr].
Qed.

(** Between two ids without [>], one followed by [>] begins the other
    followed by [>] only when they are the same id. *)
Lemma closed_id_startswith (y x b : string) :
  has_char ">" y = false -> has_char ">" x = false ->
  Str.startswith (y +:+ ">") (x +:+ ">" +:+ b) = true -> x = y.
Proof.
  revert x. induction y as [|c y IH]; intros x Hy Hx H.
  - destruct x as [|d x]; [reflexivity|].
    rewrite app_nil, app_cons in H. cbn [Str.startswith] in H.
    cbn [has_char] in Hx. apply orb_false_iff in Hx as [Hd _].
    rewrite Ascii.eqb_sym, Hd in H. discriminate H.
  - cbn [has_char] in Hy. apply orb_false_iff in Hy as [Hc Hy].
    destruct x as [|d x].
    + rewrite app_nil, !app_cons in H. cbn [Str.startswith] in H.
      rewrite Hc in H. discriminate H.
    + rewrite !app_cons in H. cbn [Str.startswith] in H.
      apply andb_true_iff in H as [Hcd H]. apply Ascii.eqb_eq in Hcd. subst d.
      cbn [has_char] in Hx. apply orb_false_iff in Hx as [_ Hx].
      f_equal. apply IH; assumption.
Qed.

Variables old_tail new : string.
Variables token_tail after : string.

Hypothesis old_tail_plain : has_char "<" old_tail = false.
Hypothesis token_tail_plain : has_char "<" token_tail = false.
Hypothesis no_match_at_token :
  Str.startswith (String "<" old_tail) (String "<" token_tail +:+ after) = false.

(** Replacing a pattern [<...] leaves alone an occurrence of [<...] that
    the pattern does not match. *)
Lemma replace_from_passes_token (before : string) :
  forall skip, skip <= String.length before ->
  exists before',
    Str.replace_from (String "<" old_tail) new skip
      (before +:+ String "<" token_tail +:+ after) =
    before' +:+ String "<" token_tail +:+
      Str.replace_from (String "<" old_tail) new 0 after.
Proof using old_tail_plain token_tail_plain no_match_at_token.
  induction before as [|c before IH]; intros skip Hskip.
  - cbn [String.length] in Hskip. assert (skip = 0) as -> by lia.
    exists "". rewrite !app_nil.
    remember (String "<" token_tail +:+ after) as whole eqn:Hwhole.
    rewrite app_cons in Hwhole. subst whole.
    cbn [Str.replace_from].
    pose proof no_match_at_token as Hno. rewrite ?app_cons in Hno. rewrite Hno.
    rewrite app_cons. f_equal. apply scan_without_open. exact token_tail_plain.
  - rewrite app_cons. destruct skip as [|skip].
    + cbn [Str.replace_from].
      destruct (Str.startswith (String "<" old_tail)
                  (String c (before +:+ String "<" token_tail +:+ after))) eqn:Hmatch.
      * assert (Hlen : String.length old_tail <= String.length before).
        { cbn [Str.startswith] in Hmatch. apply andb_true_iff in Hmatch as [_ Hmatch].
          rewrite app_cons in Hmatch.
          apply (startswith_before_open _ _ _ old_tail_plain Hmatch). }
        destruct (IH (String.length (String "<" old_tail) - 1)) as [before' Hbefore'].
        { cbn [String.length]. lia. }
        exists (new +:+ before'). rewrite Hbefore'. rewrite app_assoc_string. reflexivity.
      * destruct (IH 0) as [before' Hbefore']; [lia|].
        exists (String c before'). rewrite Hbefore'. reflexivity.
    + cbn [Str.replace_from]. cbn [String.length] in Hskip.
      destruct (IH skip) as [before' Hbefore']; [lia|].
      exists before'. exact Hbefore'.
Qed.

End Strings.

(** Replacing the placeholder [<#y>] keeps every occurrence of another
    placeholder, the ids being plain. *)
Lemma replace_keeps_token (marker : ascii) (x y s new : string) :
  plain x = true -> plain y = true ->
  marker <> "<"%char ->
  (marker <> "#"%char \/ x <> y) ->
  Str.contains (token marker x) s = true ->
  Str.contains (token marker x) (Str.replace s (token "#" y) new) = true.
Proof.
  intros Hx Hy Hmarker Hother Hin.
  unfold plain in Hx, Hy.
  apply andb_true_iff in Hx as [Hx1 Hx2]. apply andb_true_iff in Hy as [Hy1 Hy2].
  apply negb_true_iff in Hx1, Hx2, Hy1, Hy2.
  apply contains_split in Hin as [a [b ->]].
  assert (Hplain : forall c id, c <> "<"%char -> has_char "<" id = false ->
                     has_char "<" (String c (id +:+ ">")) = false).
  { intros c id Hc Hid. cbn [has_char]. apply orb_false_iff. split.
    - apply Ascii.eqb_neq. exact Hc.
    - clear -Hid. induction id as [|d id IH]; [reflexivity|].
      cbn [has_char] in Hid. apply orb_false_iff in Hid as [Hd Hid].
      rewrite app_cons. cbn [has_char]. rewrite Hd. cbn [orb]. apply IH. exact Hid. }
  unfold token, Str.replace.
  destruct (replace_from_passes_token (String "#" (y +:+ ">")) new
              (String marker (x +:+ ">")) b) with (before := a) (skip := 0)
    as [a' Ha'].
  - apply Hplain; [discriminate | exact Hy1].
  - apply Hplain; [exact Hmarker | exact Hx1].
  - rewrite !app_cons. cbn [Str.startswith]. rewrite Ascii.eqb_refl. cbn [andb].
    destruct (Ascii.eqb "#" marker) eqn:Hm; [|reflexivity]. cbn [andb].
    apply Ascii.eqb_eq in Hm. destruct Hother as [Hne|Hne]; [congruence|].
    rewrite app_assoc_string.
    destruct (Str.startswith (y +:+ ">") (x +:+ ">" +:+ b)) eqn:Hstart; [|reflexivity].
    apply closed_id_startswith in Hstart; [congruence | exact Hy2 | exact Hx2].
  - lia.
  - rewrite Ha'. apply contains_app.
Qed.

Lemma lookup_set_entry_eq k v entries :
  lookup_entry k (set_entry k v entries) = Some v.
Proof.
  induction entries as [|[k' v'] entries IH]; cbn [set_entry lookup_entry].
  - rewrite String.eqb_refl. reflexivity.
  - destruct (String.eqb k' k) eqn:E; cbn [lookup_entry]; rewrite E; [reflexivity | exact IH].
Qed.

Lemma lookup_set_entry_ne k k' v entries :
  k' <> k -> lookup_entry k' (set_entry k v entries) = lookup_entry k' entries.
Proof.
  intros Hne. induction entries as [|[k0 v0] entries IH]; cbn [set_entry lookup_entry].
  - destruct (String.eqb k k') eqn:E; [|reflexivity].
    apply String.eqb_eq in E. congruence.
  - destruct (String.eqb k0 k) eqn:E; cbn [lookup_entry].
    + apply String.eqb_eq in E. subst k0.
      destruct (String.eqb k k') eqn:E'; [|reflexivity].
      apply String.eqb_eq in E'. congruence.
    + destruct (String.eqb k0 k'); [reflexivity | exact IH].
Qed.

(** A property that every round of a loop keeps is kept by the loop. *)
Lemma for_each_keeps {S A} (P : S -> Prop) (body : A -> M S unit) (l : list A) :
  (forall x st st', In x l -> body x st = (Ok tt, st') -> P st -> P st') ->
  forall st st', for_each l body st = (Ok tt, st') -> P st -> P st'.
Proof.
  induction l as [|x l IH]; intros Hbody st st' H HP.
  - cbn in H. injection H as <-. exact HP.
  - cbn [for_each] in H. apply bind_ok_inv in H as [[] [st1 [H1 H2]]].
    apply (IH (fun y a b Hy => Hbody y a b (or_intror Hy)) st1 st' H2).
    apply (Hbody x st st1 (or_introl eq_refl) H1 HP).
Qed.

Section NodeCommands.

Variable py_repr : yaml -> string.

Lemma controller_item_inv table w v w' :
  m_node_setup.controller_item table w = (Ok v, w') ->
  w' = w /\
  exists controller,
    getitem (m_node_setup.manifest (m_node_setup.self w)) "controller" = Ok controller /\
    getitem controller table = Ok v.
Proof.
  unfold m_node_setup.controller_item, bind, get, lift.
  destruct (getitem (m_node_setup.manifest (m_node_setup.self w)) "controller")
    as [controller|e] eqn:Hc; [|intros H; discriminate H].
  destruct (getitem controller table) as [x|e] eqn:Ht; intros H; [|discriminate H].
  injection H as <- <-. split; [reflexivity|]. exists controller. auto.
Qed.

(** Storing a command changes that command and no other, and leaves the
    disk alone. *)
Lemma store_command_returned name v w w' :
  m_node_setup.store_command name v w = (Ok tt, w') ->
  m_node_setup.disk w' = m_node_setup.disk w /\
  forall n,
    command (m_node_setup.manifest (m_node_setup.self w')) n =
      if String.eqb n name then Ok v
      else command (m_node_setup.manifest (m_node_setup.self w)) n.
Proof.
  unfold m_node_setup.store_command, bind, get, lift.
  destruct (m_node_setup.manifest (m_node_setup.self w)) as [sv|items|mentries] eqn:Hm;
    cbn [getitem]; try (intros H; discriminate H).
  destruct (lookup_entry "controller" mentries) as [controller|] eqn:Hc;
    [|intros H; discriminate H].
  destruct controller as [sv|items|centries]; cbn [getitem]; try (intros H; discriminate H).
  destruct (lookup_entry "commands" centries) as [commands|] eqn:Hcmds;
    [|intros H; discriminate H].
  destruct commands as [sv|items|entries]; cbn [setitem]; try (intros H; discriminate H).
  unfold m_node_setup.on_self, modify. intros H. injection H as <-.
  cbn [m_node_setup.disk m_node_setup.self m_node_setup.manifest m_node_setup.set_manifest].
  split; [reflexivity|]. intros n. unfold command. cbn [getitem result_bind].
  rewrite lookup_set_entry_eq, Hc. cbn [getitem result_bind].
  rewrite lookup_set_entry_eq, Hcmds. cbn [getitem result_bind].
  destruct (String.eqb n name) eqn:E.
  - apply String.eqb_eq in E. subst n. rewrite lookup_set_entry_eq. reflexivity.
  - apply String.eqb_neq in E. rewrite lookup_set_entry_ne by exact E. reflexivity.
Qed.

Lemma replace_method_inv cmd replace :
  replace_method cmd = Ok replace -> exists s, cmd = YStr s /\ replace = Str.replace s.
Proof.
  destruct cmd as [[s|z|b|]|items|entries]; cbn; intros H; try discriminate H.
  injection H as <-. exists s. auto.
Qed.

Variable tmp : string.
Variable marker : ascii.
Variable x : string.
Variable name : string.

Hypothesis marker_not_open : marker <> "<"%char.
Hypothesis x_plain : plain x = true.

(** One configuration-file entry: a round of the outer loop keeps the
    placeholder when the id of the entry is plain and is not the id of
    the placeholder. *)
Lemma resolve_configuration_file_keeps entry w w' :
  (forall cid, getitem entry "id" = Ok cid ->
     plain (py_str py_repr cid) = true /\
     (marker <> "#"%char \/ x <> py_str py_repr cid)) ->
  m_node_setup.resolve_configuration_file py_repr tmp entry w = (Ok tt, w') ->
  command_contains (token marker x) name (m_node_setup.manifest (m_node_setup.self w)) ->
  command_contains (token marker x) name (m_node_setup.manifest (m_node_setup.self w')).
Proof using marker_not_open x_plain.
  intros Hid H. unfold m_node_setup.resolve_configuration_file in H.
  apply bind_ok_inv in H as [cid [w1 [H1 H]]]. apply lift_ok_inv in H1 as [Hcid ->].
  apply bind_ok_inv in H as [cfile [w1 [H1 H]]]. apply lift_ok_inv in H1 as [Hcfile ->].
  apply bind_ok_inv in H as [commands [w1 [H1 H]]].
  apply controller_item_inv in H1 as [-> _].
  apply bind_ok_inv in H as [names [w1 [H1 H]]]. apply lift_ok_inv in H1 as [_ ->].
  destruct (Hid cid Hcid) as [Hplain Hother].
  revert H.
  apply (for_each_keeps
           (fun w => command_contains (token marker x) name
                       (m_node_setup.manifest (m_node_setup.self w)))).
  clear w w'.
  intros cmd_name w w' _ H [cmd [Hcmd Hin]].
  apply bind_ok_inv in H as [commands' [w1 [H1 H]]].
  apply controller_item_inv in H1 as [-> [controller [Hc Hcmds]]].
  apply bind_ok_inv in H as [value [w1 [H1 H]]]. apply lift_ok_inv in H1 as [Hvalue ->].
  apply bind_ok_inv in H as [replace [w1 [H1 H]]]. apply lift_ok_inv in H1 as [Hreplace ->].
  apply bind_ok_inv in H as [cfile_name [w1 [H1 H]]]. apply lift_ok_inv in H1 as [_ ->].
  apply replace_method_inv in Hreplace as [s [-> ->]].
  apply store_command_returned in H as [_ Hstored].
  unfold command_contains. rewrite Hstored.
  destruct (String.eqb name cmd_name) eqn:E.
  - apply String.eqb_eq in E. subst cmd_name.
    unfold command in Hcmd. rewrite Hc in Hcmd. cbn [result_bind] in Hcmd.
    rewrite Hcmds in Hcmd. cbn [result_bind] in Hcmd. rewrite Hvalue in Hcmd.
    injection Hcmd as ->.
    eexists. split; [reflexivity|].
    change ("<#" +:+ py_str py_repr cid +:+ ">") with (token "#" (py_str py_repr cid)).
    apply replace_keeps_token; assumption.
  - exists cmd. auto.
Qed.

(** The pass over the configuration files keeps the placeholder when the
    ids of the table are plain and none is the id of the placeholder. *)
Lemma resolve_configuration_files_keeps w w' :
  (forall entries entry cid,
     table_entries (m_node_setup.manifest (m_node_setup.self w)) "configuration_files" =
       Ok entries ->
     In entry entries -> getitem entry "id" = Ok cid ->
     plain (py_str py_repr cid) = true /\
     (marker <> "#"%char \/ x <> py_str py_repr cid)) ->
  m_node_setup.resolve_configuration_files py_repr tmp w = (Ok tt, w') ->
  command_contains (token marker x) name (m_node_setup.manifest (m_node_setup.self w)) ->
  command_contains (token marker x) name (m_node_setup.manifest (m_node_setup.self w')).
Proof using marker_not_open x_plain.
  intros Hids H. unfold m_node_setup.resolve_configuration_files in H.
  apply bind_ok_inv in H as [table [w1 [H1 H]]].
  apply controller_item_inv in H1 as [-> [controller [Hc Ht]]].
  destruct (truthy table).
  - apply bind_ok_inv in H as [table' [w1 [H1 H]]].
    apply controller_item_inv in H1 as [-> [controller' [Hc' Ht']]].
    apply bind_ok_inv in H as [entries [w1 [H1 H]]]. apply lift_ok_inv in H1 as [Hiter ->].
    assert (Hentries : table_entries (m_node_setup.manifest (m_node_setup.self w))
                         "configuration_files" = Ok entries).
    { unfold table_entries. rewrite Hc'. cbn [result_bind]. rewrite Ht'. exact Hiter. }
    revert H.
    apply (for_each_keeps
             (fun w => command_contains (token marker x) name
                         (m_node_setup.manifest (m_node_setup.self w)))).
    intros entry st st' Hin Hround.
    apply (resolve_configuration_file_keeps entry st st'); [|exact Hround].
    intros cid Hcid. apply (Hids entries entry cid Hentries Hin Hcid).
  - unfold ret in H. injection H as <-. auto.
Qed.

End NodeCommands.

Section NodeExecutables.

Variable py_repr : yaml -> string.
Variable tmp : string.

(** A loop over keys among which one cannot be unpacked raises. *)
Lemma for_keys_raises size body keys :
  (forall key w, (exists e, unpack2 key = Raise e) ->
                 exists e w', body key w = (Raise e, w')) ->
  (exists key, In key keys /\ exists e, unpack2 key = Raise e) ->
  forall w, exists e w', m_node_setup.for_keys size keys body w = (Raise e, w').
Proof.
  intros Hbody. induction keys as [|key keys IH]; intros [bad [Hin Hbad]] w.
  - destruct Hin.
  - cbn [m_node_setup.for_keys]. unfold bind at 1.
    destruct (m_node_setup.controller_item "commands" w) as [[commands|e] w1];
      [|exists e, w1; reflexivity].
    destruct (negb (Nat.eqb (dict_size commands) size)); [exists RuntimeError, w1; reflexivity|].
    unfold bind.
    destruct (body key w1) as [[[]|e] w2] eqn:Hround; [|exists e, w2; reflexivity].
    destruct Hin as [->|Hin].
    + destruct (Hbody bad w1 Hbad) as [e [w' He]]. rewrite He in Hround. discriminate Hround.
    + apply IH. exists bad. auto.
Qed.

(** With a command [load] in the manifest, a round of the loop over the
    executables raises. *)
Lemma resolve_executable_raises executable w v :
  command (m_node_setup.manifest (m_node_setup.self w)) "load" = Ok v ->
  exists e w', m_node_setup.resolve_executable py_repr tmp executable w = (Raise e, w').
Proof.
  intros Hload. unfold m_node_setup.resolve_executable.
  unfold bind at 1. unfold lift at 1.
  destruct (getitem executable "id") as [eid|e]; [|exists e, w; reflexivity].
  unfold bind at 1. unfold lift at 1.
  destruct (getitem executable "file") as [efile|e]; [|exists e, w; reflexivity].
  unfold bind at 1.
  destruct (m_node_setup.controller_item "commands" w) as [[commands|e] w1] eqn:Hcmds;
    [|exists e, w1; reflexivity].
  apply controller_item_inv in Hcmds as [-> [controller [Hc Hcommands]]].
  unfold command in Hload. rewrite Hc in Hload. cbn [result_bind] in Hload.
  rewrite Hcommands in Hload. cbn [result_bind] in Hload.
  destruct commands as [sv|items|entries]; cbn [getitem] in Hload; try discriminate Hload.
  destruct (lookup_entry "load" entries) as [v'|] eqn:Hlookup; [|discriminate Hload].
  unfold bind at 1. unfold lift at 1. cbn [iterate].
  apply for_keys_raises.
  - intros key w0 [e He]. exists e, w0. unfold bind at 1. unfold lift at 1.
    rewrite He. reflexivity.
  - exists (YStr "load"). split.
    + apply in_map_iff. exists ("load", v'). split; [reflexivity|].
      clear -Hlookup. induction entries as [|[k0 v0] entries IH]; [discriminate Hlookup|].
      cbn [lookup_entry] in Hlookup. destruct (String.eqb k0 "load") eqn:E.
      * apply String.eqb_eq in E. subst k0. injection Hlookup as ->. left. reflexivity.
      * right. apply IH. exact Hlookup.
    + exists ValueError. reflexivity.
Qed.

Lemma truthy_iterate v entries :
  truthy v = true -> iterate v = Ok entries -> entries <> [].
Proof.
  destruct v as [[s|z|b|]|items|mentries]; cbn; intros Ht Hi; try discriminate Hi;
    injection Hi as <-.
  - destruct s; [discriminate Ht | discriminate].
  - destruct items; [discriminate Ht | discriminate].
  - destruct mentries; [discriminate Ht | discriminate].
Qed.

(** With a command [load] in the manifest, the pass over the executables
    returns only when their table is empty, and then it changes nothing. *)
Lemma resolve_executables_returned w w' v :
  command (m_node_setup.manifest (m_node_setup.self w)) "load" = Ok v ->
  m_node_setup.resolve_executables py_repr tmp w = (Ok tt, w') ->
  w' = w /\
  exists table,
    result_bind (getitem (m_node_setup.manifest (m_node_setup.self w)) "controller")
      (fun controller => getitem controller "executables") = Ok table /\
    truthy table = false.
Proof.
  intros Hload H. unfold m_node_setup.resolve_executables in H.
  apply bind_ok_inv in H as [table [w1 [H1 H]]].
  apply controller_item_inv in H1 as [-> [controller [Hc Ht]]].
  destruct (truthy table) eqn:Htruthy.
  - exfalso.
    apply bind_ok_inv in H as [table' [w1 [H1 H]]].
    apply controller_item_inv in H1 as [-> [controller' [Hc' Ht']]].
    assert (table' = table) as -> by congruence.
    apply bind_ok_inv in H as [entries [w1 [H1 H]]]. apply lift_ok_inv in H1 as [Hiter ->].
    destruct entries as [|entry entries]; [exact (truthy_iterate _ _ Htruthy Hiter eq_refl)|].
    cbn [for_each] in H. apply bind_ok_inv in H as [[] [w1 [H1 _]]].
    destruct (resolve_executable_raises entry w v Hload) as [e [w2 He]].
    rewrite He in H1. discriminate H1.
  - unfold ret in H. injection H as <-. split; [reflexivity|].
    exists table. rewrite Hc. cbn [result_bind]. auto.
Qed.

(** The path of the serial module is stored under [serial]: the commands
    are as before. *)
Lemma resolve_serial_module_returned w w' :
  m_node_setup.resolve_serial_module tmp w = (Ok tt, w') ->
  m_node_setup.disk w' = m_node_setup.disk w /\
  forall n, command (m_node_setup.manifest (m_node_setup.self w')) n =
            command (m_node_setup.manifest (m_node_setup.self w)) n.
Proof.
  unfold m_node_setup.resolve_serial_module, bind, get, lift.
  destruct (m_node_setup.manifest (m_node_setup.self w)) as [sv|items|mentries] eqn:Hm;
    cbn [getitem]; try (intros H; discriminate H).
  destruct (lookup_entry "serial" mentries) as [serial|] eqn:Hs; [|intros H; discriminate H].
  destruct (getitem serial "module") as [module|e]; [|intros H; discriminate H].
  destruct (fspath module) as [module_name|e]; [|intros H; discriminate H].
  destruct (setitem serial "module" _) as [serial'|e]; [|intros H; discriminate H].
  cbn [setitem]. unfold m_node_setup.on_self, modify. intros H. injection H as <-.
  cbn [m_node_setup.disk m_node_setup.self m_node_setup.manifest m_node_setup.set_manifest].
  split; [reflexivity|]. intros n. unfold command. cbn [getitem].
  rewrite lookup_set_entry_ne by discriminate. reflexivity.
Qed.

End NodeExecutables.

Section NodeRun.

Variable cwd : string.
Variable yaml_load : string -> result yaml.
Variable py_repr : yaml -> string.
Variable tmp : string.
Variable archive : tarfile.TarFile.
Variable d : FS.

(** The walk of the mandatory paths reads the manifest and nothing else. *)
Lemma node_validated paths w w' :
  m_node_setup.validate_manifest paths w = (Ok tt, w') ->
  w' = w /\
  forall path, In path paths ->
    m_node_setup.validate_path (m_node_setup.manifest (m_node_setup.self w)) path = Ok tt.
Proof.
  unfold m_node_setup.validate_manifest.
  induction paths as [|p paths IH]; cbn [for_each]; intros H.
  - injection H as <-. split; [reflexivity|]. intros path [].
  - apply bind_ok_inv in H as [[] [w1 [H1 H]]].
    apply bind_ok_inv in H1 as [w0 [w2 [Hget H1]]].
    unfold get in Hget. injection Hget as <- <-.
    apply lift_ok_inv in H1 as [Hp ->].
    destruct (IH H) as [-> Hrest]. split; [reflexivity|].
    intros path [<-|Hin]; [exact Hp | apply Hrest; exact Hin].
Qed.

Lemma node_validated_load m :
  m_node_setup.validate_path m "controller/commands/load" = Ok tt ->
  exists v, command m "load" = Ok v.
Proof.
  unfold m_node_setup.validate_path, command.
  change (Str.split "/" "controller/commands/load") with ["controller"; "commands"; "load"].
  cbn [walk].
  destruct (getitem m "controller") as [controller|e]; [|intros H; discriminate H].
  cbn [result_bind].
  destruct (getitem controller "commands") as [commands|e]; [|intros H; discriminate H].
  cbn [result_bind].
  destruct (getitem commands "load") as [v|e]; [|intros H; discriminate H].
  intros _. exists v. reflexivity.
Qed.

(** A constructor that returns went through the three last stages, from
    the manifest the parser gave. *)
Lemma node_returned w text m :
  m_node_setup.__init__ cwd yaml_load py_repr tmp archive (m_node_setup.fresh d) = (Ok tt, w) ->
  read_file cwd (extracted cwd tmp m_node_setup.PROFILE_FILENAME archive d)
    (posixpath.join tmp m_node_setup.PROFILE_MANIFEST) = Ok text ->
  yaml_load text = Ok m ->
  exists w2 w3,
    (exists v, command m "load" = Ok v) /\
    m_node_setup.resolve_executables py_repr tmp
      {| m_node_setup.disk := extracted cwd tmp m_node_setup.PROFILE_FILENAME archive d;
         m_node_setup.self := {| m_node_setup.temp_directory := Some tmp;
                                 m_node_setup.manifest := m |} |} = (Ok tt, w2) /\
    m_node_setup.resolve_configuration_files py_repr tmp w2 = (Ok tt, w3) /\
    m_node_setup.resolve_serial_module tmp w3 = (Ok tt, w).
Proof.
  intros H Hread Hload. unfold m_node_setup.__init__ in H.
  destruct (existsb _ m_node_setup.PROFILE_MANDATORY_MEMBERS); [discriminate H|].
  unfold safe_extract, m_node_setup.fresh in H.
  unfold bind, m_node_setup.on_self, m_node_setup.on_disk, modify, ret, lift, get in H.
  cbn [m_node_setup.self m_node_setup.disk] in H.
  destruct (check_members cwd tmp (tarfile.getmembers archive)) as [[]|e]; [|discriminate H].
  cbn [m_node_setup.self m_node_setup.disk] in H.
  unfold extracted, materialised in *.
  destruct (tarfile.extractall cwd tmp archive _) as [[[]|e] d1]; [|discriminate H].
  cbn [fst snd m_node_setup.self m_node_setup.disk] in *.
  rewrite Hread, Hload in H.
  cbn [m_node_setup.self m_node_setup.disk m_node_setup.manifest
       m_node_setup.set_manifest m_node_setup.set_temp_directory
       m_node_setup.temp_directory] in H.
  destruct (m_node_setup.validate_manifest _ _) as [[[]|e] w1] eqn:Hvalid; [|discriminate H].
  apply node_validated in Hvalid as [-> Hpaths].
  destruct (m_node_setup.resolve_executables _ _ _) as [[[]|e] w2] eqn:Hexec; [|discriminate H].
  destruct (m_node_setup.resolve_configuration_files _ _ _) as [[[]|e] w3] eqn:Hconf;
    [|discriminate H].
  exists w2, w3. split; [|auto].
  apply node_validated_load.
  apply (Hpaths "controller/commands/load"). cbn. tauto.
Qed.

End NodeRun.

Section ConfigurationPassReturns.

Variable py_repr : yaml -> string.
Variable tmp : string.

Lemma controller_item_returns table w controller v :
  getitem (m_node_setup.manifest (m_node_setup.self w)) "controller" = Ok controller ->
  getitem controller table = Ok v ->
  m_node_setup.controller_item table w = (Ok v, w).
Proof.
  intros Hc Hv. unfold m_node_setup.controller_item, bind, get, lift.
  rewrite Hc, Hv. reflexivity.
Qed.

Lemma set_entry_strings k s cmds :
  all_strings cmds -> all_strings (set_entry k (YStr s) cmds).
Proof.
  unfold all_strings. induction 1 as [|[k' v'] cmds Hv Hrest IH]; cbn [set_entry].
  - constructor; [exists s; reflexivity | constructor].
  - destruct (String.eqb k' k).
    + constructor; [exists s; reflexivity | assumption].
    + constructor; assumption.
Qed.

Lemma set_entry_names k v cmds n :
  In n (map fst cmds) -> In n (map fst (set_entry k v cmds)).
Proof.
  induction cmds as [|[k' v'] cmds IH]; cbn [set_entry map fst]; intros H.
  - destruct H.
  - destruct (String.eqb k' k); cbn [map fst].
    + exact H.
    + destruct H as [H|H]; [left; exact H | right; apply IH; exact H].
Qed.

Lemma lookup_string k cmds :
  all_strings cmds -> In k (map fst cmds) -> exists s, lookup_entry k cmds = Some (YStr s).
Proof.
  unfold all_strings. induction 1 as [|[k' v'] cmds [s Hs] _ IH]; cbn [map fst lookup_entry].
  - intros [].
  - cbn in Hs. subst v'. intros H. destruct (String.eqb k' k) eqn:E.
    + exists s. reflexivity.
    + destruct H as [H|H]; [|apply IH; exact H].
      subst k'. rewrite String.eqb_refl in E. discriminate E.
Qed.

(** A round of the inner loop on a name of the commands returns. *)
Lemma replace_command_returns cfile_name old cmd_name keys w :
  string_commands keys w -> In cmd_name keys ->
  exists w',
    (commands <- m_node_setup.controller_item "commands" ;;
     cmd <- lift (getitem commands cmd_name) ;;
     replace <- lift (replace_method cmd) ;;
     cfile_name' <- lift (fspath (YStr cfile_name)) ;;
     m_node_setup.store_command cmd_name
       (YStr (replace old
                (posixpath.join
                   (posixpath.join tmp m_node_setup.CONTROLLER_CONFIGURATION_FILES_SUBDIR)
                   cfile_name')))) w = (Ok tt, w') /\
    string_commands keys w'.
Proof.
  intros [mentries [centries [cmds [Hm [Hc [Hcmds [Hstr Hkeys]]]]]]] Hin.
  destruct (lookup_string cmd_name cmds Hstr (Hkeys _ Hin)) as [s Hs].
  unfold m_node_setup.controller_item, m_node_setup.store_command.
  unfold bind, get, lift.
  rewrite Hm. cbn [getitem]. rewrite Hc. cbn [getitem]. rewrite Hcmds. cbn [getitem].
  rewrite Hs.
  cbn [replace_method YStr fspath setitem].
  rewrite Hm. cbn [getitem setitem]. rewrite Hc. cbn [getitem setitem]. rewrite Hcmds.
  cbn [getitem setitem].
  unfold m_node_setup.on_self, modify.
  eexists. split; [reflexivity|].
  cbn [m_node_setup.self m_node_setup.manifest m_node_setup.set_manifest].
  eexists _, _, _. split; [reflexivity|].
  rewrite !lookup_set_entry_eq. split; [reflexivity|]. split; [reflexivity|].
  split; [apply set_entry_strings; exact Hstr|].
  intros k Hk. apply set_entry_names. apply Hkeys. exact Hk.
Qed.

Lemma replace_commands_return cfile_name old keys : forall names w,
  string_commands keys w -> (forall n, In n names -> In n keys) ->
  exists w',
    for_each names
      (fun cmd_name =>
         commands <- m_node_setup.controller_item "commands" ;;
         cmd <- lift (getitem commands cmd_name) ;;
         replace <- lift (replace_method cmd) ;;
         cfile_name' <- lift (fspath (YStr cfile_name)) ;;
         m_node_setup.store_command cmd_name
           (YStr (replace old
                    (posixpath.join
                       (posixpath.join tmp m_node_setup.CONTROLLER_CONFIGURATION_FILES_SUBDIR)
                       cfile_name')))) w = (Ok tt, w') /\
    string_commands keys w'.
Proof.
  induction names as [|n names IH]; intros w Hw Hnames.
  - exists w. split; [reflexivity | exact Hw].
  - destruct (replace_command_returns cfile_name old n keys w Hw (Hnames n (or_introl eq_refl)))
      as [w1 [H1 Hw1]].
    destruct (IH w1 Hw1 (fun k Hk => Hnames k (or_intror Hk))) as [w' [H' Hw']].
    exists w'. split; [|exact Hw'].
    cbn [for_each]. unfold bind at 1. rewrite H1. exact H'.
Qed.

Lemma resolve_configuration_file_returns entry w :
  has_id_and_file entry ->
  string_commands [] w ->
  exists w',
    m_node_setup.resolve_configuration_file py_repr tmp entry w = (Ok tt, w') /\
    string_commands [] w'.
Proof.
  intros [cid [f [Hid Hfile]]] Hw.
  destruct Hw as [mentries [centries [cmds [Hm [Hc [Hcmds [Hstr _]]]]]]].
  assert (Hkeys : string_commands (map fst cmds) w).
  { exists mentries, centries, cmds. auto. }
  destruct (replace_commands_return f ("<#" +:+ py_str py_repr cid +:+ ">") (map fst cmds)
              (map fst cmds) w Hkeys (fun n Hn => Hn)) as [w' [Hrun Hw']].
  exists w'. split.
  - unfold m_node_setup.resolve_configuration_file.
    unfold bind at 1. unfold lift at 1. rewrite Hid.
    unfold bind at 1. unfold lift at 1. rewrite Hfile.
    unfold bind at 1.
    rewrite (controller_item_returns "commands" w (YMap centries) (YMap cmds));
      [|rewrite Hm; cbn [getitem]; rewrite Hc; reflexivity
       |cbn [getitem]; rewrite Hcmds; reflexivity].
    unfold bind at 1. unfold lift at 1. cbn [items_names]. exact Hrun.
  - destruct Hw' as [mentries' [centries' [cmds' [Hm' [Hc' [Hcmds' [Hstr' _]]]]]]].
    exists mentries', centries', cmds'. repeat split; try assumption. intros k [].
Qed.

(** The pass over well-formed configuration-file entries returns when the
    commands are strings, whatever the strings are. *)
Lemma resolve_configuration_files_returns w controller cmds table entries :
  getitem (m_node_setup.manifest (m_node_setup.self w)) "controller" = Ok controller ->
  getitem controller "commands" = Ok (YMap cmds) ->
  all_strings cmds ->
  getitem controller "configuration_files" = Ok table ->
  iterate table = Ok entries ->
  Forall has_id_and_file entries ->
  exists w', m_node_setup.resolve_configuration_files py_repr tmp w = (Ok tt, w').
Proof.
  intros Hc Hcmds Hstr Ht Hiter Hentries.
  unfold m_node_setup.resolve_configuration_files.
  unfold bind at 1. rewrite (controller_item_returns _ _ _ _ Hc Ht).
  destruct (truthy table); [|exists w; reflexivity].
  unfold bind at 1. rewrite (controller_item_returns _ _ _ _ Hc Ht).
  unfold bind at 1. unfold lift at 1. rewrite Hiter.
  assert (Hw : string_commands [] w).
  { destruct (m_node_setup.manifest (m_node_setup.self w)) as [sv|items|mentries] eqn:Hm;
      cbn [getitem] in Hc; try discriminate Hc.
    destruct (lookup_entry "controller" mentries) as [c|] eqn:Hlc; [|discriminate Hc].
    injection Hc as ->.
    destruct controller as [sv|items|centries]; cbn [getitem] in Hcmds; try discriminate Hcmds.
    destruct (lookup_entry "commands" centries) as [c|] eqn:Hlcmds; [|discriminate Hcmds].
    injection Hcmds as ->.
    exists mentries, centries, cmds. repeat split; try assumption. intros k []. }
  clear Hc Hcmds Hstr Ht Hiter. revert w Hw.
  induction Hentries as [|entry entries Hentry _ IH]; intros w Hw.
  - exists w. reflexivity.
  - destruct (resolve_configuration_file_returns entry w Hentry Hw) as [w1 [H1 Hw1]].
    destruct (IH w1 Hw1) as [w' H']. exists w'.
    cbn [for_each]. unfold bind at 1. rewrite H1. exact H'.
Qed.

End ConfigurationPassReturns.

(** C7, as the code has it.  Let the constructor of the node loader
    return, [m] being the manifest the parser gave, and let a command of
    [m] be a string in which the placeholder [<!x>] or [<#x>] occurs,
    where [x] contains neither [<] nor [>].  When the id of every
    configuration-file entry, as [str.format] prints it, contains neither
    [<] nor [>], and none of them is [x] if the placeholder is [<#x>],
    the command of [self.manifest] is still a string in which that
    placeholder occurs.  And the pass over well-formed
    configuration-file entries returns whenever the commands are
    strings, whatever placeholders they hold. *)
Theorem unmatched_placeholders_stay
    (cwd : string) (yaml_load : string -> result yaml) (py_repr : yaml -> string)
    (tmp : string) (archive : tarfile.TarFile) (d : FS) :
  (forall (w : m_node_setup.world) (text : string) (m : yaml)
          (marker : ascii) (x name cmd : string),
     marker = "!"%char \/ marker = "#"%char ->
     plain x = true ->
     (forall entries entry cid,
        table_entries m "configuration_files" = Ok entries ->
        In entry entries -> getitem entry "id" = Ok cid ->
        plain (py_str py_repr cid) = true /\
        (marker = "#"%char -> py_str py_repr cid <> x)) ->
     m_node_setup.__init__ cwd yaml_load py_repr tmp archive (m_node_setup.fresh d) =
       (Ok tt, w) ->
     read_file cwd (extracted cwd tmp m_node_setup.PROFILE_FILENAME archive d)
       (posixpath.join tmp m_node_setup.PROFILE_MANIFEST) = Ok text ->
     yaml_load text = Ok m ->
     command m name = Ok (YStr cmd) ->
     Str.contains (token marker x) cmd = true ->
     command_contains (token marker x) name
       (m_node_setup.manifest (m_node_setup.self w))) /\
  (forall (w : m_node_setup.world) (controller table : yaml)
          (cmds : list (string * yaml)) (entries : list yaml),
     getitem (m_node_setup.manifest (m_node_setup.self w)) "controller" = Ok controller ->
     getitem controller "commands" = Ok (YMap cmds) ->
     all_strings cmds ->
     getitem controller "configuration_files" = Ok table ->
     iterate table = Ok entries ->
     Forall has_id_and_file entries ->
     exists w', m_node_setup.resolve_configuration_files py_repr tmp w = (Ok tt, w')).
Proof.
  split.
  - intros w text m marker x name cmd Hmarker Hx Hids Hinit Hread Hload Hcmd Hin.
    destruct (node_returned cwd yaml_load py_repr tmp archive d w text m Hinit Hread Hload)
      as [w2 [w3 [[v Hv] [Hexec [Hconf Hserial]]]]].
    apply resolve_executables_returned with (v := v) in Hexec as [-> _]; [|exact Hv].
    apply resolve_serial_module_returned in Hserial as [_ Hsame].
    unfold command_contains. rewrite Hsame.
    apply (resolve_configuration_files_keeps py_repr tmp marker x name) in Hconf.
    + exact Hconf.
    + destruct Hmarker as [-> | ->]; discriminate.
    + exact Hx.
    + cbn [m_node_setup.manifest m_node_setup.self].
      intros entries entry cid Hentries Hentry Hcid.
      destruct (Hids entries entry cid Hentries Hentry Hcid) as [Hplain Hother].
      split; [exact Hplain|].
      destruct (Ascii.eqb marker "#") eqn:E.
      * apply Ascii.eqb_eq in E. right. intros ->. apply (Hother E). reflexivity.
      * apply Ascii.eqb_neq in E. left. exact E.
    + exists cmd. auto.
  - intros w controller table cmds entries.
    apply resolve_configuration_files_returns.
Qed.

Lemma unmatched_placeholders_stay_witness :
  command_contains (token "#" "nope") "start"
    (m_node_setup.manifest (m_node_setup.self
       (Sample.load_profile (Sample.profile_archive [])
          (Sample.profile_manifest [] [Sample.entry "cfg1" "missing.conf"]
             "start <#cfg1> <#nope> <!cmd1>" (Sample.serial_settings Sample.baudrate))).2)).
Proof.
  refine (proj1 (unmatched_placeholders_stay "/"
                   (fun _ => Ok (Sample.profile_manifest [] [Sample.entry "cfg1" "missing.conf"]
                                   "start <#cfg1> <#nope> <!cmd1>"
                                   (Sample.serial_settings Sample.baudrate)))
                   (fun _ => "") "/tmp/tmpa1b2c3d4" (Sample.profile_archive []) ∅)
            (Sample.load_profile (Sample.profile_archive [])
               (Sample.profile_manifest [] [Sample.entry "cfg1" "missing.conf"]
                  "start <#cfg1> <#nope> <!cmd1>" (Sample.serial_settings Sample.baudrate))).2
            "profile manifest"
            (Sample.profile_manifest [] [Sample.entry "cfg1" "missing.conf"]
               "start <#cfg1> <#nope> <!cmd1>" (Sample.serial_settings Sample.baudrate))
            "#"%char "nope" "start" "start <#cfg1> <#nope> <!cmd1>"
            (or_intror eq_refl) eq_refl _ eq_refl eq_refl eq_refl eq_refl eq_refl).
  intros entries entry cid Hentries Hentry Hcid.
  vm_compute in Hentries. injection Hentries as <-.
  destruct Hentry as [<-|[]]. vm_compute in Hcid. injection Hcid as <-.
  split; [reflexivity|]. intros _. discriminate.
Defined.

(** C7 as stated fails when an id contains the delimiters: the
    placeholder [<#a<#b>], whose id [a<#b] has no entry, is cut by the
    replacement of [<#b>], which has one. *)
Lemma placeholder_cut_by_another :
  (Sample.load_profile (Sample.profile_archive [])
     (Sample.profile_manifest [] [Sample.entry "b" "f.conf"] "start <#a<#b>"
        (Sample.serial_settings Sample.baudrate))).1 = Ok tt /\
  Str.contains (token "#" "a<#b") "start <#a<#b>" = true /\
  command
    (m_node_setup.manifest (m_node_setup.self
       (Sample.load_profile (Sample.profile_archive [])
          (Sample.profile_manifest [] [Sample.entry "b" "f.conf"] "start <#a<#b>"
             (Sample.serial_settings Sample.baudrate))).2)) "start" =
    Ok (YStr "start <#a/tmp/tmpa1b2c3d4/controller/configuration_files/f.conf") /\
  Str.contains (token "#" "a<#b")
    "start <#a/tmp/tmpa1b2c3d4/controller/configuration_files/f.conf" = false.
Proof. repeat split; vm_compute; reflexivity. Qed.

(** ** The executable table of a profile that loads *)

(** The constructor of the node loader returns only on a manifest whose
    executable table is empty (or otherwise false): with any entry in
    it, the loop over the commands raises. *)
Theorem loaded_profile_has_no_executable
    (cwd : string) (yaml_load : string -> result yaml) (py_repr : yaml -> string)
    (tmp : string) (archive : tarfile.TarFile) (d : FS)
    (w : m_node_setup.world) (text : string) (m : yaml) :
  m_node_setup.__init__ cwd yaml_load py_repr tmp archive (m_node_setup.fresh d) = (Ok tt, w) ->
  read_file cwd (extracted cwd tmp m_node_setup.PROFILE_FILENAME archive d)
    (posixpath.join tmp m_node_setup.PROFILE_MANIFEST) = Ok text ->
  yaml_load text = Ok m ->
  exists table,
    result_bind (getitem m "controller")
      (fun controller => getitem controller "executables") = Ok table /\
    truthy table = false.
Proof.
  intros Hinit Hread Hload.
  destruct (node_returned cwd yaml_load py_repr tmp archive d w text m Hinit Hread Hload)
    as [w2 [w3 [[v Hv] [Hexec _]]]].
  apply resolve_executables_returned with (v := v) in Hexec as [_ Htable]; [|exact Hv].
  exact Htable.
Qed.

Lemma loaded_profile_has_no_executable_witness :
  exists table,
    result_bind
      (getitem (Sample.profile_manifest [] [Sample.entry "cfg1" "missing.conf"] "start <#cfg1>"
                  (Sample.serial_settings Sample.baudrate)) "controller")
      (fun controller => getitem controller "executables") = Ok table /\
    truthy table = false.
Proof.
  exact (loaded_profile_has_no_executable "/"
           (fun _ => Ok (Sample.profile_manifest [] [Sample.entry "cfg1" "missing.conf"]
                           "start <#cfg1>" (Sample.serial_settings Sample.baudrate)))
           (fun _ => "") "/tmp/tmpa1b2c3d4" (Sample.profile_archive []) ∅
           (Sample.load_profile (Sample.profile_archive [])
              (Sample.profile_manifest [] [Sample.entry "cfg1" "missing.conf"]
                 "start <#cfg1>" (Sample.serial_settings Sample.baudrate))).2
           "profile manifest"
           (Sample.profile_manifest [] [Sample.entry "cfg1" "missing.conf"]
              "start <#cfg1>" (Sample.serial_settings Sample.baudrate))
           eq_refl eq_refl eq_refl).
Defined.

(** ** The walk of the mandatory paths, both ways *)

Lemma walk_returned missing m keys n :
  walk missing m keys = Ok n -> resolves m keys n.
Proof.
  revert m. induction keys as [|key keys IH]; intros m H; cbn [walk] in H.
  - injection H as <-. constructor.
  - destruct m as [v|items|entries]; cbn [getitem] in H; try discriminate H.
    destruct (lookup_entry key entries) as [v|] eqn:Hlook; [|discriminate H].
    apply (resolves_down entries key v keys n Hlook). apply IH. exact H.
Qed.

Lemma experiment_validate_path_iff m path :
  m_experiment_setup.validate_path m path = Ok tt <->
  exists n, resolves m (Str.split "/" path) n.
Proof.
  unfold m_experiment_setup.validate_path. split.
  - destruct (walk _ m (Str.split "/" path)) as [n|e] eqn:H; [|discriminate].
    intros _. exists n. apply walk_returned in H. exact H.
  - intros [n Hn]. rewrite (walk_resolves _ _ _ _ Hn). reflexivity.
Qed.

Lemma node_validate_path_iff m path :
  m_node_setup.validate_path m path = Ok tt <->
  exists n, resolves m (Str.split "/" path) n.
Proof.
  unfold m_node_setup.validate_path. split.
  - destruct (walk _ m (Str.split "/" path)) as [n|e] eqn:H; [|discriminate].
    intros _. exists n. apply walk_returned in H. exact H.
  - intros [n Hn]. rewrite (walk_resolves _ _ _ _ Hn). reflexivity.
Qed.

Lemma experiment_validate_manifest_state paths w :
  (m_experiment_setup.validate_manifest paths w).2 = w.
Proof.
  unfold m_experiment_setup.validate_manifest.
  induction paths as [|p paths IH]; [reflexivity|].
  cbn [for_each]. unfold bind at 1. unfold bind at 1. unfold get, lift.
  destruct (m_experiment_setup.validate_path _ p) as [[]|e]; [exact IH | reflexivity].
Qed.

Lemma node_validate_manifest_state paths w :
  (m_node_setup.validate_manifest paths w).2 = w.
Proof.
  unfold m_node_setup.validate_manifest.
  induction paths as [|p paths IH]; [reflexivity|].
  cbn [for_each]. unfold bind at 1. unfold bind at 1. unfold get, lift.
  destruct (m_node_setup.validate_path _ p) as [[]|e]; [exact IH | reflexivity].
Qed.

(** The walk of the mandatory paths never changes the state, and it
    returns exactly when every path resolves through the manifest by
    successive mapping lookups. *)
Theorem validation_returns_iff_paths_resolve (paths : list string) :
  (forall w : m_experiment_setup.world,
     (m_experiment_setup.validate_manifest paths w).2 = w /\
     ((m_experiment_setup.validate_manifest paths w).1 = Ok tt <->
      forall p, In p paths ->
        exists n, resolves (m_experiment_setup.manifest (m_experiment_setup.self w))
                    (Str.split "/" p) n)) /\
  (forall w : m_node_setup.world,
     (m_node_setup.validate_manifest paths w).2 = w /\
     ((m_node_setup.validate_manifest paths w).1 = Ok tt <->
      forall p, In p paths ->
        exists n, resolves (m_node_setup.manifest (m_node_setup.self w))
                    (Str.split "/" p) n)).
Proof.
  split; intros w; (split; [first [apply experiment_validate_manifest_state
                                  | apply node_validate_manifest_state]|]).
  - unfold m_experiment_setup.validate_manifest.
    induction paths as [|p paths IH].
    + split; [intros _ p [] | reflexivity].
    + cbn [for_each]. unfold bind at 1. unfold bind at 1. unfold get, lift.
      destruct (m_experiment_setup.validate_path _ p) as [[]|e] eqn:Hp.
      * rewrite IH. split.
        -- intros H q [<-|Hq]; [apply experiment_validate_path_iff; exact Hp | apply H; exact Hq].
        -- intros H q Hq. apply H. right. exact Hq.
      * split; [discriminate|]. intros H.
        assert (Hok : m_experiment_setup.validate_path
                        (m_experiment_setup.manifest (m_experiment_setup.self w)) p = Ok tt)
          by (apply experiment_validate_path_iff, H; left; reflexivity).
        rewrite Hok in Hp. discriminate Hp.
  - unfold m_node_setup.validate_manifest.
    induction paths as [|p paths IH].
    + split; [intros _ p [] | reflexivity].
    + cbn [for_each]. unfold bind at 1. unfold bind at 1. unfold get, lift.
      destruct (m_node_setup.validate_path _ p) as [[]|e] eqn:Hp.
      * rewrite IH. split.
        -- intros H q [<-|Hq]; [apply node_validate_path_iff; exact Hp | apply H; exact Hq].
        -- intros H q Hq. apply H. right. exact Hq.
      * split; [discriminate|]. intros H.
        assert (Hok : m_node_setup.validate_path
                        (m_node_setup.manifest (m_node_setup.self w)) p = Ok tt)
          by (apply node_validate_path_iff, H; left; reflexivity).
        rewrite Hok in Hp. discriminate Hp.
Qed.

(** ** What the constructors leave on the disk *)

Section Frame.

Context {S T : Type} (proj : S -> T).







End Frame.













(** ** The disk: the directories above an extracted member *)

Lemma rpartition_length p :
  String.length (posixpath.rpartition p).1 + String.length (posixpath.rpartition p).2 =
    String.length p.
Proof.
  induction p as [|c p IH]; [reflexivity|].
  cbn [posixpath.rpartition]. destruct (posixpath.rpartition p) as [head tail].
  cbn [fst snd] in IH.
  destruct head as [|a head]; cbn [String.eqb negb].
  - destruct (Ascii.eqb c posixpath.sep); cbn [fst snd String.length] in *; lia.
  - cbn [fst snd String.length] in *. lia.
Qed.

Lemma rstrip_length c s : String.length (Str.rstrip c s) <= String.length s.
Proof.
  induction s as [|a s IH]; [reflexivity|].
  cbn [Str.rstrip]. destruct (Str.rstrip c s) as [|b r].
  - destruct (Ascii.eqb a c); cbn [String.length] in *; lia.
  - cbn [String.length] in *. lia.
Qed.

Lemma split_length p :
  String.length (posixpath.split p).1 + String.length (posixpath.split p).2 <= String.length p.
Proof.
  unfold posixpath.split. pose proof (rpartition_length p) as H.
  destruct (posixpath.rpartition p) as [head tail]. cbn [fst snd] in *.
  destruct (negb (String.eqb head "") && negb (posixpath.all_seps head))%bool;
    cbn [fst snd]; [|lia].
  pose proof (rstrip_length posixpath.sep head). lia.
Qed.

(** [os.makedirs] never reaches the bound on its calls: any bound above
    the length of the name gives the same outcome. *)
Lemma makedirs_within_enough cwd : forall fuel fuel' name disk,
  String.length name < fuel -> String.length name < fuel' ->
  makedirs_within fuel cwd name disk = makedirs_within fuel' cwd name disk.
Proof.
  induction fuel as [|fuel IH]; intros fuel' name disk Hfuel Hfuel'; [lia|].
  destruct fuel' as [|fuel']; [lia|].
  cbn [makedirs_within].
  pose proof (split_length name) as Hname.
  destruct (posixpath.split name) as [head tail]. cbn [fst snd] in Hname.
  assert (Hshorter : forall head' tail',
            (if String.eqb tail "" then posixpath.split head else (head, tail)) = (head', tail') ->
            tail' <> "" -> String.length head' < String.length name).
  { intros head' tail' Heq Htail'.
    destruct (String.eqb tail "").
    - pose proof (split_length head) as Hhead. rewrite Heq in Hhead. cbn [fst snd] in Hhead.
      destruct tail'; [congruence|]. cbn [String.length] in Hhead. lia.
    - injection Heq as <- <-. destruct tail; [congruence|]. cbn [String.length] in Hname. lia. }
  destruct (if String.eqb tail "" then posixpath.split head else (head, tail))
    as [head' tail'] eqn:Hsplit.
  destruct (negb (String.eqb head' "")) eqn:Hhead'; cbn [andb]; [|reflexivity].
  destruct (String.eqb tail' "") eqn:Htail'; cbn [negb andb]; [reflexivity|].
  destruct (negb (exists_ cwd disk head')); [|reflexivity].
  apply String.eqb_neq in Htail'.
  pose proof (Hshorter head' tail' eq_refl Htail') as Hlt.
  rewrite (IH fuel' head' disk) by lia. reflexivity.
Qed.

Lemma makedirs_enough cwd fuel name disk :
  String.length name < fuel ->
  makedirs_within fuel cwd name disk = makedirs cwd name disk.
Proof.
  intros Hfuel. unfold makedirs. apply makedirs_within_enough; lia.
Qed.

(** ** The disk: extraction removes nothing *)











(** ** The constructors after the manifest is parsed *)

Lemma experiment_validate_manifest_returns paths w :
  (forall p, In p paths ->
     exists n, resolves (m_experiment_setup.manifest (m_experiment_setup.self w))
                 (Str.split "/" p) n) ->
  m_experiment_setup.validate_manifest paths w = (Ok tt, w).
Proof.
  unfold m_experiment_setup.validate_manifest.
  induction paths as [|p paths IH]; intros H; [reflexivity|].
  cbn [for_each]. unfold bind at 1. unfold bind at 1. unfold get, lift.
  destruct (H p (or_introl eq_refl)) as [n Hn].
  unfold m_experiment_setup.validate_path at 1. rewrite (walk_resolves _ _ _ _ Hn).
  apply IH. intros q Hq. apply H. right. exact Hq.
Qed.


Section Parsed.

Variable cwd : string.
Variable yaml_load : string -> result yaml.
Variable py_repr : yaml -> string.
Variable tmp : string.
Variable archive : tarfile.TarFile.
Variable d : FS.
Variable text : string.
Variable m : yaml.

Hypothesis accepted : check_members cwd tmp (tarfile.getmembers archive) = Ok tt.
Hypothesis parsed : yaml_load text = Ok m.



End Parsed.





(** ** The experiment that loads, and the entry that is malformed *)








(** ** Replacing placeholders by paths *)

Section ReplaceByPath.

(** The pattern begins with [<]; what replaces it begins with [/] and
    has no [<]. *)
Variables pattern_tail new_tail : string.
Hypothesis new_plain : has_char "<" (String "/" new_tail) = false.

Abbreviation pattern := (String "<" pattern_tail).
Abbreviation new := (String "/" new_tail).

Lemma contains_empty sub : Str.contains sub "" = Str.startswith sub "".
Proof. cbn [Str.contains]. apply orb_false_r. Qed.

(** A string without [/] that begins the result of the replacement
    begins the text that was given. *)
Lemma startswith_reflected (r s : string) :
  has_char "/" r = false ->
  Str.startswith r (Str.replace_from pattern new 0 s) = true ->
  Str.startswith r s = true.
Proof using Type.
  revert r. induction s as [|c s IH]; intros r Hr H.
  - exact H.
  - destruct r as [|a r]; [reflexivity|].
    cbn [has_char] in Hr. apply orb_false_iff in Hr as [Ha Hr].
    cbn [Str.replace_from] in H.
    destruct (Str.startswith pattern (String c s)).
    + rewrite app_cons in H. cbn [Str.startswith] in H.
      rewrite Ha in H. discriminate H.
    + cbn [Str.startswith] in H |- *. apply andb_true_iff in H as [Hac H].
      rewrite Hac. cbn [andb]. apply IH; assumption.
Qed.

(** No occurrence of a string that begins with [<] begins inside what
    has no [<]. *)
Lemma contains_after_plain (r n rest : string) :
  has_char "<" n = false ->
  Str.contains (String "<" r) (n +:+ rest) = Str.contains (String "<" r) rest.
Proof using Type.
  induction n as [|c n IH]; intros Hn; [reflexivity|].
  cbn [has_char] in Hn. apply orb_false_iff in Hn as [Hc Hn].
  rewrite app_cons. cbn [Str.contains Str.startswith].
  rewrite Ascii.eqb_sym, Hc. cbn [andb orb]. apply IH. exact Hn.
Qed.

(** The replacement creates no occurrence of a placeholder. *)
Lemma replace_from_creates_none (r s : string) :
  has_char "<" r = false -> has_char "/" r = false ->
  forall skip,
    Str.contains (String "<" r) (Str.replace_from pattern new skip s) = true ->
    Str.contains (String "<" r) s = true.
Proof using new_plain.
  intros Hr1 Hr2. induction s as [|c s IH]; intros skip H.
  - cbn [Str.replace_from] in H. exact H.
  - cbn [Str.replace_from] in H. cbn [Str.contains]. destruct skip as [|skip].
    + destruct (Str.startswith pattern (String c s)).
      * rewrite (contains_after_plain _ _ _ new_plain) in H.
        rewrite (IH _ H). apply orb_true_r.
      * cbn [Str.contains] in H. apply orb_true_iff in H as [H|H].
        -- cbn [Str.startswith] in H |- *. apply andb_true_iff in H as [Hc H].
           rewrite Hc. cbn [andb]. rewrite (startswith_reflected _ _ Hr2 H). reflexivity.
        -- rewrite (IH _ H). apply orb_true_r.
    + rewrite (IH _ H). apply orb_true_r.
Qed.

(** The replacement leaves no occurrence of its pattern. *)
Lemma replace_from_leaves_none (s : string) :
  has_char "<" pattern_tail = false -> has_char "/" pattern_tail = false ->
  forall skip, Str.contains pattern (Str.replace_from pattern new skip s) = false.
Proof using new_plain.
  intros Hp1 Hp2. induction s as [|c s IH]; intros skip.
  - reflexivity.
  - cbn [Str.replace_from]. destruct skip as [|skip]; [|apply IH].
    destruct (Str.startswith pattern (String c s)) eqn:Hmatch.
    + rewrite (contains_after_plain _ _ _ new_plain). apply IH.
    + cbn [Str.contains]. rewrite IH. rewrite orb_false_r.
      destruct (Str.startswith pattern (String c (Str.replace_from pattern new 0 s)))
        eqn:Hout; [|reflexivity].
      cbn [Str.startswith] in Hout, Hmatch.
      apply andb_true_iff in Hout as [Hc Hout]. rewrite Hc in Hmatch. cbn [andb] in Hmatch.
      rewrite (startswith_reflected _ _ Hp2 Hout) in Hmatch. discriminate Hmatch.
Qed.

End ReplaceByPath.

(** [s.replace(old, new)] for a placeholder [old] whose id has neither
    [<] nor [/], and a path [new] that begins with [/] and has no [<]:
    [old] does not occur in the result, and no other such placeholder
    occurs in it that did not occur in [s]. *)
Lemma replace_removes_token (marker : ascii) (x s new : string) :
  marker <> "<"%char -> marker <> "/"%char ->
  has_char "<" x = false -> has_char "/" x = false ->
  Str.startswith "/" new = true -> has_char "<" new = false ->
  Str.contains (token marker x) (Str.replace s (token marker x) new) = false.
Proof.
  intros Hm1 Hm2 Hx1 Hx2 Hnew1 Hnew2.
  destruct new as [|c new]; [discriminate Hnew1|].
  cbn [Str.startswith] in Hnew1. rewrite andb_true_r in Hnew1.
  apply Ascii.eqb_eq in Hnew1. subst c.
  unfold token, Str.replace.
  apply (replace_from_leaves_none (String marker (x +:+ ">")) new Hnew2).
  - cbn [has_char]. apply orb_false_iff. split; [apply Ascii.eqb_neq; exact Hm1|].
    clear -Hx1. induction x as [|d x IH]; [reflexivity|].
    cbn [has_char] in Hx1. apply orb_false_iff in Hx1 as [Hd Hx1].
    rewrite app_cons. cbn [has_char]. rewrite Hd. apply IH. exact Hx1.
  - cbn [has_char]. apply orb_false_iff. split; [apply Ascii.eqb_neq; exact Hm2|].
    clear -Hx2. induction x as [|d x IH]; [reflexivity|].
    cbn [has_char] in Hx2. apply orb_false_iff in Hx2 as [Hd Hx2].
    rewrite app_cons. cbn [has_char]. rewrite Hd. apply IH. exact Hx2.
Qed.

Lemma replace_creates_no_token (marker marker' : ascii) (x y s new : string) :
  marker <> "<"%char -> marker <> "/"%char ->
  has_char "<" x = false -> has_char "/" x = false ->
  Str.startswith "/" new = true -> has_char "<" new = false ->
  Str.contains (token marker x) s = false ->
  Str.contains (token marker x) (Str.replace s (token marker' y) new) = false.
Proof.
  intros Hm1 Hm2 Hx1 Hx2 Hnew1 Hnew2 Hs.
  destruct new as [|c new]; [discriminate Hnew1|].
  cbn [Str.startswith] in Hnew1. rewrite andb_true_r in Hnew1.
  apply Ascii.eqb_eq in Hnew1. subst c.
  destruct (Str.contains (token marker x) (Str.replace s (token marker' y) (String "/" new)))
    eqn:H; [|reflexivity].
  unfold token, Str.replace in H.
  apply (replace_from_creates_none (String marker' (y +:+ ">")) new Hnew2) in H.
  - unfold token in Hs. rewrite Hs in H. discriminate H.
  - cbn [has_char]. apply orb_false_iff. split; [apply Ascii.eqb_neq; exact Hm1|].
    clear -Hx1. induction x as [|d x IH]; [reflexivity|].
    cbn [has_char] in Hx1. apply orb_false_iff in Hx1 as [Hd Hx1].
    rewrite app_cons. cbn [has_char]. rewrite Hd. apply IH. exact Hx1.
  - cbn [has_char]. apply orb_false_iff. split; [apply Ascii.eqb_neq; exact Hm2|].
    clear -Hx2. induction x as [|d x IH]; [reflexivity|].
    cbn [has_char] in Hx2. apply orb_false_iff in Hx2 as [Hd Hx2].
    rewrite app_cons. cbn [has_char]. rewrite Hd. apply IH. exact Hx2.
Qed.

(** ** The pass over the configuration files, command by command *)

Lemma set_entry_idem k v v' entries :
  set_entry k v (set_entry k v' entries) = set_entry k v entries.
Proof.
  induction entries as [|[k0 v0] entries IH]; cbn [set_entry].
  - rewrite String.eqb_refl. reflexivity.
  - destruct (String.eqb k0 k) eqn:E; cbn [set_entry]; rewrite E; [reflexivity|].
    rewrite IH. reflexivity.
Qed.

Lemma set_entry_same k v entries :
  lookup_entry k entries = Some v -> set_entry k v entries = entries.
Proof.
  induction entries as [|[k0 v0] entries IH]; cbn [set_entry lookup_entry]; intros H.
  - discriminate H.
  - destruct (String.eqb k0 k); [injection H as ->; reflexivity|].
    rewrite IH by exact H. reflexivity.
Qed.

(** A manifest is the manifest with its own commands stored in it. *)
Lemma with_commands_same mentries centries cmds :
  lookup_entry "controller" mentries = Some (YMap centries) ->
  lookup_entry "commands" centries = Some (YMap cmds) ->
  YMap mentries = with_commands mentries centries cmds.
Proof.
  intros Hc Hcmds. unfold with_commands.
  rewrite (set_entry_same _ _ _ Hcmds), (set_entry_same _ _ _ Hc). reflexivity.
Qed.

Lemma map_pair_same (texts : list (string * string)) :
  map (fun kt => (kt.1, kt.2)) texts = texts.
Proof.
  induction texts as [|[k t] texts IH]; [reflexivity|].
  cbn [map fst snd]. rewrite IH. reflexivity.
Qed.

Lemma retext_nil g texts : retext g [] texts = texts.
Proof.
  unfold retext. cbn [existsb]. induction texts as [|kt texts IH]; [reflexivity|].
  cbn [map]. rewrite IH. reflexivity.
Qed.

Lemma retext_names g names texts : map fst (retext g names texts) = map fst texts.
Proof.
  unfold retext. induction texts as [|[k t] texts IH]; [reflexivity|].
  cbn [map fst]. rewrite IH. destruct (existsb _ names); reflexivity.
Qed.

Lemma retext_absent g n texts :
  ~ In n (map fst texts) -> retext g [n] texts = texts.
Proof.
  induction texts as [|[k t] texts IH]; intros Hn; [reflexivity|].
  cbn [map fst] in Hn. apply not_in_cons in Hn as [Hne Hn].
  change (retext g [n] ((k, t) :: texts)) with
    ((if existsb (String.eqb k) [n] then (k, g t) else (k, t)) :: retext g [n] texts).
  rewrite (IH Hn). cbn [existsb].
  destruct (String.eqb k n) eqn:E; [|reflexivity].
  apply String.eqb_eq in E. congruence.
Qed.

(** Storing a new text under a name of the commands. *)
Lemma set_entry_retext g n s texts :
  List.NoDup (map fst texts) ->
  lookup_entry n (commands_of texts) = Some (YStr s) ->
  set_entry n (YStr (g s)) (commands_of texts) = commands_of (retext g [n] texts).
Proof.
  induction texts as [|[k t] texts IH]; intros Hnodup Hs; [discriminate Hs|].
  cbn [map fst] in Hnodup. apply List.NoDup_cons_iff in Hnodup as [Hk Hnodup].
  cbn [commands_of map fst snd lookup_entry set_entry] in Hs |- *.
  destruct (String.eqb k n) eqn:E.
  - apply String.eqb_eq in E. subst k. injection Hs as <-.
    change (retext g [n] ((n, t) :: texts)) with
      ((if existsb (String.eqb n) [n] then (n, g t) else (n, t)) :: retext g [n] texts).
    cbn [existsb]. rewrite String.eqb_refl. cbn [orb commands_of map fst snd].
    rewrite retext_absent by exact Hk. reflexivity.
  - change (retext g [n] ((k, t) :: texts)) with
      ((if existsb (String.eqb k) [n] then (k, g t) else (k, t)) :: retext g [n] texts).
    cbn [existsb]. rewrite E. cbn [orb commands_of map fst snd].
    fold (commands_of texts). rewrite (IH Hnodup Hs). reflexivity.
Qed.

Lemma retext_cons g n names texts :
  ~ In n names ->
  retext g names (retext g [n] texts) = retext g (n :: names) texts.
Proof.
  intros Hn. unfold retext. rewrite map_map. apply map_ext. intros [k t].
  cbn [existsb fst snd]. destruct (String.eqb k n) eqn:E; cbn [orb fst snd].
  - apply String.eqb_eq in E. subst k.
    destruct (existsb (String.eqb n) names) eqn:Hex; [|reflexivity].
    apply existsb_exists in Hex as [y [Hy Heq]]. apply String.eqb_eq in Heq. subst y. tauto.
  - reflexivity.
Qed.

Lemma retext_all g texts :
  retext g (map fst texts) texts = map (fun kt => (kt.1, g kt.2)) texts.
Proof.
  unfold retext. apply map_ext_in. intros [k t] Hin. cbn [fst snd].
  destruct (existsb (String.eqb k) (map fst texts)) eqn:Hex; [reflexivity|].
  assert (Hk : existsb (String.eqb k) (map fst texts) = true).
  { apply existsb_exists. exists k. split; [|apply String.eqb_refl].
    apply in_map_iff. exists (k, t). auto. }
  congruence.
Qed.

Lemma lookup_commands_of n s texts :
  List.NoDup (map fst texts) -> In (n, s) texts ->
  lookup_entry n (commands_of texts) = Some (YStr s).
Proof.
  induction texts as [|[k t] texts IH]; intros Hnodup Hin; [destruct Hin|].
  cbn [map fst] in Hnodup. apply List.NoDup_cons_iff in Hnodup as [Hk Hnodup].
  cbn [commands_of map fst snd lookup_entry]. destruct Hin as [Heq|Hin].
  - injection Heq as -> ->. rewrite String.eqb_refl. reflexivity.
  - destruct (String.eqb k n) eqn:E; [|apply IH; assumption].
    apply String.eqb_eq in E. subst k. exfalso. apply Hk.
    apply in_map_iff. exists (n, s). auto.
Qed.

Lemma lookup_commands_of_name n texts :
  In n (map fst texts) -> exists s, lookup_entry n (commands_of texts) = Some (YStr s).
Proof.
  induction texts as [|[k t] texts IH]; intros Hin; [destruct Hin|].
  cbn [commands_of map fst snd lookup_entry]. destruct (String.eqb k n) eqn:E.
  - exists t. reflexivity.
  - destruct Hin as [Heq|Hin]; [|apply IH; exact Hin].
    cbn in Heq. subst k. rewrite String.eqb_refl in E. discriminate E.
Qed.

Section ConfigurationPass.

Variable py_repr : yaml -> string.
Variable tmp : string.
Variables mentries centries : list (string * yaml).
Variable d : FS.
Variable directory : option string.

(** [self.manifest['controller']['commands']] of a manifest with commands. *)
Lemma controller_item_commands cmds :
  m_node_setup.controller_item "commands"
    (node_world d directory (with_commands mentries centries cmds)) =
  (Ok (YMap cmds), node_world d directory (with_commands mentries centries cmds)).
Proof.
  unfold m_node_setup.controller_item, bind, get, lift, node_world, with_commands.
  cbn [m_node_setup.self m_node_setup.manifest getitem].
  rewrite lookup_set_entry_eq. cbn [getitem]. rewrite lookup_set_entry_eq. reflexivity.
Qed.

Lemma controller_item_other table cmds :
  table <> "commands" ->
  m_node_setup.controller_item table
    (node_world d directory (with_commands mentries centries cmds)) =
  (getitem (YMap centries) table, node_world d directory (with_commands mentries centries cmds)).
Proof.
  intros Hne.
  unfold m_node_setup.controller_item, bind, get, lift, node_world, with_commands.
  cbn [m_node_setup.self m_node_setup.manifest getitem].
  rewrite lookup_set_entry_eq. cbn [getitem]. rewrite lookup_set_entry_ne by exact Hne.
  destruct (lookup_entry table centries); reflexivity.
Qed.

Lemma store_command_commands name v cmds :
  m_node_setup.store_command name v
    (node_world d directory (with_commands mentries centries cmds)) =
  (Ok tt, node_world d directory (with_commands mentries centries (set_entry name v cmds))).
Proof.
  unfold m_node_setup.store_command, bind, get, lift, node_world, with_commands.
  cbn [m_node_setup.self m_node_setup.manifest getitem].
  rewrite lookup_set_entry_eq. cbn [getitem]. rewrite lookup_set_entry_eq.
  cbn [setitem]. unfold m_node_setup.on_self, modify, m_node_setup.set_manifest.
  cbn [m_node_setup.self m_node_setup.manifest m_node_setup.disk
       m_node_setup.temp_directory].
  rewrite !set_entry_idem. reflexivity.
Qed.

(** The inner loop: every name it visits gets its text replaced, once. *)
Lemma replace_commands_state (f old : string) : forall names texts,
  List.NoDup names -> (forall n, In n names -> In n (map fst texts)) ->
  List.NoDup (map fst texts) ->
  for_each names
    (fun cmd_name =>
       commands <- m_node_setup.controller_item "commands" ;;
       cmd <- lift (getitem commands cmd_name) ;;
       replace <- lift (replace_method cmd) ;;
       cfile_name <- lift (fspath (YStr f)) ;;
       m_node_setup.store_command cmd_name
         (YStr (replace old
                  (posixpath.join
                     (posixpath.join tmp m_node_setup.CONTROLLER_CONFIGURATION_FILES_SUBDIR)
                     cfile_name))))
    (node_world d directory (with_commands mentries centries (commands_of texts))) =
  (Ok tt,
   node_world d directory
     (with_commands mentries centries
        (commands_of (retext (fun s => Str.replace s old (configuration_path tmp f))
                        names texts)))).
Proof.
  induction names as [|n names IH]; intros texts Hnames Hsub Hnodup.
  - rewrite retext_nil. reflexivity.
  - apply List.NoDup_cons_iff in Hnames as [Hn Hnames].
    destruct (lookup_commands_of_name n texts (Hsub n (or_introl eq_refl))) as [s Hs].
    cbn [for_each]. unfold bind at 1. unfold bind at 1.
    rewrite controller_item_commands.
    unfold bind at 1. unfold lift at 1. cbn [getitem]. rewrite Hs.
    unfold bind at 1. unfold lift at 1.
    change (replace_method (YStr s)) with (@Ok (string -> string -> string) (Str.replace s)).
    cbn iota.
    unfold bind at 1. unfold lift at 1. change (fspath (YStr f)) with (@Ok string f).
    cbn iota. rewrite store_command_commands.
    change (posixpath.join (posixpath.join tmp m_node_setup.CONTROLLER_CONFIGURATION_FILES_SUBDIR) f)
      with (configuration_path tmp f).
    rewrite (set_entry_retext (fun s => Str.replace s old (configuration_path tmp f))
               n s texts Hnodup Hs).
    rewrite IH.
    + rewrite retext_cons by exact Hn. reflexivity.
    + exact Hnames.
    + intros k Hk. rewrite retext_names. apply Hsub. right. exact Hk.
    + rewrite retext_names. exact Hnodup.
Qed.

(** One entry of the table: its placeholder is replaced in every command. *)
Lemma resolve_configuration_file_state entry cf texts :
  id_and_file entry cf -> List.NoDup (map fst texts) ->
  m_node_setup.resolve_configuration_file py_repr tmp entry
    (node_world d directory (with_commands mentries centries (commands_of texts))) =
  (Ok tt,
   node_world d directory
     (with_commands mentries centries
        (commands_of (map (fun kt => (kt.1, resolve_text py_repr tmp [cf] kt.2)) texts)))).
Proof.
  intros [Hid Hfile] Hnodup. unfold m_node_setup.resolve_configuration_file.
  unfold bind at 1. unfold lift at 1. rewrite Hid.
  unfold bind at 1. unfold lift at 1. rewrite Hfile.
  unfold bind at 1. rewrite controller_item_commands.
  unfold bind at 1. unfold lift at 1. cbn [items_names].
  assert (Hnames : map fst (commands_of texts) = map fst texts).
  { unfold commands_of. rewrite map_map. reflexivity. }
  rewrite Hnames.
  rewrite (replace_commands_state cf.2 ("<#" +:+ py_str py_repr cf.1 +:+ ">") (map fst texts)
             texts Hnodup (fun n Hn => Hn) Hnodup).
  rewrite retext_all. reflexivity.
Qed.

(** The loop over the table: every command goes through the replacements
    of all the entries, in the order of the table. *)
Lemma resolve_configuration_entries_state entries cfs : forall texts,
  Forall2 id_and_file entries cfs -> List.NoDup (map fst texts) ->
  for_each entries (m_node_setup.resolve_configuration_file py_repr tmp)
    (node_world d directory (with_commands mentries centries (commands_of texts))) =
  (Ok tt,
   node_world d directory
     (with_commands mentries centries
        (commands_of (map (fun kt => (kt.1, resolve_text py_repr tmp cfs kt.2)) texts)))).
Proof.
  intros texts H. revert texts.
  induction H as [|entry cf entries cfs Hentry _ IH]; intros texts Hnodup.
  - cbn [for_each]. unfold ret, resolve_text. cbn [foldl].
    rewrite map_pair_same. reflexivity.
  - cbn [for_each]. unfold bind at 1.
    rewrite (resolve_configuration_file_state entry cf texts Hentry Hnodup).
    rewrite IH.
    + rewrite map_map. reflexivity.
    + rewrite map_map. exact Hnodup.
Qed.

Lemma falsy_iterate v entries :
  truthy v = false -> iterate v = Ok entries -> entries = [].
Proof.
  destruct v as [[s|z|b|]|items|entries']; cbn; intros Ht Hi; try discriminate Hi;
    injection Hi as <-.
  - destruct s; [reflexivity | discriminate Ht].
  - destruct items; [reflexivity | discriminate Ht].
  - destruct entries'; [reflexivity | discriminate Ht].
Qed.

(** The pass over the configuration files on a manifest whose commands
    are the strings [texts]. *)
Lemma resolve_configuration_files_state table entries cfs texts :
  lookup_entry "configuration_files" centries = Some table ->
  iterate table = Ok entries ->
  Forall2 id_and_file entries cfs ->
  List.NoDup (map fst texts) ->
  m_node_setup.resolve_configuration_files py_repr tmp
    (node_world d directory (with_commands mentries centries (commands_of texts))) =
  (Ok tt,
   node_world d directory
     (with_commands mentries centries
        (commands_of (map (fun kt => (kt.1, resolve_text py_repr tmp cfs kt.2)) texts)))).
Proof.
  intros Ht Hiter Hentries Hnodup. unfold m_node_setup.resolve_configuration_files.
  unfold bind at 1. rewrite controller_item_other by discriminate.
  cbn [getitem]. rewrite Ht.
  destruct (truthy table) eqn:Htruthy.
  - unfold bind at 1. rewrite controller_item_other by discriminate.
    cbn [getitem]. rewrite Ht.
    unfold bind at 1. unfold lift at 1. rewrite Hiter.
    apply resolve_configuration_entries_state; assumption.
  - rewrite (falsy_iterate _ _ Htruthy Hiter) in Hentries.
    inversion Hentries; subst.
    exact (resolve_configuration_entries_state [] [] texts Hentries Hnodup).
Qed.

End ConfigurationPass.

Section SerialModule.

Variable tmp : string.
Variables mentries centries sentries cmds : list (string * yaml).
Variable d : FS.
Variable directory : option string.
Variable module : string.


End SerialModule.

(** ** The profile that loads *)



(** ** The placeholders of the table are resolved *)

Lemma has_char_app c a b : has_char c (a +:+ b) = (has_char c a || has_char c b)%bool.
Proof.
  induction a as [|x a IH]; [reflexivity|].
  rewrite app_cons. cbn [has_char]. rewrite IH. apply orb_assoc.
Qed.

(** A path joined to an absolute path is absolute; a character other
    than the separator that is in neither part is not in the path. *)
Lemma join_stays_absolute a b :
  Str.startswith "/" a = true -> Str.startswith "/" (posixpath.join a b) = true.
Proof.
  intros Ha. unfold posixpath.join.
  destruct (Str.startswith "/" b) eqn:Hb; [exact Hb|].
  destruct a as [|c a]; [discriminate Ha|].
  destruct (String.eqb (String c a) "" || Str.endswith_char posixpath.sep (String c a))%bool;
    rewrite app_cons; exact Ha.
Qed.

Lemma join_without c a b :
  c <> "/"%char -> has_char c a = false -> has_char c b = false ->
  has_char c (posixpath.join a b) = false.
Proof.
  intros Hc Ha Hb. unfold posixpath.join.
  destruct (Str.startswith "/" b); [exact Hb|].
  destruct (String.eqb a "" || Str.endswith_char posixpath.sep a)%bool;
    rewrite !has_char_app, Ha, Hb; [reflexivity|].
  cbn [has_char orb]. rewrite !orb_false_r.
  apply Ascii.eqb_neq. congruence.
Qed.

Lemma configuration_path_plain tmp f :
  Str.startswith "/" tmp = true -> has_char "<" tmp = false -> has_char "<" f = false ->
  Str.startswith "/" (configuration_path tmp f) = true /\
  has_char "<" (configuration_path tmp f) = false.
Proof.
  intros Habs Htmp Hf. unfold configuration_path. split.
  - apply join_stays_absolute, join_stays_absolute. exact Habs.
  - apply join_without; [discriminate | | exact Hf].
    apply join_without; [discriminate | exact Htmp | reflexivity].
Qed.

Section ResolvedText.

Variable py_repr : yaml -> string.
Variable tmp : string.

Hypothesis tmp_absolute : Str.startswith "/" tmp = true.
Hypothesis tmp_plain : has_char "<" tmp = false.

(** A placeholder that is not in a text is not in the resolved text. *)
Lemma resolve_text_creates_none x cfs : forall s,
  has_char "<" x = false -> has_char "/" x = false ->
  (forall cf, In cf cfs -> has_char "<" cf.2 = false) ->
  Str.contains (token "#" x) s = false ->
  Str.contains (token "#" x) (resolve_text py_repr tmp cfs s) = false.
Proof using tmp_absolute tmp_plain.
  induction cfs as [|cf cfs IH]; intros s Hx1 Hx2 Hfiles Hs; [exact Hs|].
  unfold resolve_text. cbn [foldl]. apply IH; try assumption.
  - intros cf' Hcf'. apply Hfiles. right. exact Hcf'.
  - destruct (configuration_path_plain tmp cf.2 tmp_absolute tmp_plain
                (Hfiles cf (or_introl eq_refl))) as [Hp1 Hp2].
    change ("<#" +:+ py_str py_repr cf.1 +:+ ">") with (token "#" (py_str py_repr cf.1)).
    apply replace_creates_no_token; try assumption; discriminate.
Qed.

(** The placeholder of an entry is not in the resolved text. *)
Lemma resolve_text_removes cfs : forall s cf,
  In cf cfs ->
  (forall cf', In cf' cfs ->
     has_char "<" (py_str py_repr cf'.1) = false /\
     has_char "/" (py_str py_repr cf'.1) = false /\
     has_char "<" cf'.2 = false) ->
  Str.contains (token "#" (py_str py_repr cf.1)) (resolve_text py_repr tmp cfs s) = false.
Proof using tmp_absolute tmp_plain.
  induction cfs as [|cf0 cfs IH]; intros s cf Hin Hplain; [destruct Hin|].
  assert (Hrest : forall cf', In cf' cfs ->
            has_char "<" (py_str py_repr cf'.1) = false /\
            has_char "/" (py_str py_repr cf'.1) = false /\
            has_char "<" cf'.2 = false).
  { intros cf' Hcf'. apply Hplain. right. exact Hcf'. }
  destruct Hin as [->|Hin].
  - destruct (Hplain cf (or_introl eq_refl)) as [Hx1 [Hx2 Hf]].
    destruct (configuration_path_plain tmp cf.2 tmp_absolute tmp_plain Hf) as [Hp1 Hp2].
    unfold resolve_text. cbn [foldl].
    apply (resolve_text_creates_none (py_str py_repr cf.1) cfs); try assumption.
    + intros cf' Hcf'. apply (Hrest cf' Hcf').
    + change ("<#" +:+ py_str py_repr cf.1 +:+ ">") with (token "#" (py_str py_repr cf.1)).
      apply replace_removes_token; try assumption; discriminate.
  - unfold resolve_text. cbn [foldl]. apply (IH _ cf Hin Hrest).
Qed.

End ResolvedText.

(** The pass over the configuration files on a manifest whose commands
    are strings under distinct names and whose table entries have an id
    and a file name: when the workspace path is absolute, neither it nor
    a file name contains [<], and no id, as [str.format] prints it,
    contains [<] or [/], the pass returns, and afterwards no command
    contains the placeholder [<#id>] of any entry of the table. *)
Theorem declared_placeholders_are_resolved
    (py_repr : yaml -> string) (tmp : string) (w : m_node_setup.world)
    (mentries centries : list (string * yaml)) (texts : list (string * string))
    (table : yaml) (entries : list yaml) (cfs : list (yaml * string)) :
  m_node_setup.manifest (m_node_setup.self w) = YMap mentries ->
  lookup_entry "controller" mentries = Some (YMap centries) ->
  lookup_entry "commands" centries = Some (YMap (commands_of texts)) ->
  List.NoDup (map fst texts) ->
  lookup_entry "configuration_files" centries = Some table ->
  iterate table = Ok entries ->
  Forall2 id_and_file entries cfs ->
  Str.startswith "/" tmp = true ->
  has_char "<" tmp = false ->
  (forall cf, In cf cfs ->
     has_char "<" (py_str py_repr cf.1) = false /\
     has_char "/" (py_str py_repr cf.1) = false /\
     has_char "<" cf.2 = false) ->
  exists w',
    m_node_setup.resolve_configuration_files py_repr tmp w = (Ok tt, w') /\
    forall n cf, In n (map fst texts) -> In cf cfs ->
      exists cmd,
        command (m_node_setup.manifest (m_node_setup.self w')) n = Ok (YStr cmd) /\
        Str.contains (token "#" (py_str py_repr cf.1)) cmd = false.
Proof.
  intros Hm Hc Hcmds Hnodup Ht Hiter Hentries Habs Htmp Hplain.
  destruct w as [d [directory m]].
  cbn [m_node_setup.manifest m_node_setup.self] in Hm. subst m.
  rewrite (with_commands_same mentries centries (commands_of texts) Hc Hcmds).
  fold (node_world d directory (with_commands mentries centries (commands_of texts))).
  rewrite (resolve_configuration_files_state py_repr tmp mentries centries d directory
             table entries cfs texts Ht Hiter Hentries Hnodup).
  eexists. split; [reflexivity|].
  intros n cf Hn Hcf. apply in_map_iff in Hn as [[n' s] [Heq Hin]]. cbn in Heq. subst n'.
  exists (resolve_text py_repr tmp cfs s). split.
  - unfold command, node_world, with_commands.
    cbn [m_node_setup.manifest m_node_setup.self getitem].
    rewrite lookup_set_entry_eq. cbn [result_bind getitem].
    rewrite lookup_set_entry_eq. cbn [result_bind getitem].
    rewrite (lookup_commands_of n (resolve_text py_repr tmp cfs s)
               (map (fun kt => (kt.1, resolve_text py_repr tmp cfs kt.2)) texts)).
    + reflexivity.
    + rewrite map_map. exact Hnodup.
    + apply in_map_iff. exists (n, s). auto.
  - apply resolve_text_removes; assumption.
Qed.

Lemma declared_placeholders_are_resolved_witness :
  exists w',
    m_node_setup.resolve_configuration_files (fun _ => "") "/tmp/tmpa1b2c3d4"
      (profile_parsed "/" "/tmp/tmpa1b2c3d4" (Sample.profile_archive []) ∅
         (Sample.profile_manifest []
            [Sample.entry "cfg1" "node.conf"; Sample.entry "cfg2" "radio.conf"]
            "start <#cfg2> <#cfg1> <#cfg2>" (Sample.serial_settings Sample.baudrate))) =
      (Ok tt, w') /\
    exists cmd,
      command (m_node_setup.manifest (m_node_setup.self w')) "start" = Ok (YStr cmd) /\
      Str.contains (token "#" "cfg2") cmd = false.
Proof.
  destruct (declared_placeholders_are_resolved (fun _ => "") "/tmp/tmpa1b2c3d4"
              (profile_parsed "/" "/tmp/tmpa1b2c3d4" (Sample.profile_archive []) ∅
                 (Sample.profile_manifest []
                    [Sample.entry "cfg1" "node.conf"; Sample.entry "cfg2" "radio.conf"]
                    "start <#cfg2> <#cfg1> <#cfg2>" (Sample.serial_settings Sample.baudrate)))
              [("hardware", YStr "board");
               ("controller",
                YMap [("commands",
                       YMap [("load", YStr "load");
                             ("start", YStr "start <#cfg2> <#cfg1> <#cfg2>");
                             ("stop", YStr "stop");
                             ("reset", YStr "reset")]);
                      ("executables", YSeq []);
                      ("configuration_files",
                       YSeq [Sample.entry "cfg1" "node.conf";
                             Sample.entry "cfg2" "radio.conf"])]);
               ("serial", Sample.serial_settings Sample.baudrate)]
              [("commands",
                YMap [("load", YStr "load");
                      ("start", YStr "start <#cfg2> <#cfg1> <#cfg2>");
                      ("stop", YStr "stop");
                      ("reset", YStr "reset")]);
               ("executables", YSeq []);
               ("configuration_files",
                YSeq [Sample.entry "cfg1" "node.conf"; Sample.entry "cfg2" "radio.conf"])]
              [("load", "load"); ("start", "start <#cfg2> <#cfg1> <#cfg2>"); ("stop", "stop");
               ("reset", "reset")]
              (YSeq [Sample.entry "cfg1" "node.conf"; Sample.entry "cfg2" "radio.conf"])
              [Sample.entry "cfg1" "node.conf"; Sample.entry "cfg2" "radio.conf"]
              [(YStr "cfg1", "node.conf"); (YStr "cfg2", "radio.conf")])
    as [w' [Hrun Hnone]].
  - reflexivity.
  - reflexivity.
  - reflexivity.
  - cbn [map fst]. repeat constructor; cbn; intuition discriminate.
  - reflexivity.
  - reflexivity.
  - repeat constructor.
  - reflexivity.
  - reflexivity.
  - intros cf [<-|[<-|[]]]; repeat split; reflexivity.
  - exists w'. split; [exact Hrun|].
    exact (Hnone "start" (YStr "cfg2", "radio.conf") (or_intror (or_introl eq_refl))
             (or_intror (or_introl eq_refl))).
Defined.

(** ** A command that is not a string *)





Section NonStringCommand.

Variable py_repr : yaml -> string.
Variable tmp : string.
Variables mentries centries : list (string * yaml).
Variable d : FS.
Variable directory : option string.
Variable bad : string.
Variable v : yaml.

Hypothesis not_a_string : forall s, v <> YStr s.



End NonStringCommand.



(** ** C5: the files of the tables *)

(** C5, as the code has it: the experiment loader tests the file of every
    firmware entry, the node loader tests none.  When the constructor of
    the experiment loader returns, the firmware table of its manifest
    iterates into entries that each have an [id] and a [file] whose path,
    [firmwares/] and the file name below the workspace, is a regular file
    of the disk; every binding of [self.firmwares] is the id of such an
    entry with the path of an entry of that id, and that path is a
    regular file.  A round of the loop on an entry whose path is not a
    regular file raises the exception formatted from the declared file
    name.  The node loader resolves no executable entry: its constructor
    returns only when the executable table is empty.  And on any disk,
    its pass over configuration-file entries that have an id and a file
    name, the commands being strings, returns with the path of every
    file substituted in the commands, and leaves the disk as it is. *)
Theorem registered_firmwares_exist
    (cwd : string) (yaml_load : string -> result yaml) (py_repr : yaml -> string)
    (tmp : string) (archive : tarfile.TarFile) (d : FS) (w : m_experiment_setup.world) :
  (m_experiment_setup.__init__ cwd yaml_load tmp archive (m_experiment_setup.fresh d) =
     (Ok tt, w) ->
   exists table entries,
     getitem (m_experiment_setup.manifest (m_experiment_setup.self w)) "firmwares" = Ok table /\
     iterate table = Ok entries /\
     (forall e, In e entries ->
        exists k f,
          table_entry e k f /\
          isfile cwd (m_experiment_setup.disk w)
            (posixpath.join (posixpath.join tmp m_experiment_setup.FIRMWARES_SUBDIR) f) = true /\
          is_Some (m_experiment_setup.firmwares (m_experiment_setup.self w) !! k)) /\
     (forall k p,
        m_experiment_setup.firmwares (m_experiment_setup.self w) !! k = Some p ->
        isfile cwd (m_experiment_setup.disk w) p = true /\
        exists e f, In e entries /\ table_entry e k f /\
          p = posixpath.join (posixpath.join tmp m_experiment_setup.FIRMWARES_SUBDIR) f)) /\
  (forall (e : yaml) (k : pykey) (f : string) (w0 : m_experiment_setup.world),
     table_entry e k f ->
     isfile cwd (m_experiment_setup.disk w0)
       (posixpath.join (posixpath.join tmp m_experiment_setup.FIRMWARES_SUBDIR) f) = false ->
     (m_experiment_setup.register_firmware cwd
        (posixpath.join tmp m_experiment_setup.FIRMWARES_SUBDIR) e w0).1 =
       Raise (ExperimentSetupException (ERROR_MISSING_ARGUMENT_IN_ARCHIVE (Text f)))) /\
  (forall (wn : m_node_setup.world) (text : string) (m : yaml),
     m_node_setup.__init__ cwd yaml_load py_repr tmp archive (m_node_setup.fresh d) =
       (Ok tt, wn) ->
     read_file cwd (extracted cwd tmp m_node_setup.PROFILE_FILENAME archive d)
       (posixpath.join tmp m_node_setup.PROFILE_MANIFEST) = Ok text ->
     yaml_load text = Ok m ->
     exists table,
       result_bind (getitem m "controller")
         (fun controller => getitem controller "executables") = Ok table /\
       truthy table = false) /\
  (forall (disk : FS) (directory : option string)
          (mentries centries : list (string * yaml)) (texts : list (string * string))
          (table : yaml) (entries : list yaml) (cfs : list (yaml * string)),
     lookup_entry "controller" mentries = Some (YMap centries) ->
     lookup_entry "commands" centries = Some (YMap (commands_of texts)) ->
     List.NoDup (map fst texts) ->
     lookup_entry "configuration_files" centries = Some table ->
     iterate table = Ok entries ->
     Forall2 id_and_file entries cfs ->
     exists wn,
       m_node_setup.resolve_configuration_files py_repr tmp
         (node_world disk directory (YMap mentries)) = (Ok tt, wn) /\
       m_node_setup.disk wn = disk /\
       forall n s, In (n, s) texts ->
         command (m_node_setup.manifest (m_node_setup.self wn)) n =
           Ok (YStr (resolve_text py_repr tmp cfs s))).
Proof.
  split; [|split; [|split]].
  - intros H.
    destruct (experiment_returned _ _ _ _ _ _ H)
      as [text [m [table [sched [entries
            [Hall [Hcheck [Hextract [Hread [Hload [Hfw [Hsched Hiter]]]]]]]]]]]].
    rewrite (experiment_reaches_the_table cwd yaml_load tmp archive d text m table sched entries
               Hall Hcheck Hextract Hread Hload Hfw Hsched Hiter) in H.
    apply bind_ok_inv in H as [[] [w1 [Hloop Htail]]].
    apply loop_returned in Hloop as [Hd [Hm [_ [_ [Hentries Hmap]]]]].
    cbn [m_experiment_setup.disk m_experiment_setup.self m_experiment_setup.manifest
         m_experiment_setup.firmwares] in Hd, Hm, Hentries, Hmap.
    unfold bind, get, lift in Htail. rewrite Hm, Hsched in Htail.
    unfold m_experiment_setup.on_self, modify in Htail. injection Htail as <-.
    cbn [m_experiment_setup.disk m_experiment_setup.self m_experiment_setup.manifest
         m_experiment_setup.firmwares m_experiment_setup.set_schedule].
    rewrite Hm, Hd. exists table, entries. repeat split; try assumption.
    + destruct (Hmap k p H) as [Hempty|[e [f [Hin [He [-> Hf]]]]]].
      * rewrite lookup_empty in Hempty. discriminate Hempty.
      * exact Hf.
    + destruct (Hmap k p H) as [Hempty|[e [f [Hin [He [-> Hf]]]]]].
      * rewrite lookup_empty in Hempty. discriminate Hempty.
      * exists e, f. auto.
  - intros e k f w0 He Hf.
    rewrite (register_firmware_entry cwd _ e k f w0 He). rewrite Hf. reflexivity.
  - intros wn text m Hinit Hread Hload.
    destruct (node_returned cwd yaml_load py_repr tmp archive d wn text m Hinit Hread Hload)
      as [w2 [w3 [[v Hv] [Hexec _]]]].
    apply resolve_executables_returned with (v := v) in Hexec as [_ Htable]; [|exact Hv].
    exact Htable.
  - intros disk directory mentries centries texts table entries cfs
      Hc Hcmds Hnodup Ht Hiter Hentries.
    rewrite (with_commands_same mentries centries (commands_of texts) Hc Hcmds).
    rewrite (resolve_configuration_files_state py_repr tmp mentries centries disk directory
               table entries cfs texts Ht Hiter Hentries Hnodup).
    eexists. split; [reflexivity|]. split; [reflexivity|].
    intros n s Hin. unfold command, node_world, with_commands.
    cbn [m_node_setup.manifest m_node_setup.self getitem].
    rewrite lookup_set_entry_eq. cbn [result_bind getitem].
    rewrite lookup_set_entry_eq. cbn [result_bind getitem].
    rewrite (lookup_commands_of n (resolve_text py_repr tmp cfs s)
               (map (fun kt => (kt.1, resolve_text py_repr tmp cfs kt.2)) texts)).
    + reflexivity.
    + rewrite map_map. exact Hnodup.
    + apply in_map_iff. exists (n, s). auto.
Qed.

Lemma registered_firmwares_exist_witness :
  exists table entries,
    getitem (m_experiment_setup.manifest (m_experiment_setup.self
               (Sample.load_experiment (Sample.experiment_archive [])
                  (Sample.experiment_manifest
                     [Sample.entry "f1" "a.bin"; Sample.entry "f2" "b.bin"])).2))
      "firmwares" = Ok table /\
    iterate table = Ok entries /\
    (forall e, In e entries ->
       exists k f,
         table_entry e k f /\
         isfile "/"
           (m_experiment_setup.disk
              (Sample.load_experiment (Sample.experiment_archive [])
                 (Sample.experiment_manifest
                    [Sample.entry "f1" "a.bin"; Sample.entry "f2" "b.bin"])).2)
           (posixpath.join (posixpath.join "/tmp/tmpa1b2c3d4" m_experiment_setup.FIRMWARES_SUBDIR) f) = true /\
         is_Some (m_experiment_setup.firmwares (m_experiment_setup.self
                    (Sample.load_experiment (Sample.experiment_archive [])
                       (Sample.experiment_manifest
                          [Sample.entry "f1" "a.bin"; Sample.entry "f2" "b.bin"])).2) !! k)) /\
    (forall k p,
       m_experiment_setup.firmwares (m_experiment_setup.self
         (Sample.load_experiment (Sample.experiment_archive [])
            (Sample.experiment_manifest
               [Sample.entry "f1" "a.bin"; Sample.entry "f2" "b.bin"])).2) !! k = Some p ->
       isfile "/"
         (m_experiment_setup.disk
            (Sample.load_experiment (Sample.experiment_archive [])
               (Sample.experiment_manifest
                  [Sample.entry "f1" "a.bin"; Sample.entry "f2" "b.bin"])).2) p = true /\
       exists e f, In e entries /\ table_entry e k f /\
         p = posixpath.join (posixpath.join "/tmp/tmpa1b2c3d4" m_experiment_setup.FIRMWARES_SUBDIR) f).
Proof.
  exact (proj1 (registered_firmwares_exist "/"
                  (fun _ => Ok (Sample.experiment_manifest
                                  [Sample.entry "f1" "a.bin"; Sample.entry "f2" "b.bin"]))
                  (fun _ => "")
                  "/tmp/tmpa1b2c3d4" (Sample.experiment_archive []) ∅
                  (Sample.load_experiment (Sample.experiment_archive [])
                     (Sample.experiment_manifest
                        [Sample.entry "f1" "a.bin"; Sample.entry "f2" "b.bin"])).2)
               eq_refl).
Defined.

(** C5 as stated fails for the node profile: the constructor returns on a
    configuration-file entry whose file is nowhere on the disk, and the
    command holds the path of that file. *)
Lemma missing_configuration_file_is_accepted :
  (Sample.load_profile (Sample.profile_archive [])
     (Sample.profile_manifest [] [Sample.entry "cfg1" "missing.conf"] "start <#cfg1>"
        (Sample.serial_settings Sample.baudrate))).1 = Ok tt /\
  isfile "/"
    (m_node_setup.disk
       (Sample.load_profile (Sample.profile_archive [])
          (Sample.profile_manifest [] [Sample.entry "cfg1" "missing.conf"] "start <#cfg1>"
             (Sample.serial_settings Sample.baudrate))).2)
    "/tmp/tmpa1b2c3d4/controller/configuration_files/missing.conf" = false /\
  command
    (m_node_setup.manifest (m_node_setup.self
       (Sample.load_profile (Sample.profile_archive [])
          (Sample.profile_manifest [] [Sample.entry "cfg1" "missing.conf"]
             "start <#cfg1>" (Sample.serial_settings Sample.baudrate))).2))
    "start" =
  Ok (YStr "start /tmp/tmpa1b2c3d4/controller/configuration_files/missing.conf").
Proof. repeat split; vm_compute; reflexivity. Qed.
